(** * lovely-service: the request pipeline and its JSON envelope

    A shallow embedding of
      - service/data_classes/base.py       ([orjson_dumps], the envelopes),
      - service/middleware/utils.py        (the logging helpers),
      - service/middleware/middleware.py   ([prepare_data], [server_error_handler]),
    together with the fragments of Python, pydantic, aiohttp and orjson that
    these functions rely on.  Definitions come first, statements after. *)

From Stdlib Require Import ZArith NArith String Ascii List Bool Lia.
From Stdlib Require Import DecimalString DecimalN DecimalFacts.
From stdpp Require Import gmap strings.

Set Warnings "-register-all".

(** String concatenation computes on a literal prefix. *)
#[local] Arguments String.append !s1 s2.

Open Scope string_scope.
Open Scope Z_scope.

(* ===================================================================== *)
(** * Python values and exceptions *)
(* ===================================================================== *)

Module Py.

(** [datetime.datetime].  [tzinfo] is [None] for a naive value and
    otherwise carries the UTC offset in minutes. *)
Record datetime := mk_datetime {
  year : Z; month : Z; day : Z;
  hour : Z; minute : Z; second : Z; microsecond : Z;
  tzinfo : option Z
}.

(** [timezone.utc] *)
Definition utc : Z := 0.

(** [d.replace(tzinfo=tz)]: the wall-clock fields are kept as they are. *)
Definition replace_tzinfo (d : datetime) (tz : Z) : datetime :=
  {| year := year d; month := month d; day := day d;
     hour := hour d; minute := minute d; second := second d;
     microsecond := microsecond d; tzinfo := Some tz |}.

(** The objects that reach the JSON encoder.  A [dict] keeps insertion
    order and is an association list; its keys are strings, as the field
    names of a model are.  Strings stand for their UTF-8 bytes. *)
Inductive value :=
| PNone
| PBool (b : bool)
| PInt (z : Z)
| PStr (s : string)
| PUuid (canonical : string)
| PDatetime (d : datetime)
| PList (items : list value)
| PDict (fields : list (string * value)).

(** Induction over values, through the lists and dicts they nest. *)

Section ValueInduction.

Variable P : value -> Prop.
Hypothesis HNone : P PNone.
Hypothesis HBool : forall b, P (PBool b).
Hypothesis HInt : forall z, P (PInt z).
Hypothesis HStr : forall s, P (PStr s).
Hypothesis HUuid : forall s, P (PUuid s).
Hypothesis HDatetime : forall d, P (PDatetime d).
Hypothesis HList : forall items, Forall P items -> P (PList items).
Hypothesis HDict : forall fields, Forall (fun kv => P (snd kv)) fields -> P (PDict fields).

Fixpoint value_nested_ind (v : value) : P v :=
  match v with
  | PNone => HNone
  | PBool b => HBool b
  | PInt z => HInt z
  | PStr s => HStr s
  | PUuid s => HUuid s
  | PDatetime d => HDatetime d
  | PList items =>
      HList items
        ((fix all (l : list value) : Forall P l :=
            match l with
            | [] => @List.Forall_nil _ P
            | x :: r => @List.Forall_cons _ P x r (value_nested_ind x) (all r)
            end) items)
  | PDict fields =>
      HDict fields
        ((fix all (l : list (string * value)) : Forall (fun kv => P (snd kv)) l :=
            match l with
            | [] => @List.Forall_nil _ _
            | kv :: r => @List.Forall_cons _ (fun kv => P (snd kv)) kv r (value_nested_ind (snd kv)) (all r)
            end) fields)
  end.

End ValueInduction.

(** [d.get(key)] *)
Fixpoint dict_get (key : string) (d : list (string * value)) : option value :=
  match d with
  | [] => None
  | (k, v) :: r => if String.eqb k key then Some v else dict_get key r
  end.

(** [type(v).__name__] *)
Definition type_name (v : value) : string :=
  match v with
  | PNone => "NoneType"
  | PBool _ => "bool"
  | PInt _ => "int"
  | PStr _ => "str"
  | PUuid _ => "UUID"
  | PDatetime _ => "datetime"
  | PList _ => "list"
  | PDict _ => "dict"
  end.

(** The body and status line an aiohttp response carries. *)
Record response := mk_response {
  status : Z;
  text : string;
  content_type : string
}.

(** An exception instance: the name of its class, the names of the
    classes between that class and [Exception] in its MRO, and [str(e)].
    [exn_json] is [e.json(indent=0)] of a pydantic [ValidationError];
    [exn_http] is the response an aiohttp [HTTPException] is (such an
    exception is a [Response] too, and raising it answers the request).
    Every instance derives from [Exception]: signals that derive from
    [BaseException] only (interpreter exit, task cancellation) are not
    failures of a request and are outside the model. *)
Record exn := mk_exn {
  exn_type : string;
  exn_bases : list string;
  exn_str : string;
  exn_json : string;
  exn_http : option response
}.

(** [isinstance(e, cls)] for an exception class [cls]. *)
Definition isinstance (e : exn) (cls : string) : bool :=
  String.eqb cls "Exception"
  || String.eqb cls (exn_type e)
  || existsb (String.eqb cls) (exn_bases e).

Definition simple_exn (name : string) (bases : list string) (msg : string) : exn :=
  {| exn_type := name; exn_bases := bases; exn_str := msg;
     exn_json := ""; exn_http := None |}.

Definition TypeError (msg : string) : exn := simple_exn "TypeError" [] msg.
Definition AttributeError (msg : string) : exn := simple_exn "AttributeError" [] msg.

(** [json.JSONDecodeError] and [orjson.JSONDecodeError] derive from
    [ValueError]. *)
Definition JSONDecodeError (msg : string) : exn :=
  simple_exn "JSONDecodeError" ["ValueError"] msg.

(** [orjson.JSONEncodeError] is another name of [TypeError] itself: what
    [orjson.dumps] raises has the type name [TypeError]. *)
Definition JSONEncodeError (msg : string) : exn := TypeError msg.

(** pydantic's [ValidationError] derives from [ValueError]; it prints as
    [str_text] and serialises its error list as [json_text]. *)
Definition ValidationError (str_text json_text : string) : exn :=
  {| exn_type := "ValidationError"; exn_bases := ["ValueError"];
     exn_str := str_text; exn_json := json_text; exn_http := None |}.

(** How CPython (3.9 and later) names a class in the errors of a call:
    the qualified name, preceded by the module unless the class is a
    builtin. *)
Definition callee (module name : string) : string :=
  if String.eqb module "builtins" then name ++ "()"
  else module ++ "." ++ name ++ "()".

(** A call with keyword-argument unpacking whose operand is not a mapping. *)
Definition not_a_mapping (callee : string) (kwargs : value) : exn :=
  TypeError (callee ++ " argument after ** must be a mapping, not "
                    ++ type_name kwargs).

End Py.

Export Py.

(* ===================================================================== *)
(** * orjson: [dumps] with its date options, and [loads] *)
(* ===================================================================== *)

Module Orjson.

(** Option bits of [orjson.dumps] (only the options that change how the
    values above are written are interpreted). *)
Definition OPT_NAIVE_UTC : Z := Z.shiftl 1 1.
Definition OPT_OMIT_MICROSECONDS : Z := Z.shiftl 1 3.
Definition OPT_UTC_Z : Z := Z.shiftl 1 7.

Definition has_option (opt flag : Z) : bool := negb (Z.land opt flag =? 0).

Definition dquote : ascii := "034"%char.
Definition backslash : ascii := "092"%char.

(** ** Dates *)

Definition digit (n : Z) : ascii := ascii_of_N (48 + Z.to_N (n mod 10)).

Definition pad2 (n : Z) : string := String (digit (n / 10)) (String (digit n) "").

Definition pad4 (n : Z) : string :=
  String (digit (n / 1000)) (String (digit (n / 100)) (pad2 n)).

Definition pad6 (n : Z) : string :=
  String (digit (n / 100000)) (String (digit (n / 10000)) (pad4 n)).

(** The fractional part: left out when it is zero or when
    [OPT_OMIT_MICROSECONDS] is set. *)
Definition render_fraction (opt : Z) (us : Z) : string :=
  if has_option opt OPT_OMIT_MICROSECONDS || (us =? 0) then ""
  else String "." (pad6 us).

(** The offset: nothing for a naive value (unless [OPT_NAIVE_UTC] makes it
    UTC), [Z] for UTC under [OPT_UTC_Z], and [+HH:MM] otherwise. *)
Definition render_offset (opt : Z) (tz : option Z) : string :=
  let tz := match tz with
            | None => if has_option opt OPT_NAIVE_UTC then Some 0 else None
            | Some m => Some m
            end in
  match tz with
  | None => ""
  | Some m =>
      if (m =? 0) && has_option opt OPT_UTC_Z then "Z"
      else String (if m <? 0 then "-"%char else "+"%char)
             (pad2 (Z.abs m / 60) ++ String ":" (pad2 (Z.abs m mod 60)))
  end.

Definition render_datetime (opt : Z) (d : datetime) : string :=
  pad4 (year d) ++ "-" ++ pad2 (month d) ++ "-" ++ pad2 (day d) ++ "T"
  ++ pad2 (hour d) ++ ":" ++ pad2 (minute d) ++ ":" ++ pad2 (second d)
  ++ render_fraction opt (microsecond d) ++ render_offset opt (tzinfo d).

(** ** Numbers and strings *)

Definition encode_nat (n : N) : string := NilEmpty.string_of_uint (N.to_uint n).

Definition encode_int (z : Z) : string :=
  if z <? 0 then String "-" (encode_nat (Z.to_N (- z))) else encode_nat (Z.to_N z).

(** Integers are written only within the signed and unsigned 64-bit range. *)
Definition int_in_range (z : Z) : bool := (- 2 ^ 63 <=? z) && (z <? 2 ^ 64).

Definition hex_digit (n : N) : ascii :=
  if (n <? 10)%N then ascii_of_N (48 + n) else ascii_of_N (87 + n).

Definition escape_char (c : ascii) : string :=
  let n := N_of_ascii c in
  if (n =? 34)%N then String backslash (String dquote "")
  else if (n =? 92)%N then String backslash (String backslash "")
  else if (n =? 8)%N then String backslash "b"
  else if (n =? 9)%N then String backslash "t"
  else if (n =? 10)%N then String backslash "n"
  else if (n =? 12)%N then String backslash "f"
  else if (n =? 13)%N then String backslash "r"
  else if (n <? 32)%N then
    String backslash
      (String "u" (String "0" (String "0"
         (String (hex_digit (n / 16)) (String (hex_digit (n mod 16)) "")))))
  else String c "".

Fixpoint escape (s : string) : string :=
  match s with
  | EmptyString => ""
  | String c r => escape_char c ++ escape r
  end.

Definition quote (s : string) : string :=
  String dquote (escape s ++ String dquote "").

Fixpoint join_comma (l : list string) : string :=
  match l with
  | [] => ""
  | x :: r => match r with
              | [] => x
              | _ :: _ => x ++ String "," (join_comma r)
              end
  end.

(** ** The encoder (compact output, keys in insertion order) *)

Fixpoint encode (opt : Z) (v : value) : string :=
  match v with
  | PNone => "null"
  | PBool b => if b then "true" else "false"
  | PInt z => encode_int z
  | PStr s => quote s
  | PUuid s => quote s
  | PDatetime d => String dquote (render_datetime opt d ++ String dquote "")
  | PList items => String "[" (join_comma (map (encode opt) items) ++ "]")
  | PDict fields =>
      String "{"
        (join_comma
           (map (fun kv => quote (fst kv) ++ String ":" (encode opt (snd kv))) fields)
         ++ "}")
  end.

(** [orjson.dumps] counts the lists and dicts it is inside of and stops
    at 255: a dict, or a list that is not empty, with 254 containers
    around it is refused (this is how orjson 3.9 and later count; earlier
    releases let one level more through).  [budget] is the number of
    containers that may still be opened. *)
Definition RECURSION_LIMIT : nat := 255.

Fixpoint first_some {A : Type} (l : list (option A)) : option A :=
  match l with
  | [] => None
  | Some a :: _ => Some a
  | None :: r => first_some r
  end.

(** What [orjson.dumps] refuses in a value, if anything: the message of
    the first refusal met while the value is written, left to right. *)
Fixpoint refusal (budget : nat) (v : value) {struct v} : option string :=
  match v with
  | PInt z =>
      if int_in_range z then None else Some "Integer exceeds 64-bit range"
  | PList [] => None
  | PList items =>
      match budget with
      | O => Some "Recursion limit reached"
      | S b => first_some (map (refusal b) items)
      end
  | PDict fields =>
      match budget with
      | O => Some "Recursion limit reached"
      | S b => first_some (map (fun kv => refusal b (snd kv)) fields)
      end
  | _ => None
  end.

Definition encodable (v : value) : bool :=
  match refusal (pred RECURSION_LIMIT) v with
  | None => true
  | Some _ => false
  end.

(** The number of lists and dicts nested in one another, the value
    itself included. *)
Fixpoint depth (v : value) : nat :=
  match v with
  | PList items => S (fold_right (fun x acc => Nat.max (depth x) acc) O items)
  | PDict fields => S (fold_right (fun kv acc => Nat.max (depth (snd kv)) acc) O fields)
  | _ => O
  end.

(** Every integer of the value is in the range [orjson.dumps] writes. *)
Fixpoint ints_in_range (v : value) : bool :=
  match v with
  | PInt z => int_in_range z
  | PList items => forallb ints_in_range items
  | PDict fields => forallb (fun kv => ints_in_range (snd kv)) fields
  | _ => true
  end.

Fixpoint unique_keys (keys : list string) : bool :=
  match keys with
  | [] => true
  | k :: r => negb (existsb (String.eqb k) r) && unique_keys r
  end.

(** Values made of what JSON itself has: [None], booleans, integers,
    strings, lists and dicts (whose keys are distinct, as in any dict). *)
Fixpoint json_native (v : value) : bool :=
  match v with
  | PUuid _ | PDatetime _ => false
  | PList items => forallb json_native items
  | PDict fields =>
      unique_keys (map fst fields) && forallb (fun kv => json_native (snd kv)) fields
  | _ => true
  end.

(** [orjson.dumps(v, option=opt).decode()] *)
Definition dumps (opt : Z) (v : value) : exn + string :=
  match refusal (pred RECURSION_LIMIT) v with
  | None => inr (encode opt v)
  | Some msg => inl (JSONEncodeError msg)
  end.

(** ** The decoder *)

(** The outcome of reading a prefix of the input: a value and the rest, a
    syntax error ([JSONDecodeError]), or an input the model does not
    interpret (fractions and exponents, non-ASCII [\u] escapes, integers
    beyond 64 bits, documents nested about as deep as [orjson.loads]
    allows or deeper). *)
Inductive parsed (A : Type) : Type :=
| Ok (a : A) (rest : string)
| Bad
| Beyond.

Arguments Ok {A} a rest.
Arguments Bad {A}.
Arguments Beyond {A}.

Definition pmap {A B : Type} (f : A -> B) (p : parsed A) : parsed B :=
  match p with
  | Ok a rest => Ok (f a) rest
  | Bad => Bad
  | Beyond => Beyond
  end.

Definition is_ws (c : ascii) : bool :=
  let n := N_of_ascii c in
  ((n =? 32) || (n =? 9) || (n =? 10) || (n =? 13))%N.

Fixpoint skip_ws (s : string) : string :=
  match s with
  | EmptyString => ""
  | String c r => if is_ws c then skip_ws r else s
  end.

Definition digit_cons (c : ascii) : option (Decimal.uint -> Decimal.uint) :=
  let n := N_of_ascii c in
  if (n =? 48)%N then Some Decimal.D0 else if (n =? 49)%N then Some Decimal.D1
  else if (n =? 50)%N then Some Decimal.D2 else if (n =? 51)%N then Some Decimal.D3
  else if (n =? 52)%N then Some Decimal.D4 else if (n =? 53)%N then Some Decimal.D5
  else if (n =? 54)%N then Some Decimal.D6 else if (n =? 55)%N then Some Decimal.D7
  else if (n =? 56)%N then Some Decimal.D8 else if (n =? 57)%N then Some Decimal.D9
  else None.

Fixpoint read_digits (s : string) : Decimal.uint * string :=
  match s with
  | EmptyString => (Decimal.Nil, "")
  | String c r =>
      match digit_cons c with
      | Some d => let (u, rest) := read_digits r in (d u, rest)
      | None => (Decimal.Nil, s)
      end
  end.

Definition starts_fraction (s : string) : bool :=
  match s with
  | String c _ =>
      let n := N_of_ascii c in ((n =? 46) || (n =? 101) || (n =? 69))%N
  | EmptyString => false
  end.

(** A JSON integer has at least one digit and no superfluous leading zero. *)
Definition plain_decimal (u : Decimal.uint) : bool :=
  match u with
  | Decimal.Nil => false
  | Decimal.D0 Decimal.Nil => true
  | Decimal.D0 _ => false
  | _ => true
  end.

Definition read_number (negative : bool) (s : string) : parsed value :=
  let (u, rest) := read_digits s in
  if negb (plain_decimal u) then Bad
  else if starts_fraction rest then Beyond
  else
    let n := Z.of_N (N.of_uint u) in
    if negative then
      if (0 <? n) && (n <=? 2 ^ 63) then Ok (PInt (- n)) rest else Beyond
    else
      if n <? 2 ^ 64 then Ok (PInt n) rest else Beyond.

Definition hex_val (c : ascii) : option N :=
  let n := N_of_ascii c in
  if ((48 <=? n) && (n <=? 57))%N then Some (n - 48)%N
  else if ((97 <=? n) && (n <=? 102))%N then Some (n - 87)%N
  else if ((65 <=? n) && (n <=? 70))%N then Some (n - 55)%N
  else None.

Definition unescape (e : ascii) : option ascii :=
  let n := N_of_ascii e in
  if (n =? 34)%N then Some dquote
  else if (n =? 92)%N then Some backslash
  else if (n =? 47)%N then Some "/"%char
  else if (n =? 98)%N then Some (ascii_of_N 8)
  else if (n =? 102)%N then Some (ascii_of_N 12)
  else if (n =? 110)%N then Some (ascii_of_N 10)
  else if (n =? 114)%N then Some (ascii_of_N 13)
  else if (n =? 116)%N then Some (ascii_of_N 9)
  else None.

Definition code_point (h1 h2 h3 h4 : ascii) : option N :=
  match hex_val h1, hex_val h2, hex_val h3, hex_val h4 with
  | Some a, Some b, Some c, Some d => Some (4096 * a + 256 * b + 16 * c + d)%N
  | _, _, _, _ => None
  end.

(** The characters of a string after its opening quote. *)
Fixpoint read_string (s : string) : parsed string :=
  match s with
  | EmptyString => Bad
  | String c r =>
      if (N_of_ascii c =? 34)%N then Ok "" r
      else if (N_of_ascii c =? 92)%N then
        match r with
        | EmptyString => Bad
        | String e r1 =>
            if (N_of_ascii e =? 117)%N then
              match r1 with
              | String h1 (String h2 (String h3 (String h4 r2))) =>
                  match code_point h1 h2 h3 h4 with
                  | Some n =>
                      if (n <? 128)%N
                      then pmap (String (ascii_of_N n)) (read_string r2)
                      else Beyond
                  | None => Bad
                  end
              | _ => Bad
              end
            else
              match unescape e with
              | Some ch => pmap (String ch) (read_string r1)
              | None => Bad
              end
        end
      else if (N_of_ascii c <? 32)%N then Bad
      else pmap (String c) (read_string r)
  end.

(** The rest of [s] after the literal [word], if [s] starts with it. *)
Fixpoint strip_prefix (word s : string) : option string :=
  match word with
  | EmptyString => Some s
  | String a word' =>
      match s with
      | String b s' => if Ascii.eqb a b then strip_prefix word' s' else None
      | EmptyString => None
      end
  end.

Definition expect (word : string) (s : string) (v : value) : parsed value :=
  match strip_prefix word s with
  | Some rest => Ok v rest
  | None => Bad
  end.

(** [d[k] = v] on an insertion-ordered dict. *)
Fixpoint dict_set (k : string) (v : value) (d : list (string * value))
  : list (string * value) :=
  match d with
  | [] => [(k, v)]
  | (k', v') :: r =>
      if String.eqb k k' then (k, v) :: r else (k', v') :: dict_set k v r
  end.

Definition dict_of_items (items : list (string * value)) : list (string * value) :=
  fold_left (fun d kv => dict_set (fst kv) (snd kv) d) items [].

Definition head_is (c : ascii) (s : string) : option string :=
  match s with
  | String c' r => if Ascii.eqb c c' then Some r else None
  | EmptyString => None
  end.

Fixpoint parse_value (fuel : nat) (s : string) {struct fuel} : parsed value :=
  match fuel with
  | O => Beyond
  | S f =>
      match skip_ws s with
      | EmptyString => Bad
      | String c r =>
          let n := N_of_ascii c in
          if (n =? 110)%N then expect "ull" r PNone
          else if (n =? 116)%N then expect "rue" r (PBool true)
          else if (n =? 102)%N then expect "alse" r (PBool false)
          else if (n =? 34)%N then pmap PStr (read_string r)
          else if (n =? 45)%N then read_number true r
          else if (n =? 91)%N then
            match head_is "]" (skip_ws r) with
            | Some rest => Ok (PList []) rest
            | None => pmap PList (parse_elems f r)
            end
          else if (n =? 123)%N then
            match head_is "}" (skip_ws r) with
            | Some rest => Ok (PDict []) rest
            | None => pmap (fun items => PDict (dict_of_items items)) (parse_members f r)
            end
          else read_number false (String c r)
      end
  end

with parse_elems (fuel : nat) (s : string) {struct fuel} : parsed (list value) :=
  match fuel with
  | O => Beyond
  | S f =>
      match parse_value f s with
      | Ok v r =>
          match skip_ws r with
          | String c r1 =>
              if (N_of_ascii c =? 44)%N then pmap (cons v) (parse_elems f r1)
              else if (N_of_ascii c =? 93)%N then Ok [v] r1
              else Bad
          | EmptyString => Bad
          end
      | Bad => Bad
      | Beyond => Beyond
      end
  end

with parse_members (fuel : nat) (s : string) {struct fuel}
  : parsed (list (string * value)) :=
  match fuel with
  | O => Beyond
  | S f =>
      match head_is dquote (skip_ws s) with
      | None => Bad
      | Some r =>
          match read_string r with
          | Ok k r1 =>
              match head_is ":" (skip_ws r1) with
              | None => Bad
              | Some r2 =>
                  match parse_value f r2 with
                  | Ok v r3 =>
                      match skip_ws r3 with
                      | String c r4 =>
                          if (N_of_ascii c =? 44)%N
                          then pmap (cons (k, v)) (parse_members f r4)
                          else if (N_of_ascii c =? 125)%N then Ok [(k, v)] r4
                          else Bad
                      | EmptyString => Bad
                      end
                  | Bad => Bad
                  | Beyond => Beyond
                  end
              end
          | Bad => Bad
          | Beyond => Beyond
          end
      end
  end.

(** [orjson.loads] gives up on a document nested 1024 levels deep; the
    model reads documents of up to [READ_DEPTH] levels and does not
    interpret deeper ones. *)
Definition READ_DEPTH : nat := 1000.

(** [orjson.loads(s)]: one value, then nothing but white space. *)
Definition loads (s : string) : parsed value :=
  match parse_value (S (String.length s)) s with
  | Ok v rest =>
      if (READ_DEPTH <? depth v)%nat then Beyond
      else
        match skip_ws rest with
        | EmptyString => Ok v ""
        | String _ _ => Bad
        end
  | Bad => Bad
  | Beyond => Beyond
  end.

(** A position where a number or a value may end. *)
Definition delimited (s : string) : bool :=
  match s with
  | EmptyString => true
  | String c _ =>
      let n := N_of_ascii c in ((n =? 44) || (n =? 93) || (n =? 125))%N
  end.

(** Fuel that suffices to read a value back. *)
Fixpoint size (v : value) : nat :=
  match v with
  | PList items => S (fold_right (fun x acc => S (size x + acc)) O items)
  | PDict fields => S (fold_right (fun kv acc => S (size (snd kv) + acc)) O fields)
  | _ => 1
  end.

Definition starter (c : ascii) : bool := negb (is_ws c) && negb (Ascii.eqb "]" c).

(** What reading one value back means, for a given value. *)
Definition reads_back (opt : Z) (v : value) : Prop :=
  forall fuel rest, (size v <= fuel)%nat -> delimited rest = true ->
    parse_value fuel (encode opt v ++ rest) = Ok v rest.

End Orjson.


(* ===================================================================== *)
(** * service/data_classes/base.py *)
(* ===================================================================== *)

(** [service/middleware/data_classes.py] repeats [orjson_dumps],
    [BaseClass], [ErrorResult] and [ResponseFailure] word for word; the
    middleware imports them from there. *)

Module Base.

(** [value.replace(tzinfo=timezone.utc)] when [value] is a [datetime]. *)
Definition stamp_utc (vvalue : value) : value :=
  match vvalue with
  | PDatetime d => PDatetime (replace_tzinfo d utc)
  | _ => vvalue
  end.

(** Lines 13-16: the datetime entries of a dict inside a list. *)
Definition stamp_row (vv : value) : value :=
  match vv with
  | PDict fields => PDict (map (fun kv => (fst kv, stamp_utc (snd kv))) fields)
  | _ => vv
  end.

(** Lines 11-18: one top-level entry, either a list (of dicts) or a
    datetime; anything else, a nested dict included, is left as it is. *)
Definition stamp_entry (val : value) : value :=
  match val with
  | PList rows => PList (map stamp_row rows)
  | PDatetime d => PDatetime (replace_tzinfo d utc)
  | _ => val
  end.

(** [option=orjson.OPT_OMIT_MICROSECONDS | orjson.OPT_UTC_Z] *)
Definition dump_options : Z := Z.lor Orjson.OPT_OMIT_MICROSECONDS Orjson.OPT_UTC_Z.

(** [orjson_dumps(v)]: [v.items()] needs a dict. *)
Definition orjson_dumps (v : value) : exn + string :=
  match v with
  | PDict fields =>
      Orjson.dumps dump_options
        (PDict (map (fun kv => (fst kv, stamp_entry (snd kv))) fields))
  | _ =>
      inl (AttributeError ("'" ++ type_name v ++ "' object has no attribute 'items'"))
  end.

(** An instance of a [BaseClass] model: its class and what [.dict()]
    returns (nested models already turned into dicts). *)
Record model := mk_model {
  model_class : string;
  model_dict : value
}.

(** [m.json()] with [Config.json_dumps = orjson_dumps]. *)
Definition json (m : model) : exn + string := orjson_dumps (model_dict m).

(** [m.parse_raw]-side decoder, [Config.json_loads = orjson.loads]. *)
Definition json_loads (text : string) : Orjson.parsed value := Orjson.loads text.

Record ErrorResult := mk_ErrorResult {
  error_type : string;
  error_message : string
}.

Record ResponseFailure := mk_ResponseFailure {
  failure_success : bool;
  failure_result : option ErrorResult
}.

Record ResponseSuccess := mk_ResponseSuccess {
  success_success : bool;
  success_result : value
}.

Definition ErrorResult_dict (e : ErrorResult) : value :=
  PDict [("error_type", PStr (error_type e)); ("error_message", PStr (error_message e))].

Definition ResponseFailure_model (r : ResponseFailure) : model :=
  {| model_class := "ResponseFailure";
     model_dict :=
       PDict [("success", PBool (failure_success r));
              ("result", match failure_result r with
                         | Some e => ErrorResult_dict e
                         | None => PNone
                         end)] |}.

Definition ResponseSuccess_model (r : ResponseSuccess) : model :=
  {| model_class := "ResponseSuccess";
     model_dict := PDict [("success", PBool (success_success r));
                          ("result", success_result r)] |}.

End Base.

(* ===================================================================== *)
(** * service/data_classes/project.py *)
(* ===================================================================== *)

Module ProjectClasses.
Import Base.

Record Project := mk_Project {
  project_id : string;
  project_name : string;
  project_created : datetime;
  project_updated : option datetime
}.

Definition Project_dict (p : Project) : value :=
  PDict [("id", PUuid (project_id p));
         ("name", PStr (project_name p));
         ("created", PDatetime (project_created p));
         ("updated", match project_updated p with
                     | Some d => PDatetime d
                     | None => PNone
                     end)].

(** [ResponseProject(result=p)] *)
Definition ResponseProject (p : Project) : model :=
  {| model_class := "ResponseProject";
     model_dict := PDict [("success", PBool true); ("result", Project_dict p)] |}.

(** [ResponseProjectSeveral(result=ps)] *)
Definition ResponseProjectSeveral (ps : list Project) : model :=
  {| model_class := "ResponseProjectSeveral";
     model_dict := PDict [("success", PBool true);
                          ("result", PList (map Project_dict ps))] |}.

End ProjectClasses.

(* ===================================================================== *)
(** * The request, its context and the effects of the pipeline *)
(* ===================================================================== *)

Module Runtime.
Import Base.

(** [ELKAsync]: [elk_logger] tells whether [connection_open] has installed
    [self.logger]; without it every emit call does nothing. *)
Record ELKAsync := mk_ELKAsync { elk_logger : bool }.

(** What the pipeline reads from an aiohttp request.  [req_text] is the
    outcome of awaiting [request.text()], which may raise;
    [req_elk] is [request.app["ELKAsync"]] when the application holds one. *)
Record request := mk_request {
  req_method : string;
  req_url : string;
  req_headers : list (string * string);
  req_cookies : list (string * string);
  req_text : exn + string;
  req_elk : option ELKAsync
}.

(** The body snapshot of a log record: decoded JSON, or the raw text. *)
Inductive snapshot :=
| BodyJson (v : value)
| BodyText (s : string).

(** The log records of [service/middleware/data_classes.py], once
    pydantic has accepted them.  The [body] field is declared
    [Union[str, dict, list]]: it is given here by the snapshot the record
    was built from, which the field holds as pydantic converts it (a
    number or a boolean as its text, a list that [dict()] accepts as that
    dict).  [status_code] is an [int] and [traceback] a [str]. *)
Record ELKRequestLog := mk_ELKRequestLog {
  rq_type : string;
  rq_request_uuid : string;
  rq_url : string;
  rq_method : string;
  rq_body : snapshot;
  rq_headers : gmap string string;
  rq_cookies : gmap string string
}.

Record ELKResponseLog := mk_ELKResponseLog {
  rs_type : string;
  rs_request_uuid : string;
  rs_url : string;
  rs_method : string;
  rs_body : snapshot;
  rs_status_code : Z;
  rs_execution_time : Z
}.

Record ELKErrorLog := mk_ELKErrorLog {
  er_type : string;
  er_request_uuid : string;
  er_url : string;
  er_method : string;
  er_body : snapshot;
  er_status_code : Z;
  er_error_info : value;
  er_traceback : string
}.

(** What pydantic refuses as the [body] of a log record: [None], for
    which the required field has no place, and the objects that are
    neither text, number, dict nor list.  A refused snapshot is returned
    as the value it holds. *)
Definition refused_body (body : snapshot) : option value :=
  match body with
  | BodyText _ => None
  | BodyJson v =>
      match v with
      | PNone | PUuid _ | PDatetime _ => Some v
      | _ => None
      end
  end.

Inductive log_record :=
| RequestLog (r : ELKRequestLog)
| ResponseLog (r : ELKResponseLog)
| ErrorLog (r : ELKErrorLog).

(** What a handler may return: a pydantic model, an aiohttp response, or
    any other object. *)
Inductive retval :=
| RetModel (m : model)
| RetResponse (r : response)
| RetOther (v : value).

(** The observable steps of one request, oldest first. *)
Inductive event :=
| EvBody
| EvSetData (o : model)
| EvHandler (data : option model)
| EvLog (level : string) (msg : string) (extra : log_record).

(** [st_data] is [request["data"]]; [st_trace] records every step. *)
Record state := mk_state {
  st_data : option model;
  st_trace : list event
}.

Definition fresh : state := {| st_data := None; st_trace := [] |}.

(** Computations that may raise and that act on the request context. *)
Definition Py (A : Type) : Type := state -> (exn + A) * state.

Definition ret {A : Type} (a : A) : Py A := fun st => (inr a, st).

Definition raise {A : Type} (e : exn) : Py A := fun st => (inl e, st).

Definition bind {A B : Type} (m : Py A) (k : A -> Py B) : Py B :=
  fun st =>
    match m st with
    | (inr a, st') => k a st'
    | (inl e, st') => (inl e, st')
    end.

Definition lift {A : Type} (r : exn + A) : Py A :=
  match r with
  | inr a => ret a
  | inl e => raise e
  end.

Definition emit (ev : event) : Py unit :=
  fun st => (inr tt, {| st_data := st_data st; st_trace := st_trace st ++ [ev] |}).

(** [try: body except C1 as e: h1 e except C2 as e: h2 e ...]: the first
    clause whose class the exception is an instance of handles it; what a
    clause raises is not offered to the clauses after it. *)
Definition try_except {A : Type} (body : Py A)
    (clauses : list (string * (exn -> Py A))) : Py A :=
  fun st =>
    match body st with
    | (inr a, st') => (inr a, st')
    | (inl e, st') =>
        match List.find (fun c => isinstance e (fst c)) clauses with
        | Some c => snd c e st'
        | None => (inl e, st')
        end
    end.

(** [request["data"] = o] *)
Definition set_data (o : model) : Py unit :=
  fun st => (inr tt, {| st_data := Some o; st_trace := st_trace st ++ [EvSetData o] |}).

(** [await request.text()] *)
Definition request_text (request : request) : Py string :=
  bind (emit EvBody) (fun _ => lift (req_text request)).

(** A class, or whatever else sits among the [__args__] of an annotation:
    its name and the module that declares it, whether it derives from
    pydantic's [BaseModel], and what calling it with keyword arguments
    returns or raises. *)
Record pyclass := mk_pyclass {
  cls_name : string;
  cls_module : string;
  cls_is_model : bool;
  cls_new : list (string * value) -> exn + model
}.

(** An annotation is a class, or an object of [typing] (a [Union], a
    generic alias) that may carry [__args__]. *)
Inductive annotation :=
| AnnClass (c : pyclass)
| AnnAlias (args : option (list pyclass)).

(** A route handler: the annotation of its [data] parameter, if it has one,
    and what a call returns or raises given [request["data"]] (the
    handlers read that key and do not assign it). *)
Record handler := mk_handler {
  h_data_annotation : option annotation;
  h_call : option model -> exn + retval
}.

(** [await handler(request)] *)
Definition call_handler (h : handler) : Py retval :=
  fun st =>
    (h_call h (st_data st),
     {| st_data := st_data st; st_trace := st_trace st ++ [EvHandler (st_data st)] |}).

(** [issubclass(annotation, BaseModel)] *)
Definition issubclass_BaseModel (a : annotation) : exn + bool :=
  match a with
  | AnnClass c => inr (cls_is_model c)
  | AnnAlias _ => inl (TypeError "issubclass() arg 1 must be a class")
  end.

(** [annotation.__args__] *)
Definition get_args (a : annotation) : exn + list pyclass :=
  match a with
  | AnnAlias (Some classes) => inr classes
  | AnnAlias None => inl (AttributeError "__args__")
  | AnnClass c =>
      inl (AttributeError
             ("type object '" ++ cls_name c ++ "' has no attribute '__args__'"))
  end.

(** Calling a class with the request JSON unpacked as keyword arguments. *)
Definition construct (c : pyclass) (request_json : value) : exn + model :=
  match request_json with
  | PDict kwargs => cls_new c kwargs
  | _ => inl (not_a_mapping (callee (cls_module c) (cls_name c)) request_json)
  end.

(** A pydantic shape: from keyword arguments it builds the field values or
    reports a validation error, given as [str(e)] and [e.json(indent=0)].
    [shape_clash] is the text of the [TypeError] of a call whose keyword
    arguments hold the name of the constructor's own first parameter (the
    wording depends on the interpreter and on how pydantic was built). *)
Record shape := mk_shape {
  shape_name : string;
  shape_module : string;
  shape_validate : list (string * value) -> (string * string) + value;
  shape_clash : string
}.

(** pydantic 1 declares [BaseModel.__init__(__pydantic_self__, **data)]:
    the model itself is passed under this name. *)
Definition self_parameter : string := "__pydantic_self__".

(** [key in kwargs] *)
Definition has_keyword (key : string) (kwargs : list (string * value)) : bool :=
  existsb (String.eqb key) (map fst kwargs).

(** The class of a shape.  Keyword arguments that hold the name
    [__pydantic_self__] clash with the parameter of that name, and the
    call raises [TypeError] before pydantic validates anything. *)
Definition shape_class (s : shape) : pyclass :=
  {| cls_name := shape_name s;
     cls_module := shape_module s;
     cls_is_model := true;
     cls_new := fun kwargs =>
       if has_keyword self_parameter kwargs then inl (TypeError (shape_clash s))
       else
         match shape_validate s kwargs with
         | inl err => inl (ValidationError (fst err) (snd err))
         | inr fields => inr {| model_class := shape_name s; model_dict := fields |}
         end |}.

(** [Union[s1, ..., sn]] *)
Definition union_of (shapes : list shape) : annotation :=
  AnnAlias (Some (map shape_class shapes)).

(** [s.replace(old, new)] for a one-character [old]. *)
Fixpoint str_replace (old : ascii) (new : string) (s : string) : string :=
  match s with
  | EmptyString => ""
  | String c r =>
      if Ascii.eqb c old then new ++ str_replace old new r
      else String c (str_replace old new r)
  end.

(** aiohttp's HTTP exceptions; [str(e)] is the reason phrase. *)
Definition http_exception (name : string) (bases : list string) (code : Z)
    (reason body ctype : string) : exn :=
  {| exn_type := name; exn_bases := bases; exn_str := reason; exn_json := "";
     exn_http := Some {| status := code; text := body; content_type := ctype |} |}.

Definition HTTPUnauthorized (body ctype : string) : exn :=
  http_exception "HTTPUnauthorized" ["HTTPClientError"; "HTTPError"; "HTTPException"]
    401 "Unauthorized" body ctype.

Definition HTTPBadRequest (body ctype : string) : exn :=
  http_exception "HTTPBadRequest" ["HTTPClientError"; "HTTPError"; "HTTPException"]
    400 "Bad Request" body ctype.

Definition HTTPOk (body ctype : string) : exn :=
  http_exception "HTTPOk" ["HTTPSuccessful"; "HTTPException"] 200 "OK" body ctype.

Definition HTTPInternalServerError (body ctype : string) : exn :=
  http_exception "HTTPInternalServerError" ["HTTPServerError"; "HTTPError"; "HTTPException"]
    500 "Internal Server Error" body ctype.

(** [web.json_response(text=t)] *)
Definition json_response (t : string) : response :=
  {| status := 200; text := t; content_type := "application/json" |}.

(** Modelled from the spec: [service/middleware/exceptions.py], which
    declares [BadRequestError], is not among the sources.  The spec names
    it the BadRequest failure kind, raised with a message and mapped to
    status 400; it is taken as a plain [Exception] subclass, so that
    [str(e)] is the message it was raised with. *)
Definition BadRequestError (msg : string) : exn := simple_exn "BadRequestError" [] msg.


End Runtime.

Declare Scope py_scope.
Delimit Scope py_scope with py.
Notation "x <- m ;; k" := (Runtime.bind m (fun x => k))
  (at level 100, m at next level, right associativity) : py_scope.
Notation "m ;;; k" := (Runtime.bind m (fun _ => k))
  (at level 100, right associativity) : py_scope.

(* ===================================================================== *)
(** * service/middleware/utils.py and service/middleware/middleware.py *)
(* ===================================================================== *)

Module Middleware.
Import Base Runtime.

Local Open Scope py_scope.

Section Pipeline.

(** The decoders, the traceback formatter and pydantic's field checks are
    library code: [json.loads] (what [request.json()] and
    [get_response_body] call), [orjson.loads] (what [get_request_body]
    calls), each giving the error text or the value;
    [traceback.format_tb] joined into one string; the texts [str(e)] and
    [e.json(indent=0)] of the validation error pydantic raises for a
    model, given its name and the fields it refused with the values they
    were given; and pydantic's conversion of a value that is not an
    [int] to an [int] field. *)
Variable json_loads : string -> string + value.
Variable orjson_loads : string -> string + value.
Variable format_tb : exn -> string.
Variable validation_text : string -> list (string * value) -> string * string.
Variable int_validator : value -> option Z.

(** [logger.info] and [logger.error] of [ELKAsync]. *)
Definition info (logger : ELKAsync) (msg : string) (extra : log_record) : Py unit :=
  if elk_logger logger then emit (EvLog "INFO" msg extra) else ret tt.

Definition error (logger : ELKAsync) (msg : string) (extra : log_record) : Py unit :=
  if elk_logger logger then emit (EvLog "ERROR" msg extra) else ret tt.

(** Lines 27-30: the decoded body, or the text when it does not decode. *)
Definition request_snapshot (body : string) : snapshot :=
  match orjson_loads body with
  | inr decoded => BodyJson decoded
  | inl _ => BodyText body
  end.

(** [get_request_body(request)], with [max_length] at its default [0], as
    every caller leaves it: the truncation branch is then dead. *)
Definition get_request_body (request : request) : Py snapshot :=
  body <- request_text request ;;
  ret (request_snapshot body).

(** [getattr(response, name)] when [hasattr(response, name)], for the two
    names the helpers ask for, [text] and [status]: an aiohttp response
    has both, a model has its fields, and the other objects have
    neither. *)
Definition attribute (name : string) (response : retval) : option value :=
  match response with
  | RetResponse r =>
      if String.eqb name "text" then Some (PStr (text r))
      else if String.eqb name "status" then Some (PInt (status r))
      else None
  | RetModel m =>
      match model_dict m with
      | PDict fields => dict_get name fields
      | _ => None
      end
  | RetOther _ => None
  end.

(** [get_response_body(response)], again with [max_length = 0]:
    [json.loads] of a text gives the decoded body or fails to decode, and
    raises something else for what is not a text. *)
Definition get_response_body (response : retval) : snapshot :=
  match attribute "text" response with
  | Some (PStr t) =>
      match json_loads t with
      | inr decoded => BodyJson decoded
      | inl _ => BodyText t
      end
  | _ => BodyText ""
  end.

(** [get_response_status_code(response)]: [None] without the attribute. *)
Definition get_response_status_code (response : retval) : value :=
  match attribute "status" response with
  | Some v => v
  | None => PNone
  end.

(** [dict(request.headers)].  The headers are a case-insensitive
    multidict: [dict] asks it for its keys, each in the spelling the
    multidict holds it in (the name as the parser of the request handed
    it over), and then for the value under each key, which is the first
    value held under that name in any spelling.  (Header names are ASCII
    tokens.) *)
Definition lower_ascii (c : ascii) : ascii :=
  let n := N_of_ascii c in
  if ((65 <=? n) && (n <=? 90))%N then ascii_of_N (n + 32) else c.

Fixpoint lower (s : string) : string :=
  match s with
  | EmptyString => ""
  | String c r => String (lower_ascii c) (lower r)
  end.

Fixpoint getone (name : string) (pairs : list (string * string)) : option string :=
  match pairs with
  | [] => None
  | (k, v) :: r => if String.eqb (lower k) (lower name) then Some v else getone name r
  end.

Definition dict_of_headers (pairs : list (string * string)) : gmap string string :=
  list_to_map
    (map (fun kv => (fst kv, match getone (fst kv) pairs with
                             | Some v => v
                             | None => snd kv
                             end)) pairs).

(** [dict(request.cookies)]: the cookies are a plain mapping, listed here
    by its items. *)
Definition dict_of (pairs : list (string * string)) : gmap string string :=
  list_to_map pairs.

(** The validation error of a log record. *)
Definition invalid (model : string) (refused : list (string * value)) : exn :=
  ValidationError (fst (validation_text model refused))
                  (snd (validation_text model refused)).

Definition refused_as (field : string) (v : option value) : list (string * value) :=
  match v with
  | Some v => [(field, v)]
  | None => []
  end.

(** [ELKRequestLog( **{...})] *)
Definition new_ELKRequestLog (request_uuid url method : string) (body : snapshot)
    (headers cookies : gmap string string) : exn + ELKRequestLog :=
  match refused_body body with
  | None =>
      inr {| rq_type := "Request";
             rq_request_uuid := request_uuid;
             rq_url := url;
             rq_method := method;
             rq_body := body;
             rq_headers := headers;
             rq_cookies := cookies |}
  | Some v => inl (invalid "ELKRequestLog" [("body", v)])
  end.

(** The [status_code] field: an [int] is taken as it is, [None] is
    refused, anything else is up to pydantic's conversion. *)
Definition as_int (v : value) : option Z :=
  match v with
  | PInt n => Some n
  | PNone => None
  | _ => int_validator v
  end.

(** [ELKResponseLog( **{...})] *)
Definition new_ELKResponseLog (request_uuid url method : string) (body : snapshot)
    (status_code : value) (execution_time : Z) : exn + ELKResponseLog :=
  match refused_body body, as_int status_code with
  | None, Some n =>
      inr {| rs_type := "Response";
             rs_request_uuid := request_uuid;
             rs_url := url;
             rs_method := method;
             rs_body := body;
             rs_status_code := n;
             rs_execution_time := execution_time |}
  | flaw, n =>
      inl (invalid "ELKResponseLog"
             (refused_as "body" flaw
              ++ match n with
                 | Some _ => []
                 | None => [("status_code", status_code)]
                 end))
  end.

(** [ELKErrorLog( **{...})]; [error_info] is the dict of a
    [ResponseFailure], which validates as one. *)
Definition new_ELKErrorLog (request_uuid url method : string) (body : snapshot)
    (status_code : Z) (error_info : value) (tb : option string) : exn + ELKErrorLog :=
  match refused_body body, tb with
  | None, Some tb =>
      inr {| er_type := "Error";
             er_request_uuid := request_uuid;
             er_url := url;
             er_method := method;
             er_body := body;
             er_status_code := status_code;
             er_error_info := error_info;
             er_traceback := tb |}
  | flaw, tb =>
      inl (invalid "ELKErrorLog"
             (refused_as "body" flaw
              ++ match tb with
                 | Some _ => []
                 | None => [("traceback", PNone)]
                 end))
  end.

Definition log_request (request : request) (req_id : string)
    (logger : option ELKAsync) : Py unit :=
  match logger with
  | Some logger =>
      let headers := dict_of_headers (req_headers request) in
      let headers := delete "Authorization" headers in
      body <- get_request_body request ;;
      extra <- lift (new_ELKRequestLog req_id (req_url request) (req_method request)
                       body headers (dict_of (req_cookies request))) ;;
      info logger ("Request #" ++ req_id) (RequestLog extra)
  | None => ret tt
  end.

Definition log_response (request : request) (req_id : string)
    (response : retval) (execution_time : Z) (logger : option ELKAsync) : Py unit :=
  match logger with
  | Some logger =>
      extra <- lift (new_ELKResponseLog req_id (req_url request) (req_method request)
                       (get_response_body response)
                       (get_response_status_code response) execution_time) ;;
      info logger ("Response #" ++ req_id) (ResponseLog extra)
  | None => ret tt
  end.

(** [log_error]: [exception] is [None] or an exception object, and an
    exception object is true at [if exception:] (aiohttp's HTTP
    exceptions, which are mappings too, define [__bool__] to say so). *)
Definition log_error (request : request) (req_id : string)
    (response : ResponseFailure) (status_code : Z) (exception : option exn)
    (logger : option ELKAsync) : Py unit :=
  match logger with
  | Some logger =>
      let tb := match exception with
                | Some e => Some (format_tb e)
                | None => None
                end in
      body <- get_request_body request ;;
      extra <- lift (new_ELKErrorLog req_id (req_url request) (req_method request)
                       body status_code
                       (model_dict (ResponseFailure_model response)) tb) ;;
      error logger ("Error #" ++ req_id) (ErrorLog extra)
  | None => ret tt
  end.

(** The log records of the request can be built: either there is no
    logger, and none is built, or the body can be read and pydantic
    accepts what [get_request_body] makes of it. *)
Definition loggable (request : request) (logger : option ELKAsync) : Prop :=
  logger = None
  \/ exists body, req_text request = inr body
                  /\ refused_body (request_snapshot body) = None.

(** [await request.json()] *)
Definition request_json (request : request) : Py value :=
  body <- request_text request ;;
  match json_loads body with
  | inr decoded => ret decoded
  | inl msg => raise (JSONDecodeError msg)
  end.

(** Lines 146-151: the loop over the classes of the union. *)
Fixpoint union_loop (classes : list pyclass) (request_json : value)
    (matched_classes_number : nat) (validation_error : string)
  : Py (nat * string) :=
  match classes with
  | [] => ret (matched_classes_number, validation_error)
  | single_class :: rest =>
      r <- try_except
             (o <- lift (construct single_class request_json) ;;
              set_data o ;;;
              ret (S matched_classes_number, validation_error))
             [("ValidationError",
               fun e => ret (matched_classes_number, exn_str e))] ;;
      union_loop rest request_json (fst r) (snd r)
  end.

(** Lines 125-169: the validation of the body against the annotation.
    ([issubclass] answers for classes only, so the branch of the inner
    [match] for an alias is never reached.) *)
Definition validate (request : request) (annotation : annotation) : Py unit :=
  try_except
    (request_json <- request_json request ;;
     try_except
       (is_model <- lift (issubclass_BaseModel annotation) ;;
        if is_model : bool then
          match annotation with
          | AnnClass c => o <- lift (construct c request_json) ;; set_data o
          | AnnAlias _ => ret tt
          end
        else
          raise (BadRequestError
                   "Handler data annotation is not a subclass of pydantic.BaseModel."))
       [("TypeError",
         fun _ =>
           classes <- lift (get_args annotation) ;;
           r <- union_loop classes request_json O "" ;;
           match fst r with
           | O => raise (BadRequestError (snd r))
           | S O => ret tt
           | S (S _) =>
               raise (BadRequestError
                        "Request matches several of the classes in the union.")
           end)])
    [("ValidationError",
      fun e =>
        raise (BadRequestError
                 (str_replace Orjson.dquote "'"
                    (str_replace (ascii_of_N 10) "" (exn_json e)))));
     ("Exception", fun e => raise (BadRequestError (exn_str e)))].

(** Lines 175-179: a model is serialised into a JSON response; any other
    value is returned as it is. *)
Definition wrapped (response : retval) : exn + retval :=
  match response with
  | RetModel m =>
      match json m with
      | inr t => inr (RetResponse (json_response t))
      | inl e => inl e
      end
  | _ => inr response
  end.

(** Lines 125-169, guarded by ["data" in handler.__annotations__]. *)
Definition validation (request : request) (handler : handler) : Py unit :=
  match h_data_annotation handler with
  | Some annotation => validate request annotation
  | None => ret tt
  end.

(** [MiddlewareMain.prepare_data(request, handler)] *)
Definition prepare_data (request : request) (handler : handler) : Py retval :=
  validation request handler ;;;
  response <- call_handler handler ;;
  lift (wrapped response).

(** Lines 36-41: the logger of the application, else the argument. *)
Definition app_logger (request : request) (logger : option ELKAsync)
  : option ELKAsync :=
  match req_elk request with
  | Some elk => Some elk
  | None => logger
  end.

(** [MiddlewareMain.server_error_handler(request, handler, logger)]:
    [handler] is the rest of the middleware chain; [req_id] stands for
    [uuid.uuid4()] and [execution_time] for the measured duration. *)
Definition server_error_handler (request : request) (handler : Py retval)
    (logger : option ELKAsync) (req_id : string) (execution_time : Z) : Py retval :=
  let logger := app_logger request logger in
  try_except
    (log_request request req_id logger ;;;
     response <- handler ;;
     log_response request req_id response execution_time logger ;;;
     ret response)
    [("HTTPUnauthorized",
      fun e =>
        let response :=
          {| failure_success := false;
             failure_result := Some {| error_type := exn_type e;
                                       error_message := exn_str e |} |} in
        log_error request req_id response 401 (Some e) logger ;;;
        t <- lift (json (ResponseFailure_model response)) ;;
        raise (HTTPUnauthorized t "application/json"));
     ("BadRequestError",
      fun e =>
        let response :=
          {| failure_success := false;
             failure_result := Some {| error_type := exn_type e;
                                       error_message := exn_str e |} |} in
        log_error request req_id response 400 (Some e) logger ;;;
        t <- lift (json (ResponseFailure_model response)) ;;
        raise (HTTPBadRequest t "application/json"));
     ("UserWarning",
      fun e =>
        let response :=
          {| failure_success := false;
             failure_result := Some {| error_type := exn_type e;
                                       error_message := exn_str e |} |} in
        log_error request req_id response 200 (Some e) logger ;;;
        t <- lift (json (ResponseFailure_model response)) ;;
        raise (HTTPOk t "application/json"));
     ("Exception",
      fun e =>
        let response :=
          {| failure_success := false;
             failure_result := Some {| error_type := exn_type e;
                                       error_message := exn_str e |} |} in
        log_error request req_id response 500 (Some e) logger ;;;
        t <- lift (json (ResponseFailure_model response)) ;;
        raise (HTTPInternalServerError t "application/json"))].

End Pipeline.

End Middleware.

(* ===================================================================== *)
(** * The notions of the specification *)
(* ===================================================================== *)

Module Spec.
Import Base Runtime.

(** Construction attempted against every alternative, independently. *)
Definition attempts (shapes : list shape) (body : value) : list (exn + model) :=
  map (fun s => construct (shape_class s) body) shapes.

Fixpoint successes (rs : list (exn + model)) : list model :=
  match rs with
  | [] => []
  | inr o :: r => o :: successes r
  | inl _ :: r => successes r
  end.

Fixpoint failures (rs : list (exn + model)) : list exn :=
  match rs with
  | [] => []
  | inr _ :: r => failures r
  | inl e :: r => e :: failures r
  end.

(** The text of the last failure, in declaration order. *)
Definition last_error (rs : list (exn + model)) : string :=
  List.last (map exn_str (failures rs)) "".

Definition ambiguity : string :=
  "Request matches several of the classes in the union.".

(** How often [request["data"]] was assigned. *)
Fixpoint assignments (trace : list event) : nat :=
  match trace with
  | [] => O
  | EvSetData _ :: r => S (assignments r)
  | _ :: r => assignments r
  end.

(** The failure envelope of an exception, as a JSON document. *)
Definition failure_document (e : exn) : value :=
  PDict [("success", PBool false);
         ("result", PDict [("error_type", PStr (exn_type e));
                           ("error_message", PStr (exn_str e))])].

(** The status the mapping table gives a failure. *)
Definition mapped_status (e : exn) : Z :=
  if isinstance e "HTTPUnauthorized" then 401
  else if isinstance e "BadRequestError" then 400
  else if isinstance e "UserWarning" then 200
  else 500.

End Spec.

(* ===================================================================== *)
(** * Concrete requests, shapes and handlers *)
(* ===================================================================== *)

Module Examples.
Import Base Runtime ProjectClasses.

(** A decoder built on the model of [orjson.loads]. *)
Definition decode (s : string) : string + value :=
  match Orjson.loads s with
  | Orjson.Ok v _ => inr v
  | _ => inl "malformed JSON"
  end.

Definition no_traceback (e : exn) : string := "".

(** Stand-ins for pydantic's texts and for its conversion to [int]: the
    names of the refused fields, and no conversion. *)
Definition refused_fields (model : string) (refused : list (string * value))
  : string * string :=
  (model ++ ": " ++ String.concat ", " (map fst refused), "[]").

Definition no_conversion (v : value) : option Z := None.

Fixpoint field (key : string) (kwargs : list (string * value)) : option value :=
  match kwargs with
  | [] => None
  | (k, v) :: r => if String.eqb k key then Some v else field key r
  end.

(** A shape with one required string field; other fields are ignored. *)
Definition requires (name key : string) : shape :=
  {| shape_name := name;
     shape_module := "handlers";
     shape_validate := fun kwargs =>
       match field key kwargs with
       | Some (PStr s) => inr (PDict [(key, PStr s)])
       | Some _ => inl (key ++ ": str type expected", "[str type expected]")
       | None => inl (key ++ ": field required", "[field required]")
       end;
     shape_clash :=
       "__init__() got multiple values for argument '__pydantic_self__'" |}.

Definition ByName : shape := requires "ByName" "name".
Definition ById : shape := requires "ById" "id".

Definition elk : ELKAsync := {| elk_logger := true |}.

Definition post (headers : list (string * string)) (body : string) : request :=
  {| req_method := "POST";
     req_url := "/api/v1/read";
     req_headers := headers;
     req_cookies := [("session", "s1")];
     req_text := inr body;
     req_elk := Some elk |}.

Definition plain_headers : list (string * string) :=
  [("Content-Type", "application/json")].

Definition secret_headers : list (string * string) :=
  [("Authorization", "Bearer secret"); ("Content-Type", "application/json")].

(** The same credential under the name as a client may spell it. *)
Definition lowercase_secret_headers : list (string * string) :=
  [("authorization", "Bearer secret"); ("Content-Type", "application/json")].

(** Bodies: an object with a name, one with a name and an id, an empty
    object, an object with the key that clashes with the constructor of a
    model, the JSON [null], an empty list, and a text that is not JSON. *)
Definition body_name : string := Orjson.encode 0 (PDict [("name", PStr "Alpha")]).
Definition body_both : string :=
  Orjson.encode 0 (PDict [("name", PStr "Alpha"); ("id", PStr "7")]).
Definition body_empty : string := "{}".
Definition body_self : string :=
  Orjson.encode 0 (PDict [("__pydantic_self__", PInt 1)]).
Definition body_null : string := "null".
Definition body_list : string := "[]".
Definition body_broken : string := "{name".

(** A request whose body is not text: awaiting [request.text()] raises. *)
Definition not_utf8 : exn :=
  simple_exn "UnicodeDecodeError" ["UnicodeError"; "ValueError"]
    "'utf-8' codec can't decode byte 0xff in position 0: invalid start byte".

Definition post_bytes (elk : option ELKAsync) : request :=
  {| req_method := "POST";
     req_url := "/api/v1/read";
     req_headers := plain_headers;
     req_cookies := [];
     req_text := inl not_utf8;
     req_elk := elk |}.

(** Answers with the validated object inside a success envelope. *)
Definition echo (data : option model) : exn + retval :=
  inr (RetModel
         (ResponseSuccess_model
            {| success_success := true;
               success_result := match data with
                                 | Some o => model_dict o
                                 | None => PNone
                                 end |})).

Definition by_name_or_id : handler :=
  {| h_data_annotation := Some (union_of [ByName; ById]); h_call := echo |}.

(** A class that is not a pydantic model, as an annotation. *)
Definition plain_int : pyclass :=
  {| cls_name := "int"; cls_module := "builtins"; cls_is_model := false;
     cls_new := fun _ => inl (TypeError "int() takes no keyword arguments") |}.

Definition annotated_int : handler :=
  {| h_data_annotation := Some (AnnClass plain_int); h_call := echo |}.

(** [health_check]: no [data] parameter, a plain response. *)
Definition health_check : handler :=
  {| h_data_annotation := None;
     h_call := fun _ => inr (RetResponse {| status := 200; text := "200";
                                            content_type := "text/plain" |}) |}.

(** A handler that raises a business warning. *)
Definition not_found : exn := simple_exn "ProjectNotFound" ["UserWarning"; "Warning"] "No such project.".

Definition failing_chain : Py retval := fun st => (inl not_found, st).

(** A project as the database returns it: a naive timestamp with
    microseconds. *)
Definition alpha : Project :=
  {| project_id := "0b0e7b1c-5d0a-4c0e-9f7e-3c1d2a4b5c6d";
     project_name := "Alpha";
     project_created := mk_datetime 2021 3 4 5 6 7 123456 None;
     project_updated := None |}.

(** Two success envelopes whose timestamps differ in the microseconds only. *)
Definition stamped (us : Z) : ResponseSuccess :=
  {| success_success := true;
     success_result := PDatetime (mk_datetime 2021 3 4 5 6 7 us (Some 0)) |}.

End Examples.

(* ===================================================================== *)
(** * Views of values and texts used in the statements *)
(* ===================================================================== *)

Module Views.
Import Base.

(** Whether the character [c] occurs in [s]. *)
Fixpoint occurs (c : ascii) (s : string) : bool :=
  match s with
  | EmptyString => false
  | String x r => Ascii.eqb x c || occurs c r
  end.

Definition newline : ascii := ascii_of_N 10.

(** A datetime with its microseconds set to zero. *)
Definition whole_second (d : datetime) : datetime :=
  {| year := year d; month := month d; day := day d;
     hour := hour d; minute := minute d; second := second d;
     microsecond := 0; tzinfo := tzinfo d |}.

(** The value with every datetime in it cut to the second. *)
Fixpoint drop_microseconds (v : value) : value :=
  match v with
  | PDatetime d => PDatetime (whole_second d)
  | PList items => PList (map drop_microseconds items)
  | PDict fields => PDict (map (fun kv => (fst kv, drop_microseconds (snd kv))) fields)
  | _ => v
  end.

(** Two datetimes that show the same date and time of day, whatever
    their offsets and microseconds. *)
Definition same_wall_clock (a b : datetime) : Prop :=
  year a = year b /\ month a = month b /\ day a = day b
  /\ hour a = hour b /\ minute a = minute b /\ second a = second b.

(** The JSON document a value is written as: UUIDs and datetimes become
    strings. *)
Fixpoint document (opt : Z) (v : value) : value :=
  match v with
  | PUuid s => PStr s
  | PDatetime d => PStr (Orjson.render_datetime opt d)
  | PList items => PList (map (document opt) items)
  | PDict fields => PDict (map (fun kv => (fst kv, document opt (snd kv))) fields)
  | _ => v
  end.

(** Every dict inside the value has distinct keys. *)
Fixpoint proper_dicts (v : value) : bool :=
  match v with
  | PList items => forallb proper_dicts items
  | PDict fields =>
      Orjson.unique_keys (map fst fields)
      && forallb (fun kv => proper_dicts (snd kv)) fields
  | _ => true
  end.

(** What the dict handed to [orjson_dumps] holds once the loop of lines
    9-18 has run. *)
Definition stamped (v : value) : value :=
  match v with
  | PDict fields => PDict (map (fun kv => (fst kv, stamp_entry (snd kv))) fields)
  | _ => v
  end.

End Views.

(* ===================================================================== *)
(** * service/database/connector.py: the rows of a full join *)
(* ===================================================================== *)

Module Connector.

(** A row as [result.items()] lists it: the columns in order, where a
    join may bring the same column name more than once.  A dict is an
    association list in insertion order, as before. *)
Definition row : Type := list (string * value).
Definition dict : Type := list (string * value).

(** [key in d] *)
Definition has_key (key : string) (d : dict) : bool :=
  existsb (String.eqb key) (map fst d).

(** [temp[-1]] *)
Definition last_dict (temp : list dict) : dict := List.last temp [].

(** [temp[-1][key] = value] *)
Definition set_in_last (key : string) (val : value) (temp : list dict) : list dict :=
  (List.removelast temp ++ [Orjson.dict_set key val (last_dict temp)])%list.

(** Lines 251-254: one column of the row. *)
Definition place (temp : list dict) (kv : string * value) : list dict :=
  let temp := if has_key (fst kv) (last_dict temp) then (temp ++ [[]])%list else temp in
  set_in_last (fst kv) (snd kv) temp.

(** Lines 249-254: [temp = [{}]], then every column in turn. *)
Definition split_row (result : row) : list dict :=
  fold_left place result [[]].

(** Lines 247-258: what [fetchfulljoin] makes of the rows it fetched. *)
Definition processed_results (results : list row) : list (list dict) :=
  map split_row results.

(** Consecutive dicts of a split: the first key of the later one is a key
    of the earlier one. *)
Fixpoint linked (temp : list dict) : Prop :=
  match temp with
  | earlier :: ((later :: _) as rest) =>
      match later with
      | (k, _) :: _ => has_key k earlier = true
      | [] => False
      end /\ linked rest
  | _ => True
  end.

End Connector.

(* ===================================================================== *)
(** * service/routing/v1/project.py: the handlers *)
(* ===================================================================== *)

Module Handlers.
Import Base ProjectClasses.

(** A bound of [ProjectList] as the handler sees it through
    [data.dict(exclude_unset=True)]: a field the request did not mention
    is absent, a field the request gave as [null] is present and [None]. *)
Inductive bound :=
| Unset
| Null
| Bound (d : datetime).

Record ProjectList := mk_ProjectList {
  created_gt : bound;
  created_lt : bound;
  updated_gt : bound;
  updated_lt : bound
}.

Record ProjectCreate := mk_ProjectCreate { create_name : string }.

Record ProjectUpdate := mk_ProjectUpdate { update_id : string; update_name : string }.

Definition ProjectCreate_dict (p : ProjectCreate) : list (string * value) :=
  [("name", PStr (create_name p))].

Definition ProjectUpdate_dict (p : ProjectUpdate) : list (string * value) :=
  [("id", PUuid (update_id p)); ("name", PStr (update_name p))].

(** [d.replace(tzinfo=None)] *)
Definition without_tzinfo (d : datetime) : datetime :=
  {| year := year d; month := month d; day := day d;
     hour := hour d; minute := minute d; second := second d;
     microsecond := microsecond d; tzinfo := None |}.

(** The same date and time of day under another offset (or none). *)
Definition at_offset (tz : option Z) (d : datetime) : datetime :=
  {| year := year d; month := month d; day := day d;
     hour := hour d; minute := minute d; second := second d;
     microsecond := microsecond d; tzinfo := tz |}.

Definition bound_at_offset (tz : option Z) (b : bound) : bound :=
  match b with
  | Bound d => Bound (at_offset tz d)
  | _ => b
  end.

(** The comparisons the handlers put on a column. *)
Inductive comparison := Greater | Less.

Record condition := mk_condition {
  cond_column : string;
  cond_op : comparison;
  cond_value : datetime
}.

(** The statements the handlers build with SQLAlchemy on the table
    [Project]; successive [where] calls are kept in order. *)
Inductive query :=
| Insert (values : list (string * value))
| SelectIn (ids : list string)
| Update (id : string) (values : list (string * value))
| DeleteIn (ids : list string)
| SelectWhere (conditions : list condition) (order_by_desc : string).

(** [d.pop(key)] on a dict that has the key. *)
Fixpoint dict_pop (key : string) (d : list (string * value)) : list (string * value) :=
  match d with
  | [] => []
  | (k, v) :: r => if String.eqb k key then r else (k, v) :: dict_pop key r
  end.

Fixpoint lookup (key : string) (d : list (string * value)) : option value :=
  match d with
  | [] => None
  | (k, v) :: r => if String.eqb k key then Some v else lookup key r
  end.

(** Where a validation error sits: the index of the row, if the result
    is a list, and the name of the field. *)
Definition loc : Type := option nat * string.

Fixpoint all_some {A : Type} (l : list (option A)) : option (list A) :=
  match l with
  | [] => Some []
  | Some a :: r => match all_some r with Some r' => Some (a :: r') | None => None end
  | None :: _ => None
  end.

(** What a handler did: the statements it sent to the storage, in order,
    and how it ended. *)
Definition outcome : Type := list query * (exn + model).

Section Storage.

(** The storage collaborator, [AsyncpgsaStorage.fetch] and [fetchrow]: a
    list of rows as dicts, and one row as a dict, which is the empty dict
    when the statement returned no row (connector.py, line 234). *)
Variable fetch : query -> exn + list (list (string * value)).
Variable fetchrow : query -> exn + list (string * value).

(** pydantic's validators of the field types of [Project], and the text
    and JSON of the validation error for the offending places. *)
Variable as_uuid : value -> option string.
Variable as_str : value -> option string.
Variable as_datetime : value -> option datetime.
Variable report : list loc -> string * string.

(** A required field: absent, [None] or not of the type is an error. *)
Definition required {A : Type} (key : string) (coerce : value -> option A)
    (row : list (string * value)) : option A :=
  match lookup key row with
  | Some PNone | None => None
  | Some v => coerce v
  end.

(** [updated: Optional[datetime]]: absent or [None] is [None]. *)
Definition optional_datetime (key : string) (row : list (string * value))
  : option (option datetime) :=
  match lookup key row with
  | Some PNone | None => Some None
  | Some v => match as_datetime v with
              | Some d => Some (Some d)
              | None => None
              end
  end.

Definition flag {A : Type} (key : string) (o : option A) : list string :=
  match o with Some _ => [] | None => [key] end.

Definition offending (row : list (string * value)) : list string :=
  (flag "id" (required "id" as_uuid row)
   ++ flag "name" (required "name" as_str row)
   ++ flag "created" (required "created" as_datetime row)
   ++ flag "updated" (optional_datetime "updated" row))%list.

(** The fields of [Project] read from a row, when all of them validate. *)
Definition validated (row : list (string * value)) : option Project :=
  match required "id" as_uuid row, required "name" as_str row,
        required "created" as_datetime row, optional_datetime "updated" row with
  | Some i, Some n, Some c, Some u =>
      Some {| project_id := i; project_name := n;
              project_created := c; project_updated := u |}
  | _, _, _, _ => None
  end.

Definition validation_error (places : list loc) : exn :=
  ValidationError (fst (report places)) (snd (report places)).

(** [ResponseProject(result=row)] *)
Definition ResponseProject_of (row : list (string * value)) : exn + model :=
  match validated row with
  | Some p => inr (ResponseProject p)
  | None => inl (validation_error (map (fun f => (None, f)) (offending row)))
  end.

Fixpoint offending_rows (i : nat) (rows : list (list (string * value))) : list loc :=
  match rows with
  | [] => []
  | row :: r =>
      (map (fun f => (Some i, f)) (offending row) ++ offending_rows (S i) r)%list
  end.

(** [ResponseProjectSeveral(result=rows)] *)
Definition ResponseProjectSeveral_of (rows : list (list (string * value)))
  : exn + model :=
  match all_some (map validated rows) with
  | Some ps => inr (ResponseProjectSeveral ps)
  | None => inl (validation_error (offending_rows 0 rows))
  end.

(** [create] *)
Definition create (params : ProjectCreate) : outcome :=
  let values := ProjectCreate_dict params in
  let query := Insert values in
  ([query],
   match fetchrow query with
   | inl e => inl e
   | inr result => ResponseProject_of result
   end).

(** [read] *)
Definition read (params : list string) : outcome :=
  let query := SelectIn params in
  ([query],
   match fetch query with
   | inl e => inl e
   | inr result => ResponseProjectSeveral_of result
   end).

(** [update] *)
Definition update (params : ProjectUpdate) : outcome :=
  let values := dict_pop "id" (ProjectUpdate_dict params) in
  let query := Update (update_id params) values in
  ([query],
   match fetchrow query with
   | inl e => inl e
   | inr result => ResponseProject_of result
   end).

(** [delete] *)
Definition delete (params : list string) : outcome :=
  let query := DeleteIn params in
  ([query],
   match fetch query with
   | inl e => inl e
   | inr _ => inr (ResponseSuccess_model (mk_ResponseSuccess true (PDict [])))
   end).

(** One [if key in params: query = query.where(...)] of [lst]: the
    conditions so far, extended, or the error of [None.replace]. *)
Definition where_bound (column : string) (op : comparison) (b : bound)
    (conditions : list condition) : exn + list condition :=
  match b with
  | Unset => inr conditions
  | Null => inl (AttributeError "'NoneType' object has no attribute 'replace'")
  | Bound d => inr (conditions ++ [mk_condition column op (without_tzinfo d)])%list
  end.

Definition and_then {A B : Type} (r : exn + A) (k : A -> exn + B) : exn + B :=
  match r with
  | inl e => inl e
  | inr a => k a
  end.

Definition conditions_of (params : ProjectList) : exn + list condition :=
  and_then (where_bound "created" Greater (created_gt params) []) (fun c =>
  and_then (where_bound "created" Less (created_lt params) c) (fun c =>
  and_then (where_bound "updated" Greater (updated_gt params) c) (fun c =>
  where_bound "updated" Less (updated_lt params) c))).

(** [lst] *)
Definition lst (params : ProjectList) : outcome :=
  match conditions_of params with
  | inl e => ([], inl e)
  | inr conditions =>
      let query := SelectWhere conditions "created" in
      ([query],
       match fetch query with
       | inl e => inl e
       | inr result => ResponseProjectSeveral_of result
       end)
  end.

End Storage.

End Handlers.

(* ===================================================================== *)
(** * service/database/connector.py: opening and closing the pool *)
(* ===================================================================== *)

Module Storage.
Import Runtime.

(** A pool made by [asyncpgsa.create_pool], named by the number of the
    call that made it. *)
Definition pool : Type := nat.

(** An [AsyncpgsaStorage] object: [self.connection], [self.logger] and
    the settings kept by [__init__]. *)
Record storage := mk_storage {
  connection : option pool;
  logger : option ELKAsync;
  dsn : value;
  host : value;
  port : value;
  database : value;
  user : value;
  min_size : value;
  max_size : value;
  max_queries : value;
  max_inactive_connection_lifetime : value
}.

(** What lies outside the storage object: how many times [create_pool]
    has been called, the pools that are open, and the log lines written,
    oldest first. *)
Record world := mk_world {
  attempts : nat;
  open_pools : list pool;
  log_lines : list (string * list (string * value))
}.

Definition RuntimeWarning (msg : string) : exn :=
  simple_exn "RuntimeWarning" ["Warning"] msg.

(** Truth value of a Python object. *)
Definition truthy (v : value) : bool :=
  match v with
  | PNone => false
  | PBool b => b
  | PInt n => negb (Z.eqb n 0)
  | PStr s => negb (String.eqb s EmptyString)
  | PList items => match items with [] => false | _ => true end
  | PDict fields => match fields with [] => false | _ => true end
  | _ => true
  end.

Definition with_connection (s : storage) (c : option pool) : storage :=
  {| connection := c; logger := logger s; dsn := dsn s; host := host s;
     port := port s; database := database s; user := user s;
     min_size := min_size s; max_size := max_size s;
     max_queries := max_queries s;
     max_inactive_connection_lifetime := max_inactive_connection_lifetime s |}.

(** [await self.logger.info(msg=..., extra=...)] under [if self.logger:];
    [ELKAsync.info] writes only once its own logger is installed. *)
Definition log_info (s : storage) (msg : string) (extra : list (string * value))
    (w : world) : world :=
  match logger s with
  | Some elk =>
      if elk_logger elk
      then {| attempts := attempts w; open_pools := open_pools w;
              log_lines := (log_lines w ++ [(msg, extra)])%list |}
      else w
  | None => w
  end.

Fixpoint remove_pool (p : pool) (l : list pool) : list pool :=
  match l with
  | [] => []
  | q :: r => if Nat.eqb p q then remove_pool p r else q :: remove_pool p r
  end.

(** [connection_close]; the pool's own [close] returns. *)
Definition connection_close (s : storage) (w : world)
  : (exn + unit) * storage * world :=
  match connection s with
  | None =>
      (inl (RuntimeWarning "Tried to close a connection without first opening it."),
       s, w)
  | Some p =>
      let w := {| attempts := attempts w;
                  open_pools := remove_pool p (open_pools w);
                  log_lines := log_lines w |} in
      let s := with_connection s None in
      (inr tt, s,
       log_info s "Closed connection to PostgreSQL."
         [("dsn", dsn s); ("host", host s); ("port", port s);
          ("database", database s); ("user", user s)] w)
  end.

Section Server.

(** Whether the [n]-th call of [asyncpgsa.create_pool] fails, and how. *)
Variable refused : nat -> option exn.

(** [connection_open] *)
Definition connection_open (s : storage) (w : world)
  : (exn + unit) * storage * world :=
  match connection s with
  | Some _ =>
      match connection_close s w with
      | (inl e, s, w) => (inl e, s, w)
      | (inr _, s, w) =>
          (inl (RuntimeWarning
                  "Tried to open a new connection while a previous connection wasn't closed."),
           s, w)
      end
  | None =>
      let n := attempts w in
      match refused n with
      | Some e =>
          (inl e, s,
           {| attempts := S n; open_pools := open_pools w; log_lines := log_lines w |})
      | None =>
          let w := {| attempts := S n;
                      open_pools := (open_pools w ++ [n])%list;
                      log_lines := log_lines w |} in
          let s := with_connection s (Some n) in
          let extra :=
            if truthy (dsn s) then [("dsn", dsn s)]
            else [("host", host s); ("port", port s);
                  ("database", database s); ("user", user s)] in
          (inr tt, s,
           log_info s "Established connection to PostgreSQL."
             (extra ++ [("min_size", min_size s); ("max_size", max_size s);
                        ("max_queries", max_queries s);
                        ("max_inactive_connection_lifetime",
                         max_inactive_connection_lifetime s)])%list w)
      end
  end.

(** The calls a program may make on a storage, and a run of them in
    which a call that raises leaves the program free to go on. *)
Inductive call := Open | Close.

Definition step (sw : storage * world) (c : call) : storage * world :=
  match c with
  | Open => let '(_, s, w) := connection_open (fst sw) (snd sw) in (s, w)
  | Close => let '(_, s, w) := connection_close (fst sw) (snd sw) in (s, w)
  end.

Definition run (calls : list call) (sw : storage * world) : storage * world :=
  fold_left step calls sw.

End Server.

(** The pools the storage holds: the one in [self.connection], if any. *)
Definition held (s : storage) : list pool :=
  match connection s with
  | Some p => [p]
  | None => []
  end.

End Storage.

(* ===================================================================== *)
(** * service/swagger/swagger.py: the classes that get a schema *)
(* ===================================================================== *)

Module Swagger.

Section Hierarchy.

(** [cls.__subclasses__()]: the direct subclasses of a class, by name. *)
Variable subclasses : string -> list string.

(** [all_subclasses(cls)]; [depth] bounds the nesting of the recursive
    calls, which in the source ends because a class hierarchy has no
    cycle. *)
Fixpoint all_subclasses (depth : nat) (cls : string) : gset string :=
  match depth with
  | O => empty
  | S depth =>
      union (list_to_set (subclasses cls))
            (list_to_set
               (flat_map (fun c => elements (all_subclasses depth c))
                         (subclasses cls)))
  end.

(** [d] is below [c] in the hierarchy: a subclass, or a subclass of one. *)
Inductive descendant : string -> string -> Prop :=
| descendant_child c d :
    In d (subclasses c) -> descendant c d
| descendant_below c m d :
    In m (subclasses c) -> descendant m d -> descendant c d.

End Hierarchy.

End Swagger.

(** The data classes of service/data_classes, as a hierarchy. *)
Module DataClasses.

Definition subclasses (cls : string) : list string :=
  if String.eqb cls "BaseClass"
  then ["Request"; "ResponseSuccess"; "ErrorResult"; "ResponseFailure";
        "Examples"; "Project"; "ProjectCreate"; "ProjectUpdate"; "ProjectList"]
  else if String.eqb cls "Request"
  then ["RequestProjectCreate"; "RequestProjectRead"; "RequestProjectUpdate";
        "RequestProjectDelete"; "RequestProjectList"]
  else if String.eqb cls "ResponseSuccess"
  then ["ResponseProject"; "ResponseProjectSeveral"]
  else [].

Definition rank (cls : string) : nat :=
  if String.eqb cls "BaseClass" then 2
  else if String.eqb cls "Request" then 1
  else if String.eqb cls "ResponseSuccess" then 1
  else 0.

End DataClasses.

(* ===================================================================== *)
(** * Statements *)
(* ===================================================================== *)

(** ** The decoder reads back what the encoder writes *)

Module OrjsonFacts.
Import Orjson.

Lemma string_app_assoc (a b c : string) : (a ++ b) ++ c = a ++ (b ++ c).
Proof. induction a as [|x a IH]; simpl; [reflexivity | congruence]. Qed.

Lemma string_length_app (a b : string) :
  String.length (a ++ b) = (String.length a + String.length b)%nat.
Proof. induction a as [|x a IH]; simpl; [reflexivity | congruence]. Qed.

Lemma delimited_cases c r :
  delimited (String c r) = true ->
  c = ","%char \/ c = "]"%char \/ c = "}"%char.
Proof.
  unfold delimited. intros H.
  apply orb_prop in H as [H|H]; [apply orb_prop in H as [H|H]|];
    apply N.eqb_eq in H;
    apply (f_equal ascii_of_N) in H; rewrite ascii_N_embedding in H; subst; auto.
Qed.

Lemma delimited_no_digit c r : delimited (String c r) = true -> digit_cons c = None.
Proof. intros H. destruct (delimited_cases c r H) as [->|[->| ->]]; reflexivity. Qed.

Lemma delimited_no_fraction s : delimited s = true -> starts_fraction s = false.
Proof.
  destruct s as [|c r]; [reflexivity|]. intros H.
  destruct (delimited_cases c r H) as [->|[->| ->]]; reflexivity.
Qed.

Lemma delimited_skip_ws s : delimited s = true -> skip_ws s = s.
Proof.
  destruct s as [|c r]; [reflexivity|]. intros H.
  destruct (delimited_cases c r H) as [->|[->| ->]]; reflexivity.
Qed.

Lemma read_digits_string_of_uint (u : Decimal.uint) (rest : string) :
  delimited rest = true ->
  read_digits (NilEmpty.string_of_uint u ++ rest) = (u, rest).
Proof.
  intros Hd. induction u; simpl; try (rewrite IHu; reflexivity).
  destruct rest as [|c r]; [reflexivity|].
  simpl. now rewrite (delimited_no_digit c r Hd).
Qed.

Lemma to_uint_plain (n : N) : plain_decimal (N.to_uint n) = true.
Proof.
  pose proof (Unsigned.to_of (N.to_uint n)) as H.
  rewrite Unsigned.of_to in H. rewrite H. unfold Decimal.unorm.
  pose proof (nzhead_nonzero (N.to_uint n)) as Hnz.
  destruct (Decimal.nzhead (N.to_uint n)) eqn:E; try reflexivity.
  exfalso. exact (Hnz _ eq_refl).
Qed.

Lemma read_number_nat (n : N) (rest : string) :
  delimited rest = true -> (Z.of_N n <? 2 ^ 64) = true ->
  read_number false (encode_nat n ++ rest) = Ok (PInt (Z.of_N n)) rest.
Proof.
  intros Hd Hr. unfold read_number, encode_nat.
  rewrite read_digits_string_of_uint by assumption.
  rewrite to_uint_plain. simpl negb. cbv iota.
  rewrite delimited_no_fraction by assumption.
  rewrite Unsigned.of_to. now rewrite Hr.
Qed.

Lemma read_number_neg (n : N) (rest : string) :
  delimited rest = true -> (0 <? Z.of_N n) = true -> (Z.of_N n <=? 2 ^ 63) = true ->
  read_number true (encode_nat n ++ rest) = Ok (PInt (- Z.of_N n)) rest.
Proof.
  intros Hd H0 Hr. unfold read_number, encode_nat.
  rewrite read_digits_string_of_uint by assumption.
  rewrite to_uint_plain. simpl negb. cbv iota.
  rewrite delimited_no_fraction by assumption.
  rewrite Unsigned.of_to. now rewrite H0, Hr.
Qed.

(** One escaped character is read back as that character. *)
Lemma read_string_escape_char (c : ascii) (tail : string) :
  read_string (escape_char c ++ tail) = pmap (String c) (read_string tail).
Proof.
  destruct c as [b0 b1 b2 b3 b4 b5 b6 b7].
  destruct b0, b1, b2, b3, b4, b5, b6, b7; reflexivity.
Qed.

Lemma read_string_escape (s rest : string) :
  read_string (escape s ++ String dquote rest) = Ok s rest.
Proof.
  induction s as [|c s IH]; [reflexivity|].
  simpl escape. rewrite string_app_assoc, read_string_escape_char, IH. reflexivity.
Qed.

Lemma read_string_quote (s rest : string) :
  read_string (escape s ++ String dquote "" ++ rest) = Ok s rest.
Proof. apply read_string_escape. Qed.


Lemma encode_nat_head (n : N) :
  exists c r, encode_nat n = String c r /\ digit_cons c <> None.
Proof.
  unfold encode_nat. pose proof (to_uint_plain n) as H.
  destruct (N.to_uint n); simpl in *; try discriminate;
    eexists _, _; (split; [reflexivity | discriminate]).
Qed.

Lemma digit_is_starter c : digit_cons c <> None -> starter c = true.
Proof.
  destruct c as [b0 b1 b2 b3 b4 b5 b6 b7].
  destruct b0, b1, b2, b3, b4, b5, b6, b7; intros H; try reflexivity;
    exfalso; apply H; reflexivity.
Qed.

Lemma encode_head opt (v : value) :
  exists c r, encode opt v = String c r /\ starter c = true.
Proof.
  destruct v as [|b|z|s|s|d|items|fields]; simpl;
    try (eexists _, _; split; reflexivity).
  - destruct b; eexists _, _; split; reflexivity.
  - unfold encode_int. destruct (z <? 0).
    + eexists _, _; split; reflexivity.
    + destruct (encode_nat_head (Z.to_N z)) as (c & r & -> & Hc).
      exists c, r. split; [reflexivity | now apply digit_is_starter].
Qed.

Lemma parse_value_S f s :
  parse_value (S f) s =
  match skip_ws s with
  | EmptyString => Bad
  | String c r =>
      let n := N_of_ascii c in
      if (n =? 110)%N then expect "ull" r PNone
      else if (n =? 116)%N then expect "rue" r (PBool true)
      else if (n =? 102)%N then expect "alse" r (PBool false)
      else if (n =? 34)%N then pmap PStr (read_string r)
      else if (n =? 45)%N then read_number true r
      else if (n =? 91)%N then
        match head_is "]" (skip_ws r) with
        | Some rest => Ok (PList []) rest
        | None => pmap PList (parse_elems f r)
        end
      else if (n =? 123)%N then
        match head_is "}" (skip_ws r) with
        | Some rest => Ok (PDict []) rest
        | None => pmap (fun items => PDict (dict_of_items items)) (parse_members f r)
        end
      else read_number false (String c r)
  end.
Proof. reflexivity. Qed.

Lemma parse_elems_S f s :
  parse_elems (S f) s =
  match parse_value f s with
  | Ok v r =>
      match skip_ws r with
      | String c r1 =>
          if (N_of_ascii c =? 44)%N then pmap (cons v) (parse_elems f r1)
          else if (N_of_ascii c =? 93)%N then Ok [v] r1
          else Bad
      | EmptyString => Bad
      end
  | Bad => Bad
  | Beyond => Beyond
  end.
Proof. reflexivity. Qed.

Lemma parse_members_S f s :
  parse_members (S f) s =
  match head_is dquote (skip_ws s) with
  | None => Bad
  | Some r =>
      match read_string r with
      | Ok k r1 =>
          match head_is ":" (skip_ws r1) with
          | None => Bad
          | Some r2 =>
              match parse_value f r2 with
              | Ok v r3 =>
                  match skip_ws r3 with
                  | String c r4 =>
                      if (N_of_ascii c =? 44)%N
                      then pmap (cons (k, v)) (parse_members f r4)
                      else if (N_of_ascii c =? 125)%N then Ok [(k, v)] r4
                      else Bad
                  | EmptyString => Bad
                  end
              | Bad => Bad
              | Beyond => Beyond
              end
          end
      | Bad => Bad
      | Beyond => Beyond
      end
  end.
Proof. reflexivity. Qed.

Lemma parse_value_list f tail :
  parse_value (S f) (String "[" tail) =
  match head_is "]" (skip_ws tail) with
  | Some rest => Ok (PList []) rest
  | None => pmap PList (parse_elems f tail)
  end.
Proof. reflexivity. Qed.

Lemma parse_value_dict f tail :
  parse_value (S f) (String "{" tail) =
  match head_is "}" (skip_ws tail) with
  | Some rest => Ok (PDict []) rest
  | None => pmap (fun items => PDict (dict_of_items items)) (parse_members f tail)
  end.
Proof. reflexivity. Qed.

Lemma head_starter c r : starter c = true -> head_is "]" (skip_ws (String c r)) = None.
Proof.
  unfold starter. intros H. apply andb_prop in H as [Hw Hb].
  apply negb_true_iff in Hw, Hb.
  change (skip_ws (String c r)) with (if is_ws c then skip_ws r else String c r).
  rewrite Hw. unfold head_is. now rewrite Hb.
Qed.

Lemma parse_elems_encode opt (items : list value) :
  Forall (reads_back opt) items -> items <> [] ->
  forall fuel rest,
    (fold_right (fun x acc => S (size x + acc)) O items <= fuel)%nat ->
    parse_elems fuel (join_comma (map (encode opt) items) ++ String "]" rest)
    = Ok items rest.
Proof.
  induction 1 as [|x xs Hx Hxs IH]; [congruence|]. intros _ fuel rest Hfuel.
  simpl in Hfuel. destruct fuel as [|f]; [lia|]. rewrite parse_elems_S.
  destruct xs as [|y ys].
  - simpl. rewrite (Hx f (String "]" rest)) by (reflexivity || lia). reflexivity.
  - change (join_comma (map (encode opt) (x :: y :: ys)))
      with (encode opt x ++ String "," (join_comma (map (encode opt) (y :: ys)))).
    rewrite string_app_assoc.
    change (String "," (join_comma (map (encode opt) (y :: ys))) ++ String "]" rest)
      with (String "," (join_comma (map (encode opt) (y :: ys)) ++ String "]" rest)).
    rewrite (Hx f) by (reflexivity || lia).
    simpl skip_ws. cbv iota beta. simpl N.eqb. cbv iota.
    rewrite IH; [reflexivity | discriminate | simpl in *; lia].
Qed.


Lemma member_text (k e tail : string) :
  (quote k ++ String ":" e) ++ tail
  = String dquote (escape k ++ String dquote (String ":" (e ++ tail))).
Proof.
  unfold quote. simpl. f_equal. now rewrite !string_app_assoc.
Qed.

Lemma parse_members_encode opt (fields : list (string * value)) :
  Forall (fun kv => reads_back opt (snd kv)) fields -> fields <> [] ->
  forall fuel rest,
    (fold_right (fun kv acc => S (size (snd kv) + acc)) O fields <= fuel)%nat ->
    parse_members fuel
      (join_comma
         (map (fun kv => quote (fst kv) ++ String ":" (encode opt (snd kv))) fields)
       ++ String "}" rest)
    = Ok fields rest.
Proof.
  induction 1 as [|[k v] xs Hx Hxs IH]; [congruence|]. intros _ fuel rest Hfuel.
  simpl in Hfuel, Hx. destruct fuel as [|f]; [lia|]. rewrite parse_members_S.
  destruct xs as [|y ys].
  - change (join_comma
              (map (fun kv => quote (fst kv) ++ String ":" (encode opt (snd kv)))
                 [(k, v)]))
      with (quote k ++ String ":" (encode opt v)).
    rewrite member_text. simpl skip_ws. simpl head_is. cbv iota beta.
    rewrite read_string_escape. simpl skip_ws. simpl head_is. cbv iota beta.
    rewrite (Hx f (String "}" rest)) by (reflexivity || lia). reflexivity.
  - set (member := fun kv : string * value =>
                     quote (fst kv) ++ String ":" (encode opt (snd kv))) in *.
    change (join_comma (map member ((k, v) :: y :: ys)))
      with (member (k, v) ++ String "," (join_comma (map member (y :: ys)))).
    rewrite string_app_assoc.
    change (String "," (join_comma (map member (y :: ys))) ++ String "}" rest)
      with (String "," (join_comma (map member (y :: ys)) ++ String "}" rest)).
    specialize (IH ltac:(discriminate) f rest ltac:(simpl in *; lia)).
    set (tail := join_comma (map member (y :: ys)) ++ String "}" rest) in *.
    unfold member at 1. simpl fst. simpl snd.
    rewrite member_text. simpl skip_ws. simpl head_is. cbv iota beta.
    rewrite read_string_escape. simpl skip_ws. simpl head_is. cbv iota beta.
    rewrite (Hx f) by (reflexivity || lia).
    simpl skip_ws. cbv iota beta. simpl N.eqb. cbv iota.
    rewrite IH. reflexivity.
Qed.

(** Assigning fresh keys one after the other rebuilds the dict. *)
Lemma dict_set_absent k v (d : list (string * value)) :
  existsb (String.eqb k) (map fst d) = false -> dict_set k v d = (d ++ [(k, v)])%list.
Proof.
  induction d as [|[k' v'] d IH]; simpl; [reflexivity|].
  intros H. apply orb_false_elim in H as [Hk Hd].
  rewrite Hk. now rewrite IH.
Qed.

Lemma dict_fold_fresh (items acc : list (string * value)) :
  unique_keys (map fst items) = true ->
  (forall kv, In kv items -> existsb (String.eqb (fst kv)) (map fst acc) = false) ->
  fold_left (fun d kv => dict_set (fst kv) (snd kv) d) items acc = (acc ++ items)%list.
Proof.
  revert acc. induction items as [|[k v] r IH]; intros acc Hu Hfresh; simpl.
  - now rewrite List.app_nil_r.
  - simpl in Hu. apply andb_prop in Hu as [Hk Hr].
    apply negb_true_iff in Hk.
    rewrite dict_set_absent by (apply (Hfresh (k, v)); now left).
    rewrite IH; [now rewrite <- List.app_assoc | assumption |].
    intros [k' v'] Hin. rewrite List.map_app, List.existsb_app.
    pose proof (Hfresh (k', v') (or_intror Hin)) as Hacc. simpl in Hacc |- *.
    rewrite Hacc. simpl. rewrite orb_false_r. apply not_true_is_false. intros E.
    apply String.eqb_eq in E. subst k'.
    assert (existsb (String.eqb k) (map fst r) = true) as Hc; [|congruence].
    apply List.existsb_exists. exists k. split; [|apply String.eqb_refl].
    apply (List.in_map fst) in Hin. exact Hin.
Qed.

Lemma dict_of_items_unique (items : list (string * value)) :
  unique_keys (map fst items) = true -> dict_of_items items = items.
Proof.
  intros Hu. unfold dict_of_items. now rewrite dict_fold_fresh.
Qed.

(** Every JSON-native value that can be written is read back. *)
Lemma parse_value_encode opt (v : value) :
  json_native v = true -> ints_in_range v = true -> reads_back opt v.
Proof.
  induction v as [|b|z|s|s|d|items IH|fields IH] using value_nested_ind;
    intros Hn He fuel rest Hfuel Hd; try discriminate;
    (destruct fuel as [|f]; [simpl in Hfuel; lia|]).
  - reflexivity.
  - destruct b; reflexivity.
  - simpl in He. unfold int_in_range in He. apply andb_prop in He as [Hlo Hhi].
    apply Z.leb_le in Hlo. apply Z.ltb_lt in Hhi.
    simpl encode. unfold encode_int. destruct (Z.ltb_spec z 0) as [Hz|Hz].
    + rewrite parse_value_S. simpl skip_ws. cbv iota beta. simpl N.eqb. cbv iota.
      replace (PInt z) with (PInt (- Z.of_N (Z.to_N (- z)))) by (f_equal; lia).
      apply read_number_neg; [assumption|apply Z.ltb_lt; lia|apply Z.leb_le; lia].
    + destruct (encode_nat_head (Z.to_N z)) as (c & r & Hc & Hdig).
      assert (parse_value (S f) (encode_nat (Z.to_N z) ++ rest)
              = read_number false (encode_nat (Z.to_N z) ++ rest)) as ->.
      { rewrite Hc. clear -Hdig. destruct c as [b0 b1 b2 b3 b4 b5 b6 b7].
        destruct b0, b1, b2, b3, b4, b5, b6, b7;
          try reflexivity; exfalso; apply Hdig; reflexivity. }
      replace (PInt z) with (PInt (Z.of_N (Z.to_N z))) by (f_equal; lia).
      apply read_number_nat; [assumption|apply Z.ltb_lt; lia].
  - simpl encode. unfold quote. rewrite parse_value_S. simpl.
    rewrite string_app_assoc. simpl. now rewrite read_string_escape.
  - simpl in Hn, He, Hfuel. destruct items as [|x xs]; [reflexivity|].
    set (body := join_comma (map (encode opt) (x :: xs))).
    change (encode opt (PList (x :: xs)) ++ rest)
      with (String "[" ((body ++ "]") ++ rest)).
    rewrite string_app_assoc. change ("]" ++ rest) with (String "]" rest).
    rewrite parse_value_list.
    destruct (encode_head opt x) as (c & r & Hc & Hs).
    assert (exists r', body ++ String "]" rest = String c r') as [r' Hbody].
    { subst body. destruct xs; simpl; rewrite Hc; simpl; eauto. }
    rewrite Hbody, (head_starter c r' Hs), <- Hbody. subst body.
    rewrite (parse_elems_encode opt (x :: xs)); [reflexivity| |discriminate|lia].
    rewrite Forall_forall in IH. apply Forall_forall. intros y Hy.
    apply IH; [assumption| |].
    + rewrite forallb_forall in Hn. apply Hn. now apply list_elem_of_In.
    + rewrite forallb_forall in He. apply He. now apply list_elem_of_In.
  - simpl in Hn, He, Hfuel. apply andb_prop in Hn as [Hu Hn].
    destruct fields as [|[k x] xs]; [reflexivity|].
    set (member := fun kv : string * value =>
                     quote (fst kv) ++ String ":" (encode opt (snd kv))) in *.
    set (body := join_comma (map member ((k, x) :: xs))).
    change (encode opt (PDict ((k, x) :: xs)) ++ rest)
      with (String "{" ((body ++ "}") ++ rest)).
    rewrite string_app_assoc. change ("}" ++ rest) with (String "}" rest).
    rewrite parse_value_dict.
    assert (exists r', body ++ String "}" rest = String dquote r') as [r' Hbody].
    { subst body. destruct xs; simpl; eauto. }
    rewrite Hbody. simpl skip_ws. simpl head_is. cbv iota. rewrite <- Hbody.
    subst body member.
    rewrite (parse_members_encode opt ((k, x) :: xs)); [|  |discriminate|lia].
    + simpl pmap. now rewrite dict_of_items_unique.
    + rewrite Forall_forall in IH. apply Forall_forall. intros y Hy.
      apply IH; [assumption| |].
      * rewrite forallb_forall in Hn. apply Hn. now apply list_elem_of_In.
      * rewrite forallb_forall in He. apply He. now apply list_elem_of_In.
Qed.


Lemma join_comma_bound {A : Type} (sz : A -> nat) (txt : A -> string) (l : list A) :
  Forall (fun x => (sz x <= String.length (txt x))%nat) l ->
  (fold_right (fun x acc => S (sz x + acc)) O l
   <= S (String.length (join_comma (map txt l))))%nat.
Proof.
  induction 1 as [|x xs Hx Hxs IH]; simpl; [lia|].
  destruct xs as [|y ys]; simpl in *; [lia|].
  rewrite string_length_app. simpl. lia.
Qed.

Lemma size_le_length opt (v : value) : (size v <= String.length (encode opt v))%nat.
Proof.
  induction v as [|b|z|s|s|d|items IH|fields IH] using value_nested_ind.
  1-6: match goal with
       | |- (size ?v <= _)%nat =>
           destruct (encode_head opt v) as (c & r & -> & _); simpl; lia
       end.
  - pose proof (join_comma_bound size (encode opt) items IH) as H.
    change (size (PList items))
      with (S (fold_right (fun x acc => S (size x + acc)) O items)).
    change (encode opt (PList items))
      with (String "[" (join_comma (map (encode opt) items) ++ "]")).
    cbn [String.length]. rewrite string_length_app. cbn [String.length]. lia.
  - set (member := fun kv : string * value =>
                     quote (fst kv) ++ String ":" (encode opt (snd kv))).
    pose proof (join_comma_bound (fun kv => size (snd kv)) member fields) as H.
    change (size (PDict fields))
      with (S (fold_right (fun kv acc => S (size (snd kv) + acc)) O fields)).
    change (encode opt (PDict fields))
      with (String "{" (join_comma (map member fields) ++ "}")).
    cbn [String.length]. rewrite string_length_app. cbn [String.length].
    enough (fold_right (fun kv acc => S (size (snd kv) + acc)) O fields
            <= S (String.length (join_comma (map member fields))))%nat by lia.
    apply H. eapply Forall_impl; [exact IH|]. intros [k x] Hx. simpl in Hx.
    unfold member. cbn [fst snd]. rewrite string_length_app. cbn [String.length]. lia.
Qed.

(** [loads] has fuel enough for any text the encoder writes. *)
Lemma loads_encode opt (v : value) :
  json_native v = true -> ints_in_range v = true -> (depth v <= READ_DEPTH)%nat ->
  loads (encode opt v) = Ok v "".
Proof.
  intros Hn He Hd. unfold loads.
  assert (encode opt v = encode opt v ++ "") as E.
  { generalize (encode opt v). induction s; simpl; congruence. }
  rewrite E at 2.
  rewrite (parse_value_encode opt v Hn He); [| |reflexivity].
  - apply Nat.ltb_ge in Hd. now rewrite Hd.
  - pose proof (size_le_length opt v). lia.
Qed.

(** ** What [orjson.dumps] refuses *)

Lemma first_some_none {A B : Type} (f : A -> option B) (l : list A) :
  first_some (map f l) = None <-> Forall (fun x => f x = None) l.
Proof.
  induction l as [|x l IH]; cbn [map first_some].
  - split; [constructor|reflexivity].
  - destruct (f x) eqn:E.
    + split; [discriminate|]. intros H. inversion H; subst. congruence.
    + rewrite IH. split; intros H.
      * now constructor.
      * now inversion H.
Qed.

Lemma first_some_ext {A B : Type} (f g : A -> option B) (l : list A) :
  Forall (fun x => f x = g x) l -> first_some (map f l) = first_some (map g l).
Proof.
  induction 1 as [|x l Hx _ IH]; cbn [map first_some]; [reflexivity|].
  rewrite Hx. destruct (g x); [reflexivity|exact IH].
Qed.

Lemma max_fold_le {A : Type} (m : A -> nat) (l : list A) (n : nat) :
  (fold_right (fun x acc => Nat.max (m x) acc) O l <= n)%nat
  <-> Forall (fun x => (m x <= n)%nat) l.
Proof.
  induction l as [|x l IH]; cbn [fold_right].
  - split; [constructor|lia].
  - split; intros H.
    + constructor; [lia|]. apply IH. lia.
    + inversion H; subst. apply IH in H3. lia.
Qed.

(** A value with its integers in range and at most [budget] containers
    deep is not refused. *)
Lemma shallow_not_refused (v : value) :
  forall budget, ints_in_range v = true -> (depth v <= budget)%nat ->
                 refusal budget v = None.
Proof.
  induction v as [|b|z|s|s|d|items IH|fields IH] using value_nested_ind;
    intros budget Hi Hd; try reflexivity.
  - cbn [refusal]. cbn [ints_in_range] in Hi. now rewrite Hi.
  - destruct items as [|x xs]; [reflexivity|].
    cbn [depth] in Hd. destruct budget as [|b]; [lia|].
    change (refusal (S b) (PList (x :: xs)))
      with (first_some (map (refusal b) (x :: xs))).
    apply first_some_none.
    apply le_S_n, max_fold_le in Hd.
    cbn [ints_in_range] in Hi. rewrite forallb_forall in Hi.
    rewrite Forall_forall in IH, Hd |- *.
    intros y Hy. apply IH; [exact Hy| |exact (Hd y Hy)].
    apply Hi. now apply list_elem_of_In.
  - cbn [depth] in Hd. destruct budget as [|b]; [lia|].
    cbn [refusal]. apply first_some_none.
    apply le_S_n, max_fold_le in Hd.
    cbn [ints_in_range] in Hi. rewrite forallb_forall in Hi.
    rewrite Forall_forall in IH, Hd |- *.
    intros y Hy. apply IH; [exact Hy| |exact (Hd y Hy)].
    apply Hi. now apply list_elem_of_In.
Qed.

(** What is not refused has its integers in range and is at most one
    container deeper than the budget (an empty list costs nothing). *)
Lemma not_refused_sound (v : value) :
  forall budget, refusal budget v = None ->
                 ints_in_range v = true /\ (depth v <= S budget)%nat.
Proof.
  induction v as [|b|z|s|s|d|items IH|fields IH] using value_nested_ind;
    intros budget Hr; try (split; [reflexivity|cbn [depth]; lia]).
  - cbn [refusal] in Hr. cbn [ints_in_range depth].
    destruct (int_in_range z); [split; [reflexivity|lia]|discriminate].
  - destruct items as [|x xs]; [split; [reflexivity|cbn; lia]|].
    destruct budget as [|b]; [discriminate|].
    change (refusal (S b) (PList (x :: xs)))
      with (first_some (map (refusal b) (x :: xs))) in Hr.
    apply first_some_none in Hr.
    rewrite Forall_forall in IH, Hr.
    split.
    + cbn [ints_in_range]. apply forallb_forall. intros y Hy.
      apply list_elem_of_In in Hy. exact (proj1 (IH y Hy b (Hr y Hy))).
    + cbn [depth]. apply le_n_S, max_fold_le, Forall_forall. intros y Hy.
      exact (proj2 (IH y Hy b (Hr y Hy))).
  - destruct budget as [|b]; [discriminate|].
    cbn [refusal] in Hr. apply first_some_none in Hr.
    rewrite Forall_forall in IH, Hr.
    split.
    + cbn [ints_in_range]. apply forallb_forall. intros y Hy.
      apply list_elem_of_In in Hy. exact (proj1 (IH y Hy b (Hr y Hy))).
    + cbn [depth]. apply le_n_S, max_fold_le, Forall_forall. intros y Hy.
      exact (proj2 (IH y Hy b (Hr y Hy))).
Qed.

Lemma shallow_encodable (v : value) :
  ints_in_range v = true -> (depth v <= 254)%nat -> encodable v = true.
Proof.
  intros Hi Hd. unfold encodable.
  change (pred RECURSION_LIMIT) with 254%nat.
  now rewrite (shallow_not_refused v 254 Hi Hd).
Qed.

Lemma encodable_sound (v : value) :
  encodable v = true -> ints_in_range v = true /\ (depth v <= READ_DEPTH)%nat.
Proof.
  unfold encodable. destruct (refusal _ v) eqn:E; [discriminate|]. intros _.
  destruct (not_refused_sound v _ E) as [Hi Hd]. split; [exact Hi|].
  unfold READ_DEPTH. cbn [RECURSION_LIMIT pred] in Hd. lia.
Qed.

Lemma dumps_encodable opt (v : value) :
  encodable v = true -> dumps opt v = inr (encode opt v).
Proof.
  unfold encodable, dumps. now destruct (refusal _ v).
Qed.

End OrjsonFacts.

(** ** Stamping leaves JSON-native values alone *)

Module BaseFacts.
Import Base Orjson.

Lemma stamp_utc_native (x : value) : json_native x = true -> stamp_utc x = x.
Proof. destruct x; simpl; intros H; (reflexivity || discriminate). Qed.

Lemma stamp_row_native (vv : value) : json_native vv = true -> stamp_row vv = vv.
Proof.
  destruct vv as [|b|z|s|s|d|items|fields]; try reflexivity.
  simpl. intros H. apply andb_prop in H as [_ H]. f_equal.
  induction fields as [|[k x] fields IH]; [reflexivity|].
  simpl in H. apply andb_prop in H as [Hx H].
  simpl. rewrite (stamp_utc_native x Hx). f_equal. exact (IH H).
Qed.

Lemma stamp_entry_native (v : value) : json_native v = true -> stamp_entry v = v.
Proof.
  destruct v as [|b|z|s|s|d|items|fields]; try reflexivity; [discriminate|].
  simpl. intros H. f_equal.
  induction items as [|x items IH]; [reflexivity|].
  simpl in H. apply andb_prop in H as [Hx H].
  simpl. rewrite (stamp_row_native x Hx). f_equal. exact (IH H).
Qed.

(** A nested dict is not looked into. *)
Lemma stamp_entry_dict (fields : list (string * value)) :
  stamp_entry (PDict fields) = PDict fields.
Proof. reflexivity. Qed.

(** With the options of [orjson_dumps], a stamped datetime is written
    to the second, with the [Z] designator; a naive one is written to the
    second, with no designator at all. *)
Lemma stamped_datetime_rendering (d : datetime) :
  render_datetime dump_options (replace_tzinfo d utc)
  = pad4 (year d) ++ "-" ++ pad2 (month d) ++ "-" ++ pad2 (day d) ++ "T"
    ++ pad2 (hour d) ++ ":" ++ pad2 (minute d) ++ ":" ++ pad2 (second d) ++ "Z".
Proof. reflexivity. Qed.

Lemma naive_datetime_rendering (d : datetime) :
  tzinfo d = None ->
  render_datetime dump_options d
  = pad4 (year d) ++ "-" ++ pad2 (month d) ++ "-" ++ pad2 (day d) ++ "T"
    ++ pad2 (hour d) ++ ":" ++ pad2 (minute d) ++ ":" ++ pad2 (second d) ++ "".
Proof. intros H. unfold render_datetime. rewrite H. reflexivity. Qed.

(** An envelope, that is a dict with the keys [success] and [result],
    whose payload is JSON-native has a text, and the text reads back. *)
Lemma envelope_reads_back (success : bool) (result : value) :
  json_native result = true -> ints_in_range result = true ->
  (depth result <= 253)%nat ->
  exists t,
    orjson_dumps (PDict [("success", PBool success); ("result", result)]) = inr t
    /\ Orjson.loads t
       = Orjson.Ok (PDict [("success", PBool success); ("result", result)]) "".
Proof.
  intros Hn Hi Hd. unfold orjson_dumps.
  cbn [map fst snd stamp_entry]. rewrite (stamp_entry_native result Hn).
  set (doc := PDict [("success", PBool success); ("result", result)]).
  assert (ints_in_range doc = true) as Hints
      by (cbn [doc ints_in_range forallb snd]; now rewrite Hi).
  assert (depth doc <= 254)%nat as Hdepth
      by (cbn [doc depth fold_right snd]; lia).
  rewrite (OrjsonFacts.dumps_encodable _ _
             (OrjsonFacts.shallow_encodable doc Hints Hdepth)).
  eexists. split; [reflexivity|].
  apply OrjsonFacts.loads_encode; [|exact Hints|unfold READ_DEPTH; lia].
  cbn [doc json_native map fst snd unique_keys existsb forallb negb andb String.eqb].
  cbn. now rewrite Hn.
Qed.

End BaseFacts.

(* ===================================================================== *)
(** ** The pipeline *)
(* ===================================================================== *)

Module PipelineFacts.
Import Base Runtime Middleware.

Ltac run := unfold lift, bind, emit, set_data, call_handler, ret, raise in *.

Section Facts.

Variable json_loads : string -> string + value.
Variable orjson_loads : string -> string + value.
Variable format_tb : exn -> string.
Variable validation_text : string -> list (string * value) -> string * string.
Variable int_validator : value -> option Z.

(** Reading the body for a log record succeeds exactly when the body text
    can be had, whatever the state. *)
Lemma get_request_body_text (request : request) (body : string) (st : state) :
  req_text request = inr body ->
  get_request_body orjson_loads request st
  = (inr (request_snapshot orjson_loads body),
     {| st_data := st_data st; st_trace := st_trace st ++ [EvBody] |}).
Proof.
  intros H. unfold get_request_body, request_text. run. now rewrite H.
Qed.

Lemma get_request_body_raises (request : request) (e : exn) (st : state) :
  req_text request = inl e ->
  get_request_body orjson_loads request st
  = (inl e, {| st_data := st_data st; st_trace := st_trace st ++ [EvBody] |}).
Proof.
  intros H. unfold get_request_body, request_text. run. now rewrite H.
Qed.

(** The request event goes through only when the log records of the
    request can be built. *)
Lemma log_request_loggable request req_id logger st st1 :
  log_request orjson_loads validation_text request req_id logger st = (inr tt, st1) ->
  loggable orjson_loads request logger.
Proof.
  destruct logger as [elk|]; [|now left]. intros H. right.
  unfold log_request in H. unfold bind at 1 in H.
  destruct (req_text request) as [e|body] eqn:E.
  - rewrite (get_request_body_raises request e st E) in H. discriminate.
  - exists body. split; [reflexivity|].
    rewrite (get_request_body_text request body st E) in H.
    unfold bind at 1, lift, new_ELKRequestLog in H.
    destruct (refused_body (request_snapshot orjson_loads body)); [|reflexivity].
    unfold raise in H. discriminate.
Qed.

Lemma log_request_returns request req_id logger st :
  loggable orjson_loads request logger ->
  exists st1,
    log_request orjson_loads validation_text request req_id logger st = (inr tt, st1).
Proof.
  intros [->|(body & Hb & Hok)]; [simpl; run; eauto|].
  destruct logger as [elk|]; [|simpl; run; eauto].
  unfold log_request. unfold bind at 1.
  rewrite (get_request_body_text request body st Hb).
  unfold bind at 1, lift, new_ELKRequestLog. rewrite Hok.
  unfold info. destruct (elk_logger elk); run; eauto.
Qed.

(** With the exception at hand, as the boundary calls it, [log_error]
    builds its record whenever the request event could be built. *)
Lemma log_error_returns request req_id response code (e : exn) logger st :
  loggable orjson_loads request logger ->
  exists st',
    log_error orjson_loads format_tb validation_text request req_id response code
      (Some e) logger st
    = (inr tt, st').
Proof.
  intros [->|(body & Hb & Hok)]; [simpl; run; eauto|].
  destruct logger as [elk|]; [|simpl; run; eauto].
  unfold log_error. unfold bind at 1.
  rewrite (get_request_body_text request body st Hb).
  unfold bind at 1, lift, new_ELKErrorLog. rewrite Hok.
  unfold error. destruct (elk_logger elk); run; eauto.
Qed.

(** The failure envelope always has a JSON text, and that text reads back
    as the envelope. *)
Lemma failure_json (e : exn) :
  exists t,
    json (ResponseFailure_model
            {| failure_success := false;
               failure_result := Some {| error_type := exn_type e;
                                         error_message := exn_str e |} |})
    = inr t
    /\ Orjson.loads t = Orjson.Ok (Spec.failure_document e) "".
Proof.
  eexists. split; [reflexivity|].
  apply (OrjsonFacts.loads_encode _ (Spec.failure_document e));
    [reflexivity|reflexivity|].
  cbn. unfold Orjson.READ_DEPTH. lia.
Qed.

(** The error boundary: lines 43-106. *)
Lemma boundary_answers request (handler : Py retval) logger req_id execution_time
    st0 st1 st2 e :
  log_request orjson_loads validation_text request req_id
    (app_logger request logger) st0
    = (inr tt, st1) ->
  handler st1 = (inl e, st2) ->
  exists (body : string) (st3 : state),
    server_error_handler json_loads orjson_loads format_tb validation_text
      int_validator request handler logger req_id execution_time st0
    = (inl (http_exception
              (if isinstance e "HTTPUnauthorized" then "HTTPUnauthorized"
               else if isinstance e "BadRequestError" then "HTTPBadRequest"
               else if isinstance e "UserWarning" then "HTTPOk"
               else "HTTPInternalServerError")
              (if isinstance e "HTTPUnauthorized"
               then ["HTTPClientError"; "HTTPError"; "HTTPException"]
               else if isinstance e "BadRequestError"
               then ["HTTPClientError"; "HTTPError"; "HTTPException"]
               else if isinstance e "UserWarning"
               then ["HTTPSuccessful"; "HTTPException"]
               else ["HTTPServerError"; "HTTPError"; "HTTPException"])
              (Spec.mapped_status e)
              (if isinstance e "HTTPUnauthorized" then "Unauthorized"
               else if isinstance e "BadRequestError" then "Bad Request"
               else if isinstance e "UserWarning" then "OK"
               else "Internal Server Error")
              body "application/json"), st3)
    /\ Orjson.loads body = Orjson.Ok (Spec.failure_document e) "".
Proof.
  intros Hlog Hraise.
  pose proof (log_request_loggable _ _ _ _ _ Hlog) as Hok.
  destruct (failure_json e) as (t & Ht & Hback).
  unfold server_error_handler, try_except, Spec.mapped_status.
  unfold bind at 1. rewrite Hlog. unfold bind at 1. rewrite Hraise.
  cbn [List.find fst snd].
  destruct (isinstance e "HTTPUnauthorized");
    [|destruct (isinstance e "BadRequestError");
      [|destruct (isinstance e "UserWarning");
        [|replace (isinstance e "Exception") with true by reflexivity]]];
    cbv beta zeta iota; cbn [snd]; cbv beta zeta; unfold bind at 1;
    match goal with
    | |- context [log_error ?ol ?ft ?vt ?r ?i ?resp ?code (Some ?exc) ?lg ?st] =>
        destruct (log_error_returns r i resp code exc lg st Hok) as [st3 ->]
    end;
    unfold bind, lift; rewrite Ht; unfold ret, raise;
    exists t, st3; (split; [reflexivity|exact Hback]).
Qed.

(** Whatever the validation raises is a [BadRequestError]: the last
    clause of the outer [try] catches every exception. *)
Lemma validate_raises_bad_request request annotation st e st' :
  validate json_loads request annotation st = (inl e, st') ->
  exists msg, e = BadRequestError msg.
Proof.
  unfold validate. unfold try_except at 1.
  match goal with |- context [match ?b st with _ => _ end] => destruct (b st) as [[e0|[]] st0] end.
  - cbn [List.find fst snd].
    destruct (isinstance e0 "ValidationError"); cbn [snd]; unfold raise;
      intros H; injection H as <- _; eauto.
  - discriminate.
Qed.

Lemma prepare_data_validation_raises request handler annotation st e st' :
  h_data_annotation handler = Some annotation ->
  validate json_loads request annotation st = (inl e, st') ->
  prepare_data json_loads request handler st = (inl e, st').
Proof.
  intros Ha Hv. unfold prepare_data, validation. rewrite Ha.
  unfold bind at 1. now rewrite Hv.
Qed.

Lemma validate_undecodable request annotation body msg st :
  req_text request = inr body -> json_loads body = inl msg ->
  validate json_loads request annotation st
  = (inl (BadRequestError msg),
     {| st_data := st_data st; st_trace := st_trace st ++ [EvBody] |}).
Proof.
  intros Hb Hj. unfold validate, try_except at 1.
  unfold bind at 1. unfold request_json, request_text. run.
  rewrite Hb. cbv beta iota. rewrite Hj. reflexivity.
Qed.


Lemma last_cons {A : Type} (a d : A) (l : list A) :
  List.last (a :: l) d = List.last l a.
Proof.
  revert a d. induction l as [|b l IH]; intros a d; [reflexivity|].
  change (List.last (a :: b :: l) d) with (List.last (b :: l) d).
  now rewrite (IH b d), (IH b a).
Qed.

(** The loop over the alternatives of a union of shapes, on an object
    body: every alternative is tried, each success is counted and
    assigned, each failure replaces the remembered error text. *)
Lemma union_loop_shapes (shapes : list shape) (kwargs : list (string * value))
    (n : nat) (err : string) (st : state) :
  has_keyword self_parameter kwargs = false ->
  union_loop (map shape_class shapes) (PDict kwargs) n err st
  = (inr ((n + length (Spec.successes (Spec.attempts shapes (PDict kwargs))))%nat,
          List.last (map exn_str (Spec.failures (Spec.attempts shapes (PDict kwargs)))) err),
     {| st_data := List.last (map Some (Spec.successes (Spec.attempts shapes (PDict kwargs))))
                     (st_data st);
        st_trace := st_trace st
                    ++ map EvSetData (Spec.successes (Spec.attempts shapes (PDict kwargs))) |}).
Proof.
  intros Hfree.
  revert n err st. induction shapes as [|s shapes IH]; intros n err st.
  - simpl. unfold ret. destruct st as [d t]. simpl.
    now rewrite Nat.add_0_r, List.app_nil_r.
  - assert (construct (shape_class s) (PDict kwargs)
            = match shape_validate s kwargs with
              | inl err => inl (ValidationError (fst err) (snd err))
              | inr fields => inr {| model_class := shape_name s; model_dict := fields |}
              end) as Hc
        by (cbn [construct shape_class cls_new]; now rewrite Hfree).
    change (Spec.attempts (s :: shapes) (PDict kwargs))
      with (construct (shape_class s) (PDict kwargs)
            :: Spec.attempts shapes (PDict kwargs)).
    cbn [map union_loop]. unfold bind at 1. unfold try_except.
    unfold bind at 1. unfold lift. rewrite Hc.
    destruct (shape_validate s kwargs) as [[m j]|fields] eqn:Hs.
    + unfold raise. cbn [List.find fst snd isinstance ValidationError exn_type
                          exn_bases exn_str String.eqb Ascii.eqb Bool.eqb orb existsb].
      unfold ret. cbn [fst snd]. rewrite IH.
      cbn [Spec.successes Spec.failures map]. now rewrite last_cons.
    + unfold ret at 1. unfold bind at 1. unfold set_data at 1. unfold ret at 1.
      cbn [fst snd]. rewrite IH. cbn [st_data st_trace].
      cbn [Spec.successes Spec.failures map length]. rewrite last_cons.
      rewrite <- List.app_assoc. cbn [app].
      now rewrite Nat.add_succ_r.
Qed.

(** [validate] on a union of shapes and an object body. *)
Lemma validate_union request (shapes : list shape) body kwargs st :
  req_text request = inr body -> json_loads body = inr (PDict kwargs) ->
  has_keyword self_parameter kwargs = false ->
  validate json_loads request (union_of shapes) st
  = match Spec.successes (Spec.attempts shapes (PDict kwargs)) with
    | [] =>
        (inl (BadRequestError (Spec.last_error (Spec.attempts shapes (PDict kwargs)))),
         {| st_data := st_data st; st_trace := st_trace st ++ [EvBody] |})
    | [o] =>
        (inr tt,
         {| st_data := Some o; st_trace := st_trace st ++ [EvBody; EvSetData o] |})
    | o :: o' :: more =>
        (inl (BadRequestError Spec.ambiguity),
         {| st_data := List.last (map Some (o :: o' :: more)) (st_data st);
            st_trace := st_trace st ++ EvBody :: map EvSetData (o :: o' :: more) |})
    end.
Proof.
  intros Hb Hj Hfree. unfold validate, union_of. unfold try_except at 1.
  unfold bind at 1. unfold request_json, request_text.
  unfold bind at 1. unfold bind at 1. unfold emit, lift. rewrite Hb.
  unfold ret at 1. cbv beta iota. rewrite Hj. unfold ret at 1.
  unfold try_except at 1. unfold bind at 1. cbn [issubclass_BaseModel]. unfold raise at 1.
  cbn [List.find fst snd isinstance TypeError simple_exn exn_type exn_bases
       String.eqb Ascii.eqb Bool.eqb orb existsb].
  unfold bind at 1. cbn [get_args]. unfold ret at 1.
  unfold bind at 1. rewrite (union_loop_shapes _ _ _ _ _ Hfree).
  cbn [fst snd st_data st_trace].
  unfold Spec.last_error.
  destruct (Spec.successes (Spec.attempts shapes (PDict kwargs))) as [|o [|o' more]].
  - cbn. now rewrite List.app_nil_r.
  - cbn. now rewrite <- List.app_assoc.
  - cbn [length Nat.add]. unfold raise. rewrite <- List.app_assoc. reflexivity.
Qed.


(** The loop over arbitrary classes and an arbitrary body: it only ever
    assigns [request["data"]], once per class that could be built. *)
Lemma union_loop_trace (classes : list pyclass) (j : value) (n : nat) (err : string)
    (st : state) res st' :
  union_loop classes j n err st = (res, st') ->
  exists objs : list model,
    st_trace st' = (st_trace st ++ map EvSetData objs)%list
    /\ st_data st' = List.last (map Some objs) (st_data st)
    /\ (forall n' err', res = inr (n', err') -> n' = (n + length objs)%nat).
Proof.
  revert n err st. induction classes as [|c rest IH]; intros n err st.
  - simpl. unfold ret. intros H. injection H as <- <-. exists [].
    simpl. rewrite List.app_nil_r. repeat split.
    intros n' err' H. injection H as <- _. lia.
  - cbn [union_loop]. unfold bind at 1. unfold try_except. unfold bind at 1.
    unfold lift. destruct (construct c j) as [e|o].
    + unfold raise at 1. cbn [List.find fst snd].
      destruct (isinstance e "ValidationError").
      * unfold ret at 1. cbn [fst snd]. apply IH.
      * intros H. injection H as <- <-. exists []. simpl.
        rewrite List.app_nil_r. repeat split. discriminate.
    + unfold ret at 1. unfold bind at 1. unfold set_data at 1. unfold ret at 1.
      cbn [fst snd]. intros H. apply IH in H as (objs & Ht & Hd & Hn).
      cbn [st_trace st_data] in Ht, Hd. exists (o :: objs).
      rewrite Ht, Hd. cbn [map length]. rewrite last_cons, <- List.app_assoc.
      repeat split. intros n' err' E. rewrite (Hn n' err' E). lia.
Qed.

(** What [validate] does to the request context, whatever the annotation
    and the body: it reads the body, then assigns [request["data"]] some
    number of times; when it returns normally that number is one. *)
Lemma validate_outcome request annotation st res st' :
  validate json_loads request annotation st = (res, st') ->
  exists objs : list model,
    st_trace st' = (st_trace st ++ EvBody :: map EvSetData objs)%list
    /\ st_data st' = List.last (map Some objs) (st_data st)
    /\ (res = inr tt -> exists o, objs = [o]).
Proof.
  unfold validate. unfold try_except at 1.
  match goal with
  | |- context [match ?b st with _ => _ end] => destruct (b st) as [r0 s0] eqn:Hbody
  end.
  intros Hres.
  assert (st' = s0 /\ (res = inr tt -> r0 = inr tt)) as [-> Hr].
  { destruct r0 as [e0|[]]; [|injection Hres as <- <-; auto].
    cbn [List.find fst snd] in Hres.
    destruct (isinstance e0 "ValidationError"); cbn [snd] in Hres; unfold raise in Hres;
      injection Hres as <- <-; split; auto; discriminate. }
  clear Hres. revert Hbody.
  unfold bind at 1. unfold request_json, request_text.
  unfold bind at 1. unfold bind at 1. unfold emit, lift.
  set (s1 := {| st_data := st_data st; st_trace := st_trace st ++ [EvBody] |}).
  assert (forall r s, (r, s) = (r0, s0) ->
            (exists objs : list model,
               st_trace s = (st_trace s1 ++ map EvSetData objs)%list
               /\ st_data s = List.last (map Some objs) (st_data s1)
               /\ (r = inr tt -> exists o, objs = [o])) ->
            exists objs : list model,
              st_trace s0 = (st_trace st ++ EvBody :: map EvSetData objs)%list
              /\ st_data s0 = List.last (map Some objs) (st_data st)
              /\ (res = inr tt -> exists o, objs = [o])) as Hwrap.
  { intros r s E (objs & Ht & Hd & Ho). injection E as -> ->. exists objs.
    rewrite Ht, Hd. subst s1. cbn [st_trace st_data]. rewrite <- List.app_assoc.
    repeat split. intros E. apply Ho, Hr, E. }
  assert (forall (e : exn),
            exists objs : list model,
              st_trace s1 = (st_trace s1 ++ map EvSetData objs)%list
              /\ st_data s1 = List.last (map Some objs) (st_data s1)
              /\ (@inl exn unit e = inr tt -> exists o, objs = [o])) as Hnone.
  { intros e. exists []. simpl. rewrite List.app_nil_r. repeat split. discriminate. }
  destruct (req_text request) as [e|body].
  { unfold raise. intros E. exact (Hwrap _ _ E (Hnone e)). }
  unfold ret at 1. cbv beta iota.
  destruct (json_loads body) as [msg|j].
  { unfold raise. intros E. exact (Hwrap _ _ E (Hnone _)). }
  unfold ret at 1. unfold try_except. unfold bind at 1.
  destruct annotation as [c|args]; cbn [issubclass_BaseModel].
  - unfold ret at 1. destruct (cls_is_model c).
    + unfold bind at 1. destruct (construct c j) as [e|o].
      * unfold raise at 1. cbn [List.find fst snd].
        destruct (isinstance e "TypeError").
        -- unfold bind at 1. cbn [get_args]. unfold raise at 1.
           intros E. exact (Hwrap _ _ E (Hnone _)).
        -- intros E. exact (Hwrap _ _ E (Hnone _)).
      * unfold ret at 1. unfold set_data. intros E. apply (Hwrap _ _ E).
        exists [o]. cbn. repeat split. eauto.
    + unfold raise at 1. cbn. intros E. exact (Hwrap _ _ E (Hnone _)).
  - unfold raise at 1. cbn [List.find fst snd isinstance TypeError simple_exn exn_type
                             exn_bases String.eqb Ascii.eqb Bool.eqb orb existsb].
    unfold bind at 1. destruct args as [classes|]; cbn [get_args].
    + unfold ret at 1. unfold bind at 1.
      destruct (union_loop classes j 0 "" s1) as [r s] eqn:Hloop.
      apply union_loop_trace in Hloop as (objs & Ht & Hd & Hn).
      destruct r as [e|[n' err']].
      * intros E. apply (Hwrap _ _ E). exists objs. repeat split; auto. discriminate.
      * specialize (Hn n' err' eq_refl). cbn [fst snd].
        destruct n' as [|[|n']]; unfold raise, ret; intros E; apply (Hwrap _ _ E);
          exists objs; repeat split; auto; try discriminate.
        intros _. destruct objs as [|o [|o' more]]; simpl in Hn; try lia. eauto.
    + unfold raise at 1. intros E. exact (Hwrap _ _ E (Hnone _)).
Qed.

End Facts.

(** Validation failures that are not shape mismatches. *)

Example non_model_annotation_rejected :
  fst (validate Examples.decode
         (Examples.post Examples.plain_headers Examples.body_name)
         (AnnClass Examples.plain_int) fresh)
  = inl (BadRequestError
           "Handler data annotation is not a subclass of pydantic.BaseModel.").
Proof. reflexivity. Qed.

Example alias_without_args_rejected :
  fst (validate Examples.decode
         (Examples.post Examples.plain_headers Examples.body_name)
         (AnnAlias None) fresh)
  = inl (BadRequestError "__args__").
Proof. reflexivity. Qed.

Example list_body_for_single_shape_rejected :
  fst (validate Examples.decode
         (Examples.post Examples.plain_headers Examples.body_list)
         (AnnClass (shape_class Examples.ByName)) fresh)
  = inl (BadRequestError "type object 'ByName' has no attribute '__args__'").
Proof. reflexivity. Qed.

Example shape_mismatch_rejected :
  fst (validate Examples.decode
         (Examples.post Examples.plain_headers Examples.body_empty)
         (AnnClass (shape_class Examples.ByName)) fresh)
  = inl (BadRequestError "[field required]").
Proof. reflexivity. Qed.

Example single_shape_accepted :
  validate Examples.decode
    (Examples.post Examples.plain_headers Examples.body_name)
    (AnnClass (shape_class Examples.ByName)) fresh
  = (inr tt,
     {| st_data := Some {| model_class := "ByName";
                           model_dict := PDict [("name", PStr "Alpha")] |};
        st_trace := [EvBody;
                     EvSetData {| model_class := "ByName";
                                  model_dict := PDict [("name", PStr "Alpha")] |}] |}).
Proof. reflexivity. Qed.

End PipelineFacts.

(* ===================================================================== *)
(** ** The claims *)
(* ===================================================================== *)

Import Base Runtime Middleware.

(** C1 (as amended): for a handler whose [data] annotation is a union of
    pydantic shapes and a body that can be passed to them as keyword
    arguments (a JSON object, none of whose keys is [__pydantic_self__],
    the name of the constructor's own parameter), construction is
    attempted against every alternative and the successes are counted:
    with none, the request fails as a BadRequest whose message is the last
    validation error in declaration order; with exactly one, the handler
    is invoked with that object attached to the request context; with
    more than one, the request fails as a BadRequest with the ambiguity
    message. *)
Theorem union_of_shapes_on_object_body :
  forall (json_loads : string -> string + value)
         (request : request) (handler : handler) (shapes : list shape)
         (body : string) (kwargs : list (string * value)) (st : state),
    h_data_annotation handler = Some (union_of shapes) ->
    req_text request = inr body ->
    json_loads body = inr (PDict kwargs) ->
    has_keyword self_parameter kwargs = false ->
    match Spec.successes (Spec.attempts shapes (PDict kwargs)) with
    | [] =>
        fst (prepare_data json_loads request handler st)
        = inl (BadRequestError (Spec.last_error (Spec.attempts shapes (PDict kwargs))))
    | [o] =>
        prepare_data json_loads request handler st
        = (match h_call handler (Some o) with
           | inl e => inl e
           | inr r => wrapped r
           end,
           {| st_data := Some o;
              st_trace := st_trace st ++ [EvBody; EvSetData o; EvHandler (Some o)] |})
    | _ :: _ :: _ =>
        fst (prepare_data json_loads request handler st)
        = inl (BadRequestError Spec.ambiguity)
    end.
Proof.
  intros json_loads request handler shapes body kwargs st Ha Hb Hj Hfree.
  pose proof (PipelineFacts.validate_union json_loads request shapes body kwargs st
                Hb Hj Hfree) as Hv.
  unfold prepare_data, validation. rewrite Ha.
  destruct (Spec.successes (Spec.attempts shapes (PDict kwargs))) as [|o [|o' more]];
    unfold bind at 1; rewrite Hv; try reflexivity.
  unfold bind, call_handler, lift. cbn [st_data st_trace].
  rewrite <- List.app_assoc. cbn [app].
  destruct (h_call handler (Some o)) as [e|r]; [reflexivity|].
  destruct (wrapped r); reflexivity.
Qed.

Lemma union_of_shapes_on_object_body_witness :
  h_data_annotation Examples.by_name_or_id
  = Some (union_of [Examples.ByName; Examples.ById])
  /\ Examples.decode Examples.body_empty = inr (PDict [])
  /\ fst (prepare_data Examples.decode
            (Examples.post Examples.plain_headers Examples.body_empty)
            Examples.by_name_or_id fresh)
     = inl (BadRequestError "id: field required").
Proof.
  split; [reflexivity|]. split; [reflexivity|].
  exact (union_of_shapes_on_object_body Examples.decode
           (Examples.post Examples.plain_headers Examples.body_empty)
           Examples.by_name_or_id [Examples.ByName; Examples.ById]
           Examples.body_empty [] fresh eq_refl eq_refl eq_refl eq_refl).
Defined.

(** C1 as stated fails on a JSON body that is not an object: with the
    body [[]] no alternative validates, yet the loop stops at the first
    alternative and the message is the text of its [TypeError], not the
    error of the last alternative (and not an empty text either). *)
Lemma union_rule_fails_on_list_body :
  Examples.decode Examples.body_list = inr (PList [])
  /\ Spec.successes (Spec.attempts [Examples.ByName; Examples.ById] (PList [])) = []
  /\ fst (prepare_data Examples.decode
            (Examples.post Examples.plain_headers Examples.body_list)
            Examples.by_name_or_id fresh)
     = inl (BadRequestError
              "handlers.ByName() argument after ** must be a mapping, not list")
  /\ fst (prepare_data Examples.decode
            (Examples.post Examples.plain_headers Examples.body_list)
            Examples.by_name_or_id fresh)
     <> inl (BadRequestError
               (Spec.last_error
                  (Spec.attempts [Examples.ByName; Examples.ById] (PList [])))).
Proof.
  split; [reflexivity|]. split; [reflexivity|]. split; [reflexivity|].
  vm_compute. intros H. discriminate H.
Qed.

(** C2: when the rest of the chain (validation or the handler) raises a
    failure [e], the error boundary answers with exactly one HTTP
    response and does not let [e] through: the status is 401 for an
    authentication failure, 400 for a BadRequest, 200 for a business
    warning and 500 for anything else, and the body is the JSON text of a
    failure envelope whose [error_type] is the name of the class of [e]
    and whose [error_message] is [str(e)].  (The chain runs once the
    request event has been logged; the record of the error event is built
    from the same body and is accepted as that of the request event
    was.) *)
Theorem error_boundary_maps_every_failure :
  forall (json_loads orjson_loads : string -> string + value)
         (format_tb : exn -> string)
         (validation_text : string -> list (string * value) -> string * string)
         (int_validator : value -> option Z)
         (request : request) (handler : Py retval) (logger : option ELKAsync)
         (req_id : string) (execution_time : Z) (st0 st1 st2 : state) (e : exn),
    log_request orjson_loads validation_text request req_id
      (app_logger request logger) st0
      = (inr tt, st1) ->
    handler st1 = (inl e, st2) ->
    exists (answer : exn) (body : string) (st3 : state),
      server_error_handler json_loads orjson_loads format_tb validation_text
        int_validator request handler logger req_id execution_time st0
      = (inl answer, st3)
      /\ exn_http answer
         = Some {| status := (if isinstance e "HTTPUnauthorized" then 401
                              else if isinstance e "BadRequestError" then 400
                              else if isinstance e "UserWarning" then 200
                              else 500);
                   text := body;
                   content_type := "application/json" |}
      /\ Orjson.loads body = Orjson.Ok (Spec.failure_document e) "".
Proof.
  intros json_loads orjson_loads format_tb validation_text int_validator
         request handler logger req_id execution_time st0 st1 st2 e Hlog Hraise.
  destruct (PipelineFacts.boundary_answers json_loads orjson_loads format_tb
              validation_text int_validator
              request handler logger req_id execution_time st0 st1 st2 e Hlog Hraise)
    as (body & st3 & Hrun & Hback).
  eexists _, body, st3. split; [exact Hrun|]. split; [|exact Hback].
  unfold Spec.mapped_status.
  destruct (isinstance e "HTTPUnauthorized"); [reflexivity|].
  destruct (isinstance e "BadRequestError"); [reflexivity|].
  destruct (isinstance e "UserWarning"); reflexivity.
Qed.

Lemma error_boundary_maps_every_failure_witness :
  log_request Examples.decode Examples.refused_fields
    (Examples.post Examples.secret_headers Examples.body_name)
    "r1" (app_logger (Examples.post Examples.secret_headers Examples.body_name) None) fresh
  = (inr tt,
     snd (log_request Examples.decode Examples.refused_fields
            (Examples.post Examples.secret_headers Examples.body_name)
            "r1" (Some Examples.elk) fresh))
  /\ exists (answer : exn) (body : string) (st3 : state),
       server_error_handler Examples.decode Examples.decode Examples.no_traceback
         Examples.refused_fields Examples.no_conversion
         (Examples.post Examples.secret_headers Examples.body_name)
         Examples.failing_chain None "r1" 5 fresh = (inl answer, st3)
       /\ exn_http answer
          = Some {| status := 200; text := body; content_type := "application/json" |}
       /\ Orjson.loads body = Orjson.Ok (Spec.failure_document Examples.not_found) "".
Proof.
  split; [reflexivity|].
  exact (error_boundary_maps_every_failure
           Examples.decode Examples.decode Examples.no_traceback
           Examples.refused_fields Examples.no_conversion
           (Examples.post Examples.secret_headers Examples.body_name)
           Examples.failing_chain None "r1" 5 fresh _ _ Examples.not_found
           eq_refl eq_refl).
Defined.

(** C3 fails on the code: a body that cannot be decoded as text is not
    valid JSON, and with the logger that the application installs it
    gets no 400.  Logging the request raises the decoding error before
    the validation is reached; the clause for any other exception then
    logs the error, which reads the body again and raises the same error
    out of the clause, past the boundary: the outcome is the
    [UnicodeDecodeError] itself, which is no HTTP response.  Without a
    logger the same request is answered as the claim says, and with the
    logger so is a body that is text but not JSON. *)
Lemma undecodable_body_gets_no_answer :
  server_error_handler Examples.decode Examples.decode Examples.no_traceback
    Examples.refused_fields Examples.no_conversion
    (Examples.post_bytes (Some Examples.elk))
    (prepare_data Examples.decode (Examples.post_bytes (Some Examples.elk))
       Examples.by_name_or_id)
    None "r2" 5 fresh
  = (inl Examples.not_utf8, {| st_data := None; st_trace := [EvBody; EvBody] |})
  /\ exn_http Examples.not_utf8 = None
  /\ (exists (answer : exn) (answer_body : string) (st3 : state),
         server_error_handler Examples.decode Examples.decode Examples.no_traceback
           Examples.refused_fields Examples.no_conversion
           (Examples.post_bytes None)
           (prepare_data Examples.decode (Examples.post_bytes None)
              Examples.by_name_or_id)
           None "r2" 5 fresh
         = (inl answer, st3)
         /\ exn_http answer
            = Some {| status := 400; text := answer_body;
                      content_type := "application/json" |}
         /\ Orjson.loads answer_body
            = Orjson.Ok
                (PDict [("success", PBool false);
                        ("result",
                         PDict [("error_type", PStr "BadRequestError");
                                ("error_message",
                                 PStr (exn_str Examples.not_utf8))])]) "")
  /\ (exists (answer : exn) (answer_body : string) (st3 : state),
         server_error_handler Examples.decode Examples.decode Examples.no_traceback
           Examples.refused_fields Examples.no_conversion
           (Examples.post Examples.plain_headers Examples.body_broken)
           (prepare_data Examples.decode
              (Examples.post Examples.plain_headers Examples.body_broken)
              Examples.by_name_or_id)
           None "r2" 5 fresh
         = (inl answer, st3)
         /\ exn_http answer
            = Some {| status := 400; text := answer_body;
                      content_type := "application/json" |}
         /\ Orjson.loads answer_body
            = Orjson.Ok
                (PDict [("success", PBool false);
                        ("result",
                         PDict [("error_type", PStr "BadRequestError");
                                ("error_message", PStr "malformed JSON")])]) "").
Proof.
  split; [reflexivity|]. split; [reflexivity|].
  split; eexists _, _, _; (split; [reflexivity|]); split; reflexivity.
Qed.

(** C4: a handler without a [data] annotation is invoked at once: the
    body is neither read nor parsed (the only step is the call of the
    handler), nothing is attached to the request context, and the
    validation cannot fail; what happens next is up to the handler. *)
Theorem unannotated_handler_skips_validation :
  forall (json_loads : string -> string + value)
         (request : request) (handler : handler) (st : state),
    h_data_annotation handler = None ->
    validation json_loads request handler st = (inr tt, st)
    /\ prepare_data json_loads request handler st
       = (match h_call handler (st_data st) with
          | inl e => inl e
          | inr r => wrapped r
          end,
          {| st_data := st_data st;
             st_trace := st_trace st ++ [EvHandler (st_data st)] |}).
Proof.
  intros json_loads request handler st Ha.
  unfold prepare_data, validation. rewrite Ha. split; [reflexivity|].
  unfold bind, ret, call_handler, lift.
  destruct (h_call handler (st_data st)) as [e|r]; [reflexivity|].
  destruct (wrapped r); reflexivity.
Qed.

Lemma unannotated_handler_skips_validation_witness :
  h_data_annotation Examples.health_check = None
  /\ prepare_data Examples.decode
       (Examples.post Examples.plain_headers Examples.body_broken)
       Examples.health_check fresh
     = (inr (RetResponse {| status := 200; text := "200"; content_type := "text/plain" |}),
        {| st_data := None; st_trace := [EvHandler None] |}).
Proof.
  split; [reflexivity|].
  exact (proj2 (unannotated_handler_skips_validation Examples.decode
                  (Examples.post Examples.plain_headers Examples.body_broken)
                  Examples.health_check fresh eq_refl)).
Defined.

(** C5: once the handler has returned a value, a pydantic model is
    answered as a JSON response whose body is the text its serialiser
    gives (if the serialiser raises, so does the pipeline), and any other
    value is passed through unchanged. *)
Theorem returned_model_is_serialised :
  forall (json_loads : string -> string + value)
         (request : request) (handler : handler) (st st1 : state) (r : retval),
    validation json_loads request handler st = (inr tt, st1) ->
    h_call handler (st_data st1) = inr r ->
    fst (prepare_data json_loads request handler st)
    = match r with
      | RetModel m =>
          match orjson_dumps (model_dict m) with
          | inr t => inr (RetResponse {| status := 200; text := t;
                                         content_type := "application/json" |})
          | inl e => inl e
          end
      | RetResponse resp => inr (RetResponse resp)
      | RetOther v => inr (RetOther v)
      end.
Proof.
  intros json_loads request handler st st1 r Hv Hc.
  unfold prepare_data. unfold bind at 1. rewrite Hv.
  unfold bind, call_handler. rewrite Hc. unfold lift, wrapped, json, json_response.
  destruct r as [m|resp|v]; try reflexivity.
  destruct (orjson_dumps (model_dict m)); reflexivity.
Qed.

Lemma returned_model_is_serialised_witness :
  fst (prepare_data Examples.decode
         (Examples.post Examples.plain_headers Examples.body_name)
         Examples.by_name_or_id fresh)
  = inr (RetResponse
           {| status := 200;
              text := Orjson.encode 0
                        (PDict [("success", PBool true);
                                ("result", PDict [("name", PStr "Alpha")])]);
              content_type := "application/json" |}).
Proof.
  exact (returned_model_is_serialised Examples.decode
           (Examples.post Examples.plain_headers Examples.body_name)
           Examples.by_name_or_id fresh _ _ eq_refl eq_refl).
Defined.

(** C6 (as amended): whenever the handler is invoked, [request["data"]]
    has been assigned exactly once if the handler declares a [data]
    annotation and not at all otherwise, always before the call of the
    handler and never after it; the handler sees that one object, and it
    is what the context still holds when the pipeline is done.  (When
    several alternatives of a union validate, the key is assigned once per
    such alternative and the request is rejected before the handler
    runs.) *)
Theorem data_key_assigned_once_before_handler :
  forall (json_loads : string -> string + value)
         (request : request) (handler : handler) (st : state)
         (res : exn + retval) (st' : state) (new : list event) (d : option model),
    prepare_data json_loads request handler st = (res, st') ->
    st_trace st' = (st_trace st ++ new)%list ->
    In (EvHandler d) new ->
    st_data st' = d
    /\ Spec.assignments new
       = match h_data_annotation handler with Some _ => 1%nat | None => O end
    /\ match h_data_annotation handler with
       | None => d = st_data st /\ new = [EvHandler (st_data st)]
       | Some _ =>
           exists o, d = Some o /\ new = [EvBody; EvSetData o; EvHandler (Some o)]
       end.
Proof.
  intros json_loads request handler st res st' new d Hrun Htrace Hin.
  assert (forall evs : list event,
             st_trace st' = (st_trace st ++ evs)%list -> new = evs) as Hnew.
  { intros evs E. rewrite Htrace in E. now apply List.app_inv_head in E. }
  clear Htrace. revert Hrun. unfold prepare_data, validation.
  destruct (h_data_annotation handler) as [annotation|].
  - unfold bind at 1.
    destruct (validate json_loads request annotation st) as [r s1] eqn:Hv.
    destruct (PipelineFacts.validate_outcome json_loads request annotation _ _ _ Hv)
      as (objs & Ht & Hd & Ho).
    destruct r as [e|[]].
    + intros H. injection H as <- <-. rewrite (Hnew _ Ht) in Hin.
      exfalso. destruct Hin as [Hin|Hin]; [discriminate|].
      apply List.in_map_iff in Hin as (o & Ho' & _). discriminate.
    + destruct (Ho eq_refl) as [o ->]. cbn in Ht, Hd.
      unfold bind, call_handler, lift. rewrite Ht, Hd.
      assert (forall (r : exn + retval) (s : state),
                 (r, s) = (res, st') ->
                 s = {| st_data := Some o;
                        st_trace := (st_trace st ++ [EvBody; EvSetData o])
                                    ++ [EvHandler (Some o)] |} ->
                 st_data st' = d
                 /\ Spec.assignments new = 1%nat
                 /\ exists o0, d = Some o0
                               /\ new = [EvBody; EvSetData o0; EvHandler (Some o0)])
        as Hdone.
      { intros r s E ->. injection E as _ <-. cbn [st_trace st_data] in *.
        rewrite (Hnew [EvBody; EvSetData o; EvHandler (Some o)]) in Hin |- *
          by (now rewrite <- List.app_assoc).
        destruct Hin as [Hin|[Hin|[Hin|[]]]]; try discriminate.
        injection Hin as <-. split; [reflexivity|]. split; [reflexivity|]. eauto. }
      destruct (h_call handler (Some o)) as [e|r]; [|destruct (wrapped r)];
        unfold raise, ret; intros H; exact (Hdone _ _ H eq_refl).
  - unfold bind, ret, call_handler, lift.
    assert (forall (r : exn + retval) (s : state),
               (r, s) = (res, st') ->
               s = {| st_data := st_data st;
                      st_trace := st_trace st ++ [EvHandler (st_data st)] |} ->
               st_data st' = d
               /\ Spec.assignments new = O
               /\ d = st_data st /\ new = [EvHandler (st_data st)]) as Hdone.
    { intros r s E ->. injection E as _ <-. cbn [st_trace st_data] in *.
      rewrite (Hnew [EvHandler (st_data st)] eq_refl) in Hin |- *.
      destruct Hin as [Hin|[]]. injection Hin as <-. repeat split. }
    destruct (h_call handler (st_data st)) as [e|r]; [|destruct (wrapped r)];
      unfold raise, ret; intros H; exact (Hdone _ _ H eq_refl).
Qed.

Lemma data_key_assigned_once_before_handler_witness :
  In (EvHandler (Some {| model_class := "ByName";
                         model_dict := PDict [("name", PStr "Alpha")] |}))
     (st_trace (snd (prepare_data Examples.decode
                       (Examples.post Examples.plain_headers Examples.body_name)
                       Examples.by_name_or_id fresh)))
  /\ Spec.assignments
       (st_trace (snd (prepare_data Examples.decode
                         (Examples.post Examples.plain_headers Examples.body_name)
                         Examples.by_name_or_id fresh)))
     = 1%nat.
Proof.
  split; [right; right; left; reflexivity|].
  exact (proj1 (proj2 (data_key_assigned_once_before_handler Examples.decode
                         (Examples.post Examples.plain_headers Examples.body_name)
                         Examples.by_name_or_id fresh _ _ _ _ eq_refl eq_refl
                         (or_intror (or_intror (or_introl eq_refl)))))).
Defined.

(** C6 as stated fails when two alternatives of a union validate: the
    key is assigned twice during the validation of that one request
    (which is then rejected). *)
Lemma data_key_assigned_twice_on_ambiguity :
  Spec.assignments
    (st_trace (snd (prepare_data Examples.decode
                      (Examples.post Examples.plain_headers Examples.body_both)
                      Examples.by_name_or_id fresh)))
  = 2%nat
  /\ fst (prepare_data Examples.decode
            (Examples.post Examples.plain_headers Examples.body_both)
            Examples.by_name_or_id fresh)
     = inl (BadRequestError Spec.ambiguity).
Proof. split; reflexivity. Qed.

(** C7: for a handler that declares a [data] annotation, whatever is
    raised while the body is validated (a shape mismatch, an annotation
    that is not a pydantic class or not a union, a body that cannot be
    unpacked as keyword arguments, ...) leaves the validation as a
    [BadRequestError], and the client gets status 400.  (The validation
    runs once the request event has been logged.) *)
Theorem validation_failure_is_bad_request :
  forall (json_loads orjson_loads : string -> string + value)
         (format_tb : exn -> string)
         (validation_text : string -> list (string * value) -> string * string)
         (int_validator : value -> option Z)
         (request : request) (handler : handler) (annotation : annotation)
         (logger : option ELKAsync) (req_id : string) (execution_time : Z)
         (st0 st1 st2 : state) (e : exn),
    h_data_annotation handler = Some annotation ->
    log_request orjson_loads validation_text request req_id
      (app_logger request logger) st0
      = (inr tt, st1) ->
    validate json_loads request annotation st1 = (inl e, st2) ->
    exn_type e = "BadRequestError"
    /\ exists (answer : exn) (answer_body : string) (st3 : state),
         server_error_handler json_loads orjson_loads format_tb validation_text
           int_validator request
           (prepare_data json_loads request handler) logger req_id execution_time st0
         = (inl answer, st3)
         /\ exn_http answer
            = Some {| status := 400; text := answer_body;
                      content_type := "application/json" |}.
Proof.
  intros json_loads orjson_loads format_tb validation_text int_validator
         request handler annotation logger
         req_id execution_time st0 st1 st2 e Ha Hlog Hv.
  destruct (PipelineFacts.validate_raises_bad_request json_loads request annotation
              st1 e st2 Hv) as [msg ->].
  split; [reflexivity|].
  pose proof (PipelineFacts.prepare_data_validation_raises json_loads request handler
                annotation st1 _ _ Ha Hv) as Hp.
  destruct (PipelineFacts.boundary_answers json_loads orjson_loads format_tb
              validation_text int_validator request
              (prepare_data json_loads request handler) logger req_id execution_time
              st0 st1 _ _ Hlog Hp) as (t & st3 & Hrun & _).
  eexists _, t, st3. split; [exact Hrun|reflexivity].
Qed.

Lemma validation_failure_is_bad_request_witness :
  h_data_annotation Examples.annotated_int = Some (AnnClass Examples.plain_int)
  /\ exists (answer : exn) (answer_body : string) (st3 : state),
       server_error_handler Examples.decode Examples.decode Examples.no_traceback
         Examples.refused_fields Examples.no_conversion
         (Examples.post Examples.plain_headers Examples.body_list)
         (prepare_data Examples.decode
            (Examples.post Examples.plain_headers Examples.body_list)
            Examples.annotated_int)
         None "r3" 5 fresh
       = (inl answer, st3)
       /\ exn_http answer
          = Some {| status := 400; text := answer_body;
                    content_type := "application/json" |}.
Proof.
  split; [reflexivity|].
  exact (proj2 (validation_failure_is_bad_request
                  Examples.decode Examples.decode Examples.no_traceback
                  Examples.refused_fields Examples.no_conversion
                  (Examples.post Examples.plain_headers Examples.body_list)
                  Examples.annotated_int _ None "r3" 5 fresh _ _ _
                  eq_refl eq_refl eq_refl)).
Defined.

(** C8 fails on the code: the header is removed by its exact key,
    [Authorization], from a dict that keeps every name in the spelling
    the case-insensitive [request.headers] holds it in.  A request whose
    headers carry the credential under the name [authorization] has it
    logged, value and all, whereas the same credential under
    [Authorization] is left out. *)
Lemma lowercase_authorization_header_is_logged :
  (exists r : ELKRequestLog,
      st_trace (snd (log_request Examples.decode Examples.refused_fields
                       (Examples.post Examples.lowercase_secret_headers
                          Examples.body_name)
                       "r1" (Some Examples.elk) fresh))
      = [EvBody; EvLog "INFO" "Request #r1" (RequestLog r)]
      /\ rq_headers r !! "authorization" = Some "Bearer secret")
  /\ (exists r : ELKRequestLog,
         st_trace (snd (log_request Examples.decode Examples.refused_fields
                          (Examples.post Examples.secret_headers Examples.body_name)
                          "r1" (Some Examples.elk) fresh))
         = [EvBody; EvLog "INFO" "Request #r1" (RequestLog r)]
         /\ rq_headers r !! "Authorization" = None
         /\ rq_headers r !! "authorization" = None).
Proof.
  split; eexists; (split; [reflexivity|]); repeat split; vm_compute; reflexivity.
Qed.

(** C9 (as amended): a failure envelope, and a success envelope whose
    payload is made of JSON-native data only (None, booleans, integers in
    the 64-bit range, strings, lists and dicts of those) in lists and
    dicts nested no more than 253 deep, is read back from its JSON text as
    the very payload it was built from.  (A datetime does not come back:
    it is written without its microseconds, as text.  [orjson.dumps]
    refuses a value nested about 255 levels deep, the envelope included,
    and integers beyond 64 bits.) *)
Theorem envelope_round_trip_on_json_native_payload :
  (forall r : ResponseSuccess,
      Orjson.json_native (success_result r) = true ->
      Orjson.ints_in_range (success_result r) = true ->
      (Orjson.depth (success_result r) <= 253)%nat ->
      exists t,
        json (ResponseSuccess_model r) = inr t
        /\ json_loads t = Orjson.Ok (model_dict (ResponseSuccess_model r)) "")
  /\ (forall r : ResponseFailure,
         exists t,
           json (ResponseFailure_model r) = inr t
           /\ json_loads t = Orjson.Ok (model_dict (ResponseFailure_model r)) "").
Proof.
  split.
  - intros [success result] Hn He Hd. unfold json, json_loads. cbn [model_dict
      ResponseSuccess_model success_success success_result] in *.
    now apply BaseFacts.envelope_reads_back.
  - intros [success [[type message]|]]; unfold json, json_loads;
      cbn [model_dict ResponseFailure_model failure_success failure_result
           ErrorResult_dict error_type error_message];
      apply BaseFacts.envelope_reads_back; try reflexivity; cbn; lia.
Qed.

Lemma envelope_round_trip_on_json_native_payload_witness :
  exists t,
    json (ResponseSuccess_model
            {| success_success := true;
               success_result := PList [PInt (-7); PStr "Alpha"; PNone] |}) = inr t
    /\ json_loads t
       = Orjson.Ok (PDict [("success", PBool true);
                           ("result", PList [PInt (-7); PStr "Alpha"; PNone])]) "".
Proof.
  exact (proj1 envelope_round_trip_on_json_native_payload
           {| success_success := true;
              success_result := PList [PInt (-7); PStr "Alpha"; PNone] |}
           eq_refl eq_refl ltac:(cbn; lia)).
Defined.

(** C9 as stated fails on a payload with a datetime: two success
    envelopes that differ in the microseconds have the same JSON text, so
    no decoder recovers both, and [orjson.loads] returns a string where
    the payload had a datetime. *)
Lemma envelope_round_trip_loses_microseconds :
  json (ResponseSuccess_model (Examples.stamped 5))
  = json (ResponseSuccess_model (Examples.stamped 0))
  /\ model_dict (ResponseSuccess_model (Examples.stamped 5))
     <> model_dict (ResponseSuccess_model (Examples.stamped 0))
  /\ exists t,
       json (ResponseSuccess_model (Examples.stamped 5)) = inr t
       /\ json_loads t
          = Orjson.Ok (PDict [("success", PBool true);
                              ("result", PStr "2021-03-04T05:06:07Z")]) ""
       /\ json_loads t
          <> Orjson.Ok (model_dict (ResponseSuccess_model (Examples.stamped 5))) "".
Proof.
  split; [reflexivity|]. split; [intros H; discriminate H|].
  eexists. split; [reflexivity|]. split; [reflexivity|].
  intros H. discriminate H.
Qed.

(** C10 fails on the code: the timestamp of a single project, nested in
    the dict under [result], is written without the [Z] designator (its
    microseconds are left out), whereas the same project inside a list is
    written with it. *)
Lemma nested_project_timestamp_has_no_utc_designator :
  (exists t,
      json (ProjectClasses.ResponseProject Examples.alpha) = inr t
      /\ json_loads t
         = Orjson.Ok
             (PDict [("success", PBool true);
                     ("result",
                      PDict [("id", PStr "0b0e7b1c-5d0a-4c0e-9f7e-3c1d2a4b5c6d");
                             ("name", PStr "Alpha");
                             ("created", PStr "2021-03-04T05:06:07");
                             ("updated", PNone)])]) "")
  /\ (exists t,
         json (ProjectClasses.ResponseProjectSeveral [Examples.alpha]) = inr t
         /\ json_loads t
            = Orjson.Ok
                (PDict [("success", PBool true);
                        ("result",
                         PList
                           [PDict [("id", PStr "0b0e7b1c-5d0a-4c0e-9f7e-3c1d2a4b5c6d");
                                   ("name", PStr "Alpha");
                                   ("created", PStr "2021-03-04T05:06:07Z");
                                   ("updated", PNone)]])]) "").
Proof.
  split; eexists; (split; [reflexivity|vm_compute; reflexivity]).
Qed.

(* ===================================================================== *)
(** ** Further properties of the pipeline *)
(* ===================================================================== *)

Module ReplaceFacts.
Import Views.

Lemma occurs_app (c : ascii) (a b : string) :
  occurs c (a ++ b) = occurs c a || occurs c b.
Proof.
  induction a as [|x a IH]; simpl; [reflexivity|]. now rewrite IH, orb_assoc.
Qed.

(** [s.replace(old, new)] leaves no [old] behind when [new] has none. *)
Lemma str_replace_removes (old : ascii) (new s : string) :
  occurs old new = false -> occurs old (str_replace old new s) = false.
Proof.
  intros Hnew. induction s as [|x s IH]; simpl; [reflexivity|].
  destruct (Ascii.eqb x old) eqn:E.
  - now rewrite occurs_app, Hnew, IH.
  - simpl. now rewrite E, IH.
Qed.

(** ... and brings in no character that neither [s] nor [new] has. *)
Lemma str_replace_keeps_absent (c old : ascii) (new s : string) :
  occurs c new = false -> occurs c s = false ->
  occurs c (str_replace old new s) = false.
Proof.
  intros Hnew. induction s as [|x s IH]; simpl; [reflexivity|].
  intros H. apply orb_false_elim in H as [Hx Hs].
  destruct (Ascii.eqb x old).
  - now rewrite occurs_app, Hnew, IH.
  - simpl. now rewrite Hx, IH.
Qed.

End ReplaceFacts.

Module SingleShapeFacts.
Import Base Runtime Middleware.

(** [validate] on a single class that derives from [BaseModel]. *)
Lemma validate_model_class json_loads request (c : pyclass) body j st :
  cls_is_model c = true ->
  req_text request = inr body -> json_loads body = inr j ->
  validate json_loads request (AnnClass c) st
  = match construct c j with
    | inr o =>
        (inr tt, {| st_data := Some o; st_trace := st_trace st ++ [EvBody; EvSetData o] |})
    | inl e =>
        (inl (BadRequestError
                (if isinstance e "TypeError"
                 then "type object '" ++ cls_name c ++ "' has no attribute '__args__'"
                 else if isinstance e "ValidationError"
                 then str_replace Orjson.dquote "'"
                        (str_replace (ascii_of_N 10) "" (exn_json e))
                 else exn_str e)),
         {| st_data := st_data st; st_trace := st_trace st ++ [EvBody] |})
    end.
Proof.
  intros Hm Hb Hj. unfold validate. unfold try_except at 1.
  unfold bind at 1. unfold request_json, request_text.
  unfold bind at 1. unfold bind at 1. unfold emit, lift. rewrite Hb.
  unfold ret at 1. cbv beta iota. rewrite Hj. unfold ret at 1.
  unfold try_except at 1. unfold bind at 1. cbn [issubclass_BaseModel].
  unfold ret at 1. rewrite Hm. unfold bind at 1.
  destruct (construct c j) as [e|o].
  - unfold raise at 1. cbn [List.find fst snd].
    destruct (isinstance e "TypeError").
    + unfold bind at 1. cbn [get_args]. unfold raise at 1. reflexivity.
    + cbn [List.find fst snd].
      destruct (isinstance e "ValidationError"); reflexivity.
  - unfold ret at 1. unfold set_data. cbn [st_data st_trace].
    now rewrite <- List.app_assoc.
Qed.

(** [validate] on a class that does not derive from [BaseModel]. *)
Lemma validate_other_class json_loads request (c : pyclass) body j st :
  cls_is_model c = false ->
  req_text request = inr body -> json_loads body = inr j ->
  validate json_loads request (AnnClass c) st
  = (inl (BadRequestError
            "Handler data annotation is not a subclass of pydantic.BaseModel."),
     {| st_data := st_data st; st_trace := st_trace st ++ [EvBody] |}).
Proof.
  intros Hm Hb Hj. unfold validate. unfold try_except at 1.
  unfold bind at 1. unfold request_json, request_text.
  unfold bind at 1. unfold bind at 1. unfold emit, lift. rewrite Hb.
  unfold ret at 1. cbv beta iota. rewrite Hj. unfold ret at 1.
  unfold try_except at 1. unfold bind at 1. cbn [issubclass_BaseModel].
  unfold ret at 1. rewrite Hm. reflexivity.
Qed.

End SingleShapeFacts.

Import Base Runtime Middleware.

(** X1: for a handler that declares a single shape and a body that is a
    JSON object, one of three things happens.  If the object has a key
    named [__pydantic_self__], the call of the class raises [TypeError]
    before anything is validated, the code takes the branch meant for
    unions, and the request fails as a BadRequest whose message is the
    text of the [AttributeError] about [__args__].  Otherwise either the
    shape accepts the body and the handler is invoked with the object
    built from it, assigned once to [request["data"]], or the request
    fails as a BadRequest whose message is [e.json(indent=0)] of the
    validation error with its newlines removed and its double quotes
    turned into single quotes.  In the two failing cases the handler is
    not invoked and nothing is assigned. *)
Theorem single_shape_accepts_or_rejects :
  forall (json_loads : string -> string + value)
         (request : request) (handler : handler) (s : shape)
         (body : string) (kwargs : list (string * value)) (st : state),
    h_data_annotation handler = Some (AnnClass (shape_class s)) ->
    req_text request = inr body ->
    json_loads body = inr (PDict kwargs) ->
    if has_keyword self_parameter kwargs
    then
      prepare_data json_loads request handler st
      = (inl (BadRequestError
                ("type object '" ++ shape_name s ++ "' has no attribute '__args__'")),
         {| st_data := st_data st; st_trace := st_trace st ++ [EvBody] |})
    else
      match shape_validate s kwargs with
      | inr fields =>
          prepare_data json_loads request handler st
          = (match h_call handler
                     (Some {| model_class := shape_name s; model_dict := fields |}) with
             | inl e => inl e
             | inr r => wrapped r
             end,
             {| st_data := Some {| model_class := shape_name s; model_dict := fields |};
                st_trace := st_trace st
                            ++ [EvBody;
                                EvSetData {| model_class := shape_name s;
                                             model_dict := fields |};
                                EvHandler (Some {| model_class := shape_name s;
                                                   model_dict := fields |})] |})
      | inl err =>
          prepare_data json_loads request handler st
          = (inl (BadRequestError
                    (str_replace Orjson.dquote "'"
                       (str_replace Views.newline "" (snd err)))),
             {| st_data := st_data st; st_trace := st_trace st ++ [EvBody] |})
      end.
Proof.
  intros json_loads request handler s body kwargs st Ha Hb Hj.
  pose proof (SingleShapeFacts.validate_model_class json_loads request (shape_class s)
                body (PDict kwargs) st eq_refl Hb Hj) as Hv.
  cbn [construct shape_class cls_new cls_name] in Hv.
  unfold prepare_data, validation. rewrite Ha.
  destruct (has_keyword self_parameter kwargs).
  - unfold bind at 1. rewrite Hv. reflexivity.
  - destruct (shape_validate s kwargs) as [[m j]|fields];
      unfold bind at 1; rewrite Hv.
    + reflexivity.
    + unfold bind, call_handler, lift. cbn [st_data st_trace].
      rewrite <- List.app_assoc. cbn [app].
      destruct (h_call handler _) as [e|r]; [reflexivity|].
      destruct (wrapped r); reflexivity.
Qed.

Lemma single_shape_accepts_or_rejects_witness :
  fst (prepare_data Examples.decode
         (Examples.post Examples.plain_headers Examples.body_self)
         {| h_data_annotation := Some (AnnClass (shape_class Examples.ByName));
            h_call := Examples.echo |} fresh)
  = inl (BadRequestError "type object 'ByName' has no attribute '__args__'").
Proof.
  exact (f_equal fst
           (single_shape_accepts_or_rejects Examples.decode
              (Examples.post Examples.plain_headers Examples.body_self)
              {| h_data_annotation := Some (AnnClass (shape_class Examples.ByName));
                 h_call := Examples.echo |}
              Examples.ByName Examples.body_self [("__pydantic_self__", PInt 1)]
              fresh eq_refl eq_refl eq_refl)).
Defined.

(** X2: when the call of the class raises a validation error, the
    message of the BadRequest that answers holds no double quote and no
    newline, whatever the validation error says. *)
Theorem shape_mismatch_message_is_plain :
  forall (json_loads : string -> string + value)
         (request : request) (handler : handler) (c : pyclass)
         (body : string) (kwargs : list (string * value)) (st : state)
         (err : string * string),
    h_data_annotation handler = Some (AnnClass c) ->
    cls_is_model c = true ->
    req_text request = inr body ->
    json_loads body = inr (PDict kwargs) ->
    cls_new c kwargs = inl (ValidationError (fst err) (snd err)) ->
    exists msg : string,
      fst (prepare_data json_loads request handler st) = inl (BadRequestError msg)
      /\ Views.occurs Orjson.dquote msg = false
      /\ Views.occurs Views.newline msg = false.
Proof.
  intros json_loads request handler c body kwargs st err Ha Hm Hb Hj Hs.
  pose proof (SingleShapeFacts.validate_model_class json_loads request c
                body (PDict kwargs) st Hm Hb Hj) as Hv.
  cbn [construct] in Hv. rewrite Hs in Hv.
  unfold prepare_data, validation. rewrite Ha. unfold bind at 1. rewrite Hv.
  eexists. split; [reflexivity|].
  change (isinstance (ValidationError (fst err) (snd err)) "TypeError") with false.
  change (isinstance (ValidationError (fst err) (snd err)) "ValidationError") with true.
  cbn [exn_json ValidationError]. split.
  - now apply ReplaceFacts.str_replace_removes.
  - apply ReplaceFacts.str_replace_keeps_absent; [reflexivity|].
    now apply ReplaceFacts.str_replace_removes.
Qed.

Lemma shape_mismatch_message_is_plain_witness :
  exists msg : string,
    fst (prepare_data Examples.decode
           (Examples.post Examples.plain_headers Examples.body_empty)
           {| h_data_annotation := Some (AnnClass (shape_class Examples.ByName));
              h_call := Examples.echo |} fresh)
    = inl (BadRequestError msg)
    /\ Views.occurs Orjson.dquote msg = false
    /\ Views.occurs Views.newline msg = false.
Proof.
  exact (shape_mismatch_message_is_plain Examples.decode
           (Examples.post Examples.plain_headers Examples.body_empty)
           {| h_data_annotation := Some (AnnClass (shape_class Examples.ByName));
              h_call := Examples.echo |}
           (shape_class Examples.ByName) Examples.body_empty [] fresh
           ("name: field required", "[field required]")
           eq_refl eq_refl eq_refl eq_refl eq_refl).
Defined.

(** X3: for a handler that declares a single pydantic class and a JSON
    body that is not an object, the request fails as a BadRequest whose
    message is the text of the [AttributeError] raised when the class is
    asked for [__args__]: the [TypeError] of the call sends the code into
    the branch meant for unions.  Nothing is assigned, and the handler is
    not invoked. *)
Theorem single_class_on_non_object_body :
  forall (json_loads : string -> string + value)
         (request : request) (handler : handler) (c : pyclass)
         (body : string) (j : value) (st : state),
    h_data_annotation handler = Some (AnnClass c) ->
    cls_is_model c = true ->
    req_text request = inr body ->
    json_loads body = inr j ->
    (forall kwargs, j <> PDict kwargs) ->
    prepare_data json_loads request handler st
    = (inl (BadRequestError
              ("type object '" ++ cls_name c ++ "' has no attribute '__args__'")),
       {| st_data := st_data st; st_trace := st_trace st ++ [EvBody] |}).
Proof.
  intros json_loads request handler c body j st Ha Hm Hb Hj Hnd.
  pose proof (SingleShapeFacts.validate_model_class json_loads request c
                body j st Hm Hb Hj) as Hv.
  unfold prepare_data, validation. rewrite Ha. unfold bind at 1. rewrite Hv.
  destruct j; try reflexivity. exfalso. exact (Hnd _ eq_refl).
Qed.

Lemma single_class_on_non_object_body_witness :
  prepare_data Examples.decode
    (Examples.post Examples.plain_headers Examples.body_list)
    {| h_data_annotation := Some (AnnClass (shape_class Examples.ByName));
       h_call := Examples.echo |} fresh
  = (inl (BadRequestError "type object 'ByName' has no attribute '__args__'"),
     {| st_data := None; st_trace := [EvBody] |}).
Proof.
  refine (single_class_on_non_object_body Examples.decode
            (Examples.post Examples.plain_headers Examples.body_list)
            {| h_data_annotation := Some (AnnClass (shape_class Examples.ByName));
               h_call := Examples.echo |}
            (shape_class Examples.ByName) Examples.body_list (PList []) fresh
            eq_refl eq_refl eq_refl eq_refl _).
  intros kwargs H. discriminate H.
Defined.

(** X4: a [data] annotation that is a class but not a pydantic model
    rejects every request whose body is valid JSON, with a BadRequest
    that says so; the body is read, nothing is assigned and the handler is
    not invoked. *)
Theorem non_model_annotation_rejects_every_body :
  forall (json_loads : string -> string + value)
         (request : request) (handler : handler) (c : pyclass)
         (body : string) (j : value) (st : state),
    h_data_annotation handler = Some (AnnClass c) ->
    cls_is_model c = false ->
    req_text request = inr body ->
    json_loads body = inr j ->
    prepare_data json_loads request handler st
    = (inl (BadRequestError
              "Handler data annotation is not a subclass of pydantic.BaseModel."),
       {| st_data := st_data st; st_trace := st_trace st ++ [EvBody] |}).
Proof.
  intros json_loads request handler c body j st Ha Hm Hb Hj.
  unfold prepare_data, validation. rewrite Ha. unfold bind at 1.
  now rewrite (SingleShapeFacts.validate_other_class json_loads request c body j st
                 Hm Hb Hj).
Qed.

Lemma non_model_annotation_rejects_every_body_witness :
  prepare_data Examples.decode
    (Examples.post Examples.plain_headers Examples.body_name)
    Examples.annotated_int fresh
  = (inl (BadRequestError
            "Handler data annotation is not a subclass of pydantic.BaseModel."),
     {| st_data := None; st_trace := [EvBody] |}).
Proof.
  exact (non_model_annotation_rejects_every_body Examples.decode
           (Examples.post Examples.plain_headers Examples.body_name)
           Examples.annotated_int Examples.plain_int Examples.body_name _ fresh
           eq_refl eq_refl eq_refl eq_refl).
Defined.

Module BoundaryFacts.
Import Base Runtime Middleware.

Section Facts.

Variable json_loads : string -> string + value.
Variable orjson_loads : string -> string + value.
Variable format_tb : exn -> string.
Variable validation_text : string -> list (string * value) -> string * string.
Variable int_validator : value -> option Z.

(** What [log_request] does when a logger is there, the body text can be
    had and its snapshot is accepted. *)
Lemma log_request_configured request req_id (elk : ELKAsync) body st :
  req_text request = inr body ->
  refused_body (request_snapshot orjson_loads body) = None ->
  exists rq : ELKRequestLog,
    rq_request_uuid rq = req_id
    /\ log_request orjson_loads validation_text request req_id (Some elk) st
       = (inr tt,
          {| st_data := st_data st;
             st_trace := st_trace st
                         ++ EvBody :: (if elk_logger elk
                                       then [EvLog "INFO" ("Request #" ++ req_id)
                                               (RequestLog rq)]
                                       else []) |}).
Proof.
  intros Hb Hok. unfold log_request. unfold bind at 1.
  rewrite (PipelineFacts.get_request_body_text orjson_loads request body st Hb).
  unfold bind at 1, lift, new_ELKRequestLog. rewrite Hok. unfold ret at 1.
  unfold info.
  eexists. split; [|destruct (elk_logger elk); unfold emit, ret; cbn [st_data st_trace];
                     rewrite <- ?List.app_assoc; reflexivity].
  reflexivity.
Qed.

Lemma log_error_configured request req_id response code (e : exn)
    (elk : ELKAsync) body st :
  req_text request = inr body ->
  refused_body (request_snapshot orjson_loads body) = None ->
  exists er : ELKErrorLog,
    er_request_uuid er = req_id
    /\ er_status_code er = code
    /\ er_error_info er = model_dict (ResponseFailure_model response)
    /\ er_traceback er = format_tb e
    /\ log_error orjson_loads format_tb validation_text request req_id response code
         (Some e) (Some elk) st
       = (inr tt,
          {| st_data := st_data st;
             st_trace := st_trace st
                         ++ EvBody :: (if elk_logger elk
                                       then [EvLog "ERROR" ("Error #" ++ req_id)
                                               (ErrorLog er)]
                                       else []) |}).
Proof.
  intros Hb Hok. unfold log_error. unfold bind at 1.
  rewrite (PipelineFacts.get_request_body_text orjson_loads request body st Hb).
  unfold bind at 1, lift, new_ELKErrorLog. rewrite Hok. unfold ret at 1.
  unfold error.
  eexists. repeat split;
    [..|destruct (elk_logger elk); unfold emit, ret; cbn [st_data st_trace];
        rewrite <- ?List.app_assoc; reflexivity]; reflexivity.
Qed.

(** The four clauses of the boundary, once an exception [e] has been
    raised inside the [try] in the state [st2]: the error is logged, then
    the answer is raised. *)
Lemma clause_answers request logger req_id (e : exn) st2 st3 :
  log_error orjson_loads format_tb validation_text request req_id
    {| failure_success := false;
       failure_result := Some {| error_type := exn_type e;
                                 error_message := exn_str e |} |}
    (Spec.mapped_status e) (Some e) (app_logger request logger) st2 = (inr tt, st3) ->
  forall (body : Py retval) st0,
    body st0 = (inl e, st2) ->
    exists (answer : exn) (text : string),
      try_except body
        [("HTTPUnauthorized",
          fun e =>
            let response :=
              {| failure_success := false;
                 failure_result := Some {| error_type := exn_type e;
                                           error_message := exn_str e |} |} in
            Runtime.bind
              (log_error orjson_loads format_tb validation_text request req_id
                 response 401 (Some e) (app_logger request logger))
              (fun _ =>
                 Runtime.bind (lift (json (ResponseFailure_model response)))
                   (fun t => raise (HTTPUnauthorized t "application/json"))));
         ("BadRequestError",
          fun e =>
            let response :=
              {| failure_success := false;
                 failure_result := Some {| error_type := exn_type e;
                                           error_message := exn_str e |} |} in
            Runtime.bind
              (log_error orjson_loads format_tb validation_text request req_id
                 response 400 (Some e) (app_logger request logger))
              (fun _ =>
                 Runtime.bind (lift (json (ResponseFailure_model response)))
                   (fun t => raise (HTTPBadRequest t "application/json"))));
         ("UserWarning",
          fun e =>
            let response :=
              {| failure_success := false;
                 failure_result := Some {| error_type := exn_type e;
                                           error_message := exn_str e |} |} in
            Runtime.bind
              (log_error orjson_loads format_tb validation_text request req_id
                 response 200 (Some e) (app_logger request logger))
              (fun _ =>
                 Runtime.bind (lift (json (ResponseFailure_model response)))
                   (fun t => raise (HTTPOk t "application/json"))));
         ("Exception",
          fun e =>
            let response :=
              {| failure_success := false;
                 failure_result := Some {| error_type := exn_type e;
                                           error_message := exn_str e |} |} in
            Runtime.bind
              (log_error orjson_loads format_tb validation_text request req_id
                 response 500 (Some e) (app_logger request logger))
              (fun _ =>
                 Runtime.bind (lift (json (ResponseFailure_model response)))
                   (fun t => raise (HTTPInternalServerError t "application/json"))))]
        st0
      = (inl answer, st3)
      /\ exn_http answer
         = Some {| status := Spec.mapped_status e; text := text;
                   content_type := "application/json" |}
      /\ Orjson.loads text = Orjson.Ok (Spec.failure_document e) "".
Proof.
  intros Herr body st0 Hraise.
  destruct (PipelineFacts.failure_json e) as (t & Ht & Hback).
  unfold try_except. rewrite Hraise.
  cbn [List.find fst snd]. unfold Spec.mapped_status in *.
  destruct (isinstance e "HTTPUnauthorized");
    [|destruct (isinstance e "BadRequestError");
      [|destruct (isinstance e "UserWarning");
        [|replace (isinstance e "Exception") with true by reflexivity]]];
    cbv beta zeta iota; cbn [snd]; cbv beta zeta; unfold bind at 1;
    rewrite Herr; unfold bind, lift; rewrite Ht; unfold ret, raise;
    eexists _, t; (split; [reflexivity|split; [reflexivity|exact Hback]]).
Qed.

Lemma boundary_clause request (handler : Py retval) logger req_id execution_time
    st0 st1 st2 e st3 :
  log_request orjson_loads validation_text request req_id
    (app_logger request logger) st0
    = (inr tt, st1) ->
  handler st1 = (inl e, st2) ->
  log_error orjson_loads format_tb validation_text request req_id
    {| failure_success := false;
       failure_result := Some {| error_type := exn_type e;
                                 error_message := exn_str e |} |}
    (Spec.mapped_status e) (Some e) (app_logger request logger) st2 = (inr tt, st3) ->
  exists (answer : exn) (body : string),
    server_error_handler json_loads orjson_loads format_tb validation_text
      int_validator request handler logger req_id execution_time st0
    = (inl answer, st3)
    /\ exn_http answer
       = Some {| status := Spec.mapped_status e; text := body;
                 content_type := "application/json" |}
    /\ Orjson.loads body = Orjson.Ok (Spec.failure_document e) "".
Proof.
  intros Hlog Hraise Herr.
  unfold server_error_handler.
  apply (clause_answers request logger req_id e st2 st3 Herr).
  unfold bind at 1. rewrite Hlog. unfold bind at 1. now rewrite Hraise.
Qed.

Lemma log_request_unreadable request req_id (elk : ELKAsync) e st :
  req_text request = inl e ->
  log_request orjson_loads validation_text request req_id (Some elk) st
  = (inl e, {| st_data := st_data st; st_trace := st_trace st ++ [EvBody] |}).
Proof.
  intros Hb. unfold log_request. unfold bind at 1.
  now rewrite (PipelineFacts.get_request_body_raises orjson_loads request e st Hb).
Qed.

Lemma log_error_unreadable request req_id response code exc (elk : ELKAsync) e st :
  req_text request = inl e ->
  log_error orjson_loads format_tb validation_text request req_id response code exc
    (Some elk) st
  = (inl e, {| st_data := st_data st; st_trace := st_trace st ++ [EvBody] |}).
Proof.
  intros Hb. unfold log_error. unfold bind at 1.
  now rewrite (PipelineFacts.get_request_body_raises orjson_loads request e st Hb).
Qed.

End Facts.

End BoundaryFacts.

(** X5: with a logger in place, a request that the chain answers with a
    response whose record pydantic accepts (its body is not the JSON
    [null], and it has a status) is logged in this order: the request
    event before any step of the chain, the response event after all of
    them.  Both carry the request id; the response event carries the
    status of the answer and the measured time; the answer itself is
    returned as the chain gave it. *)
Theorem request_and_response_events_frame_the_chain :
  forall (json_loads orjson_loads : string -> string + value)
         (format_tb : exn -> string)
         (validation_text : string -> list (string * value) -> string * string)
         (int_validator : value -> option Z)
         (request : request) (handler : Py retval) (logger : option ELKAsync)
         (elk : ELKAsync) (req_id : string) (execution_time : Z)
         (st0 st1 st2 : state) (r : retval) (code : Z) (chain : list event),
    app_logger request logger = Some elk ->
    elk_logger elk = true ->
    log_request orjson_loads validation_text request req_id (Some elk) st0
    = (inr tt, st1) ->
    handler st1 = (inr r, st2) ->
    st_trace st2 = (st_trace st1 ++ chain)%list ->
    refused_body (get_response_body json_loads r) = None ->
    as_int int_validator (get_response_status_code r) = Some code ->
    exists (rq : ELKRequestLog) (rs : ELKResponseLog),
      server_error_handler json_loads orjson_loads format_tb validation_text
        int_validator request handler logger req_id execution_time st0
      = (inr r,
         {| st_data := st_data st2;
            st_trace := st_trace st0
                        ++ [EvBody; EvLog "INFO" ("Request #" ++ req_id) (RequestLog rq)]
                        ++ chain
                        ++ [EvLog "INFO" ("Response #" ++ req_id) (ResponseLog rs)] |})
      /\ rq_request_uuid rq = req_id
      /\ rs_request_uuid rs = req_id
      /\ rs_status_code rs = code
      /\ rs_execution_time rs = execution_time.
Proof.
  intros json_loads orjson_loads format_tb validation_text int_validator
         request handler logger elk req_id
         execution_time st0 st1 st2 r code chain Hl He Hlog Hrun Htr Hbody Hcode.
  destruct (PipelineFacts.log_request_loggable orjson_loads validation_text
              _ _ _ _ _ Hlog)
    as [Hnone|(body & Hb & Hok)]; [discriminate|].
  destruct (BoundaryFacts.log_request_configured orjson_loads validation_text
              request req_id elk body st0 Hb Hok) as (rq & Hid & Hlog').
  rewrite He, Hlog in Hlog'. injection Hlog' as ->.
  unfold server_error_handler, try_except. rewrite Hl.
  unfold bind at 1. rewrite Hlog. unfold bind at 1. rewrite Hrun.
  unfold bind at 1. unfold log_response. unfold bind at 1, lift, new_ELKResponseLog.
  rewrite Hbody, Hcode. unfold ret at 1. unfold info. rewrite He.
  unfold emit, ret.
  eexists rq, _. split.
  - rewrite Htr. cbn [st_trace st_data]. rewrite <- !List.app_assoc. reflexivity.
  - split; [exact Hid|]. split; [reflexivity|]. split; reflexivity.
Qed.

Lemma request_and_response_events_frame_the_chain_witness :
  exists (rq : ELKRequestLog) (rs : ELKResponseLog),
    server_error_handler Examples.decode Examples.decode Examples.no_traceback
      Examples.refused_fields Examples.no_conversion
      (Examples.post Examples.secret_headers Examples.body_name)
      (prepare_data Examples.decode
         (Examples.post Examples.secret_headers Examples.body_name)
         Examples.by_name_or_id)
      None "r1" 5 fresh
    = (inr (RetResponse
              {| status := 200;
                 text := Orjson.encode 0
                           (PDict [("success", PBool true);
                                   ("result", PDict [("name", PStr "Alpha")])]);
                 content_type := "application/json" |}),
       {| st_data := Some {| model_class := "ByName";
                             model_dict := PDict [("name", PStr "Alpha")] |};
          st_trace :=
            [EvBody; EvLog "INFO" "Request #r1" (RequestLog rq);
             EvBody;
             EvSetData {| model_class := "ByName";
                          model_dict := PDict [("name", PStr "Alpha")] |};
             EvHandler (Some {| model_class := "ByName";
                                model_dict := PDict [("name", PStr "Alpha")] |});
             EvLog "INFO" "Response #r1" (ResponseLog rs)] |})
    /\ rq_request_uuid rq = "r1"
    /\ rs_request_uuid rs = "r1"
    /\ rs_status_code rs = 200
    /\ rs_execution_time rs = 5.
Proof.
  exact (request_and_response_events_frame_the_chain
           Examples.decode Examples.decode Examples.no_traceback
           Examples.refused_fields Examples.no_conversion
           (Examples.post Examples.secret_headers Examples.body_name)
           (prepare_data Examples.decode
              (Examples.post Examples.secret_headers Examples.body_name)
              Examples.by_name_or_id)
           None Examples.elk "r1" 5 fresh _ _ _ 200
           [EvBody;
            EvSetData {| model_class := "ByName";
                         model_dict := PDict [("name", PStr "Alpha")] |};
            EvHandler (Some {| model_class := "ByName";
                               model_dict := PDict [("name", PStr "Alpha")] |})]
           eq_refl eq_refl eq_refl eq_refl eq_refl eq_refl eq_refl).
Defined.

(** X6: with a logger in place, a failure of the chain is logged once,
    as an ERROR event that comes after every step of the chain and before
    the answer leaves; the event and the answer agree: the status code
    logged is the status answered, and the [error_info] logged is the
    envelope that the body of the answer reads back as.  The event also
    carries the request id and the traceback. *)
Theorem error_event_agrees_with_the_answer :
  forall (json_loads orjson_loads : string -> string + value)
         (format_tb : exn -> string)
         (validation_text : string -> list (string * value) -> string * string)
         (int_validator : value -> option Z)
         (request : request) (handler : Py retval) (logger : option ELKAsync)
         (elk : ELKAsync) (req_id : string) (execution_time : Z)
         (st0 st1 st2 : state) (e : exn),
    app_logger request logger = Some elk ->
    elk_logger elk = true ->
    log_request orjson_loads validation_text request req_id (Some elk) st0
    = (inr tt, st1) ->
    handler st1 = (inl e, st2) ->
    exists (er : ELKErrorLog) (answer : exn) (body : string),
      server_error_handler json_loads orjson_loads format_tb validation_text
        int_validator request handler logger req_id execution_time st0
      = (inl answer,
         {| st_data := st_data st2;
            st_trace := st_trace st2
                        ++ [EvBody; EvLog "ERROR" ("Error #" ++ req_id) (ErrorLog er)] |})
      /\ exn_http answer
         = Some {| status := er_status_code er; text := body;
                   content_type := "application/json" |}
      /\ er_status_code er = Spec.mapped_status e
      /\ Orjson.loads body = Orjson.Ok (er_error_info er) ""
      /\ er_error_info er = Spec.failure_document e
      /\ er_request_uuid er = req_id
      /\ er_traceback er = format_tb e.
Proof.
  intros json_loads orjson_loads format_tb validation_text int_validator
         request handler logger elk req_id
         execution_time st0 st1 st2 e Hl He Hlog Hrun.
  destruct (PipelineFacts.log_request_loggable orjson_loads validation_text
              _ _ _ _ _ Hlog)
    as [Hnone|(body & Hb & Hok)]; [discriminate|].
  destruct (BoundaryFacts.log_error_configured orjson_loads format_tb validation_text
              request req_id
              {| failure_success := false;
                 failure_result := Some {| error_type := exn_type e;
                                           error_message := exn_str e |} |}
              (Spec.mapped_status e) e elk body st2 Hb Hok)
    as (er & Hid & Hcode & Hinfo & Htb & Herr).
  rewrite He in Herr. rewrite <- Hl in Hlog, Herr.
  destruct (BoundaryFacts.boundary_clause json_loads orjson_loads format_tb
              validation_text int_validator request
              handler logger req_id execution_time st0 st1 st2 e _ Hlog Hrun Herr)
    as (answer & t & Hseh & Hhttp & Hback).
  exists er, answer, t. split; [exact Hseh|]. rewrite Hcode.
  split; [exact Hhttp|]. split; [reflexivity|]. rewrite Hinfo.
  split; [exact Hback|]. split; [reflexivity|]. split; assumption.
Qed.

Lemma error_event_agrees_with_the_answer_witness :
  exists (er : ELKErrorLog) (answer : exn) (body : string),
    server_error_handler Examples.decode Examples.decode Examples.no_traceback
      Examples.refused_fields Examples.no_conversion
      (Examples.post Examples.secret_headers Examples.body_name)
      Examples.failing_chain None "r1" 5 fresh
    = (inl answer,
       {| st_data := None;
          st_trace :=
            st_trace (snd (log_request Examples.decode Examples.refused_fields
                             (Examples.post Examples.secret_headers Examples.body_name)
                             "r1" (Some Examples.elk) fresh))
            ++ [EvBody; EvLog "ERROR" "Error #r1" (ErrorLog er)] |})
    /\ exn_http answer
       = Some {| status := er_status_code er; text := body;
                 content_type := "application/json" |}
    /\ er_status_code er = 200
    /\ Orjson.loads body = Orjson.Ok (er_error_info er) ""
    /\ er_error_info er = Spec.failure_document Examples.not_found
    /\ er_request_uuid er = "r1"
    /\ er_traceback er = "".
Proof.
  exact (error_event_agrees_with_the_answer
           Examples.decode Examples.decode Examples.no_traceback
           Examples.refused_fields Examples.no_conversion
           (Examples.post Examples.secret_headers Examples.body_name)
           Examples.failing_chain None Examples.elk "r1" 5 fresh _ _
           Examples.not_found eq_refl eq_refl eq_refl eq_refl).
Defined.

(** X7: without a logger the boundary takes no step of its own: it does
    not read the body, and leaves the request context as the chain left
    it.  An answer of the chain is returned as it is; a failure of the
    chain is answered with the mapped status and the failure envelope. *)
Theorem boundary_without_logger_adds_nothing :
  forall (json_loads orjson_loads : string -> string + value)
         (format_tb : exn -> string)
         (validation_text : string -> list (string * value) -> string * string)
         (int_validator : value -> option Z)
         (request : request) (handler : Py retval) (logger : option ELKAsync)
         (req_id : string) (execution_time : Z) (st st' : state),
    app_logger request logger = None ->
    (forall r : retval,
        handler st = (inr r, st') ->
        server_error_handler json_loads orjson_loads format_tb validation_text
          int_validator request handler logger req_id execution_time st = (inr r, st'))
    /\ (forall e : exn,
           handler st = (inl e, st') ->
           exists (answer : exn) (body : string),
             server_error_handler json_loads orjson_loads format_tb validation_text
               int_validator request handler logger req_id execution_time st
             = (inl answer, st')
             /\ exn_http answer
                = Some {| status := Spec.mapped_status e; text := body;
                          content_type := "application/json" |}
             /\ Orjson.loads body = Orjson.Ok (Spec.failure_document e) "").
Proof.
  intros json_loads orjson_loads format_tb validation_text int_validator
         request handler logger req_id execution_time st st' Hl. split.
  - intros r Hrun. unfold server_error_handler, try_except. rewrite Hl.
    unfold log_request, log_response, bind, ret. now rewrite Hrun.
  - intros e Hrun.
    apply (BoundaryFacts.boundary_clause json_loads orjson_loads format_tb
             validation_text int_validator request
             handler logger req_id execution_time st st st' e st');
      try rewrite Hl; (reflexivity || exact Hrun).
Qed.

Lemma boundary_without_logger_adds_nothing_witness :
  server_error_handler Examples.decode Examples.decode Examples.no_traceback
    Examples.refused_fields Examples.no_conversion
    {| req_method := "GET"; req_url := "/health_check"; req_headers := [];
       req_cookies := []; req_text := inr ""; req_elk := None |}
    (prepare_data Examples.decode
       {| req_method := "GET"; req_url := "/health_check"; req_headers := [];
          req_cookies := []; req_text := inr ""; req_elk := None |}
       Examples.health_check)
    None "r4" 1 fresh
  = (inr (RetResponse {| status := 200; text := "200"; content_type := "text/plain" |}),
     {| st_data := None; st_trace := [EvHandler None] |}).
Proof.
  exact (proj1 (boundary_without_logger_adds_nothing
                  Examples.decode Examples.decode Examples.no_traceback
                  Examples.refused_fields Examples.no_conversion
                  {| req_method := "GET"; req_url := "/health_check"; req_headers := [];
                     req_cookies := []; req_text := inr ""; req_elk := None |}
                  (prepare_data Examples.decode
                     {| req_method := "GET"; req_url := "/health_check";
                        req_headers := []; req_cookies := []; req_text := inr "";
                        req_elk := None |}
                     Examples.health_check)
                  None "r4" 1 fresh _ eq_refl) _ eq_refl).
Defined.

(** X8: when a logger is there and the text of the body cannot be had
    (awaiting [request.text()] raises [e]), the boundary does not answer:
    logging the request raises [e], the clause that catches it logs the
    error, which reads the body again and raises [e] once more, and this
    time nothing catches it.  The chain is never run. *)
Theorem unreadable_body_escapes_the_boundary :
  forall (json_loads orjson_loads : string -> string + value)
         (format_tb : exn -> string)
         (validation_text : string -> list (string * value) -> string * string)
         (int_validator : value -> option Z)
         (request : request) (handler : Py retval) (logger : option ELKAsync)
         (elk : ELKAsync) (req_id : string) (execution_time : Z)
         (st : state) (e : exn),
    app_logger request logger = Some elk ->
    req_text request = inl e ->
    server_error_handler json_loads orjson_loads format_tb validation_text
      int_validator request handler logger req_id execution_time st
    = (inl e, {| st_data := st_data st; st_trace := st_trace st ++ [EvBody; EvBody] |}).
Proof.
  intros json_loads orjson_loads format_tb validation_text int_validator
         request handler logger elk req_id
         execution_time st e Hl Hb.
  unfold server_error_handler, try_except. rewrite Hl.
  unfold bind at 1.
  rewrite (BoundaryFacts.log_request_unreadable orjson_loads validation_text
             request req_id elk e st Hb).
  cbn [List.find fst snd].
  destruct (isinstance e "HTTPUnauthorized");
    [|destruct (isinstance e "BadRequestError");
      [|destruct (isinstance e "UserWarning");
        [|replace (isinstance e "Exception") with true by reflexivity]]];
    cbv beta zeta iota; cbn [snd]; cbv beta zeta; unfold bind at 1;
    rewrite (BoundaryFacts.log_error_unreadable orjson_loads format_tb validation_text
               request req_id _ _ _ elk e _ Hb);
    cbn [st_data st_trace]; rewrite <- List.app_assoc; reflexivity.
Qed.

Lemma unreadable_body_escapes_the_boundary_witness :
  server_error_handler Examples.decode Examples.decode Examples.no_traceback
    Examples.refused_fields Examples.no_conversion
    {| req_method := "POST"; req_url := "/api/v1/read"; req_headers := [];
       req_cookies := [];
       req_text := inl (simple_exn "UnicodeDecodeError" ["UnicodeError"; "ValueError"]
                          "invalid start byte");
       req_elk := Some Examples.elk |}
    (prepare_data Examples.decode
       (Examples.post Examples.plain_headers Examples.body_name)
       Examples.by_name_or_id)
    None "r5" 1 fresh
  = (inl (simple_exn "UnicodeDecodeError" ["UnicodeError"; "ValueError"]
            "invalid start byte"),
     {| st_data := None; st_trace := [EvBody; EvBody] |}).
Proof.
  exact (unreadable_body_escapes_the_boundary
           Examples.decode Examples.decode Examples.no_traceback
           Examples.refused_fields Examples.no_conversion
           {| req_method := "POST"; req_url := "/api/v1/read"; req_headers := [];
              req_cookies := [];
              req_text := inl (simple_exn "UnicodeDecodeError"
                                 ["UnicodeError"; "ValueError"] "invalid start byte");
              req_elk := Some Examples.elk |}
           _ None Examples.elk "r5" 1 fresh _ eq_refl eq_refl).
Defined.

(** X24: with a logger in place, an answer of the chain whose log
    record pydantic refuses (a return value without a status, such as a
    plain value, or a response whose text is the JSON [null]) does not
    leave the boundary: building the record raises a validation error
    inside the [try], and the client gets status 500 with the envelope of
    that error, although the chain did not fail. *)
Theorem refused_response_record_is_answered_500 :
  forall (json_loads orjson_loads : string -> string + value)
         (format_tb : exn -> string)
         (validation_text : string -> list (string * value) -> string * string)
         (int_validator : value -> option Z)
         (request : request) (handler : Py retval) (logger : option ELKAsync)
         (elk : ELKAsync) (req_id : string) (execution_time : Z)
         (st0 st1 st2 : state) (r : retval),
    app_logger request logger = Some elk ->
    log_request orjson_loads validation_text request req_id (Some elk) st0
    = (inr tt, st1) ->
    handler st1 = (inr r, st2) ->
    refused_body (get_response_body json_loads r) <> None
    \/ as_int int_validator (get_response_status_code r) = None ->
    exists (ve answer : exn) (body : string) (st3 : state),
      server_error_handler json_loads orjson_loads format_tb validation_text
        int_validator request handler logger req_id execution_time st0
      = (inl answer, st3)
      /\ exn_type ve = "ValidationError"
      /\ exn_http answer
         = Some {| status := 500; text := body; content_type := "application/json" |}
      /\ Orjson.loads body = Orjson.Ok (Spec.failure_document ve) "".
Proof.
  intros json_loads orjson_loads format_tb validation_text int_validator
         request handler logger elk req_id execution_time st0 st1 st2 r
         Hl Hlog Hrun Hrefused.
  assert (exists refused,
             new_ELKResponseLog validation_text int_validator req_id
               (req_url request) (req_method request)
               (get_response_body json_loads r) (get_response_status_code r)
               execution_time
             = inl (invalid validation_text "ELKResponseLog" refused))
    as [refused Hnew].
  { unfold new_ELKResponseLog.
    destruct (refused_body (get_response_body json_loads r)) as [v|];
      [eauto|].
    destruct (as_int int_validator (get_response_status_code r)) as [n|];
      [|eauto].
    exfalso. destruct Hrefused as [H|H]; [now apply H|discriminate]. }
  set (ve := invalid validation_text "ELKResponseLog" refused) in *.
  pose proof (PipelineFacts.log_request_loggable orjson_loads validation_text
                _ _ _ _ _ Hlog) as Hok.
  destruct (PipelineFacts.log_error_returns orjson_loads format_tb validation_text
              request req_id
              {| failure_success := false;
                 failure_result := Some {| error_type := exn_type ve;
                                           error_message := exn_str ve |} |}
              (Spec.mapped_status ve) ve (Some elk) st2 Hok) as [st3 Herr].
  rewrite <- Hl in Herr.
  destruct (BoundaryFacts.clause_answers orjson_loads format_tb validation_text
              request logger req_id ve st2 st3 Herr
              (Runtime.bind
                 (log_request orjson_loads validation_text request req_id
                    (app_logger request logger))
                 (fun _ =>
                    Runtime.bind handler
                      (fun response =>
                         Runtime.bind
                           (log_response json_loads validation_text int_validator
                              request req_id response execution_time
                              (app_logger request logger))
                           (fun _ => ret response))))
              st0)
    as (answer & t & Hseh & Hhttp & Hback).
  { rewrite Hl. unfold bind at 1. rewrite Hlog. unfold bind at 1. rewrite Hrun.
    unfold bind at 1. unfold log_response. unfold bind at 1, lift. rewrite Hnew.
    reflexivity. }
  exists ve, answer, t, st3. split; [exact Hseh|]. split; [reflexivity|].
  split; [exact Hhttp|exact Hback].
Qed.

Lemma refused_response_record_is_answered_500_witness :
  exists (ve answer : exn) (body : string) (st3 : state),
    server_error_handler Examples.decode Examples.decode Examples.no_traceback
      Examples.refused_fields Examples.no_conversion
      (Examples.post Examples.plain_headers Examples.body_name)
      (fun st => (inr (RetOther PNone), st)) None "r6" 5 fresh
    = (inl answer, st3)
    /\ exn_type ve = "ValidationError"
    /\ exn_http answer
       = Some {| status := 500; text := body; content_type := "application/json" |}
    /\ Orjson.loads body = Orjson.Ok (Spec.failure_document ve) "".
Proof.
  exact (refused_response_record_is_answered_500
           Examples.decode Examples.decode Examples.no_traceback
           Examples.refused_fields Examples.no_conversion
           (Examples.post Examples.plain_headers Examples.body_name)
           (fun st => (inr (RetOther PNone), st)) None Examples.elk "r6" 5
           fresh _ _ (RetOther PNone) eq_refl eq_refl eq_refl
           (or_intror eq_refl)).
Defined.

(** X25: when a logger is there and pydantic refuses the body of the
    request as the body of a log record (the body is the JSON [null]),
    the boundary does not answer: building the request record raises a
    validation error, the clause for any other exception logs the error,
    which builds a record from the same body and raises again, and this
    time nothing catches it.  The chain is never run, and no event is
    logged. *)
Theorem refused_request_body_escapes_the_boundary :
  forall (json_loads orjson_loads : string -> string + value)
         (format_tb : exn -> string)
         (validation_text : string -> list (string * value) -> string * string)
         (int_validator : value -> option Z)
         (request : request) (handler : Py retval) (logger : option ELKAsync)
         (elk : ELKAsync) (req_id : string) (execution_time : Z)
         (st : state) (body : string) (v : value),
    app_logger request logger = Some elk ->
    req_text request = inr body ->
    refused_body (request_snapshot orjson_loads body) = Some v ->
    server_error_handler json_loads orjson_loads format_tb validation_text
      int_validator request handler logger req_id execution_time st
    = (inl (invalid validation_text "ELKErrorLog" [("body", v)]),
       {| st_data := st_data st; st_trace := st_trace st ++ [EvBody; EvBody] |}).
Proof.
  intros json_loads orjson_loads format_tb validation_text int_validator
         request handler logger elk req_id execution_time st body v Hl Hb Hv.
  unfold server_error_handler, try_except. rewrite Hl.
  unfold bind at 1. unfold log_request at 1. unfold bind at 1.
  rewrite (PipelineFacts.get_request_body_text orjson_loads request body st Hb).
  unfold bind at 1, lift, new_ELKRequestLog. rewrite Hv. unfold raise at 1.
  cbn [List.find fst snd isinstance invalid ValidationError exn_type exn_bases
       String.eqb Ascii.eqb Bool.eqb orb existsb].
  cbv beta zeta iota. cbn [snd]. cbv beta zeta. unfold bind at 1.
  unfold log_error. unfold bind at 1.
  rewrite (PipelineFacts.get_request_body_text orjson_loads request body _ Hb).
  unfold bind at 1, lift, new_ELKErrorLog. rewrite Hv. unfold raise.
  cbn [st_data st_trace refused_as app]. rewrite <- List.app_assoc. reflexivity.
Qed.

Lemma refused_request_body_escapes_the_boundary_witness :
  server_error_handler Examples.decode Examples.decode Examples.no_traceback
    Examples.refused_fields Examples.no_conversion
    (Examples.post Examples.plain_headers Examples.body_null)
    (prepare_data Examples.decode
       (Examples.post Examples.plain_headers Examples.body_null)
       Examples.by_name_or_id)
    None "r7" 1 fresh
  = (inl (ValidationError "ELKErrorLog: body" "[]"),
     {| st_data := None; st_trace := [EvBody; EvBody] |}).
Proof.
  exact (refused_request_body_escapes_the_boundary
           Examples.decode Examples.decode Examples.no_traceback
           Examples.refused_fields Examples.no_conversion
           (Examples.post Examples.plain_headers Examples.body_null)
           (prepare_data Examples.decode
              (Examples.post Examples.plain_headers Examples.body_null)
              Examples.by_name_or_id)
           None Examples.elk "r7" 1 fresh Examples.body_null PNone
           eq_refl eq_refl eq_refl).
Defined.

(** X9: for a handler that declares a [data] annotation, whatever the
    annotation and the body, the pipeline does one of two things.  Either
    the validation fails: the outcome is a [BadRequestError], the body was
    read once, [request["data"]] was assigned some number of times, and
    the handler is not invoked.  Or it passes: the body was read once,
    [request["data"]] was assigned once, the handler is invoked once with
    that object, and the outcome is the handler's (a returned model being
    serialised). *)
Theorem annotated_handler_runs_only_after_validation :
  forall (json_loads : string -> string + value)
         (request : request) (handler : handler) (annotation : annotation)
         (st st' : state) (res : exn + retval),
    h_data_annotation handler = Some annotation ->
    prepare_data json_loads request handler st = (res, st') ->
    (exists (msg : string) (objs : list model),
        res = inl (BadRequestError msg)
        /\ st_trace st' = (st_trace st ++ EvBody :: map EvSetData objs)%list)
    \/ (exists o : model,
           st_trace st' = (st_trace st ++ [EvBody; EvSetData o; EvHandler (Some o)])%list
           /\ st_data st' = Some o
           /\ res = match h_call handler (Some o) with
                    | inl e => inl e
                    | inr r => wrapped r
                    end).
Proof.
  intros json_loads request handler annotation st st' res Ha.
  unfold prepare_data, validation. rewrite Ha. unfold bind at 1.
  destruct (validate json_loads request annotation st) as [r s1] eqn:Hv.
  destruct (PipelineFacts.validate_outcome json_loads request annotation _ _ _ Hv)
    as (objs & Ht & Hd & Ho).
  destruct r as [e|[]].
  - destruct (PipelineFacts.validate_raises_bad_request json_loads request annotation
                _ _ _ Hv) as [msg ->].
    intros H. injection H as <- <-. left. eauto.
  - destruct (Ho eq_refl) as [o ->]. cbn in Ht, Hd. right. exists o.
    revert H. unfold bind, call_handler, lift. rewrite Ht, Hd.
    destruct (h_call handler (Some o)) as [e|r]; [|destruct (wrapped r)];
      unfold raise, ret; intros H; injection H as <- <-; cbn [st_trace st_data];
      rewrite <- List.app_assoc; repeat split.
Qed.

Lemma annotated_handler_runs_only_after_validation_witness :
  exists (msg : string) (objs : list model),
    fst (prepare_data Examples.decode
           (Examples.post Examples.plain_headers Examples.body_both)
           Examples.by_name_or_id fresh)
    = inl (BadRequestError msg)
    /\ st_trace (snd (prepare_data Examples.decode
                        (Examples.post Examples.plain_headers Examples.body_both)
                        Examples.by_name_or_id fresh))
       = EvBody :: map EvSetData objs.
Proof.
  destruct (annotated_handler_runs_only_after_validation Examples.decode
              (Examples.post Examples.plain_headers Examples.body_both)
              Examples.by_name_or_id _ fresh _ _ eq_refl eq_refl)
    as [(msg & objs & Hres & Htrace)|(o & Htrace & _)].
  - exists msg, objs. split; [exact Hres|exact Htrace].
  - exfalso. vm_compute in Htrace. discriminate Htrace.
Defined.

(* ===================================================================== *)
(** ** Further properties of the serialiser *)
(* ===================================================================== *)

Module DumpFacts.
Import Base Orjson Views.

Lemma map_fields_ext (f g : value -> value) (fields : list (string * value)) :
  Forall (fun kv => f (snd kv) = g (snd kv)) fields ->
  map (fun kv => (fst kv, f (snd kv))) fields
  = map (fun kv => (fst kv, g (snd kv))) fields.
Proof.
  induction 1 as [|kv r H _ IH]; [reflexivity|]. simpl. now rewrite H, IH.
Qed.

Lemma map_items_ext {B : Type} (f g : value -> B) (items : list value) :
  Forall (fun x => f x = g x) items -> map f items = map g items.
Proof.
  induction 1 as [|x r H _ IH]; [reflexivity|]. simpl. now rewrite H, IH.
Qed.

(** The text does not depend on the microseconds. *)
Lemma encode_drop_microseconds (v : value) :
  encode dump_options (drop_microseconds v) = encode dump_options v.
Proof.
  induction v as [|b|z|s|s|d|items IH|fields IH] using value_nested_ind;
    try reflexivity.
  - cbn [drop_microseconds encode]. rewrite List.map_map.
    now rewrite (map_items_ext _ (encode dump_options) items IH).
  - cbn [drop_microseconds encode]. rewrite List.map_map. cbn [fst snd].
    f_equal. f_equal. f_equal. apply List.map_ext_Forall.
    eapply List.Forall_impl; [|exact IH]. intros kv H. cbn beta. now rewrite H.
Qed.

(** What is refused depends on the integers and on the nesting only:
    a function that maps the items of a list, or the values of a dict,
    without changing what is refused in them, changes nothing. *)
Lemma refusal_mapped_items (f : value -> value) (items : list value) (budget : nat) :
  Forall (fun x => forall b, refusal b (f x) = refusal b x) items ->
  refusal budget (PList (map f items)) = refusal budget (PList items).
Proof.
  intros H. destruct items as [|x xs]; [reflexivity|].
  destruct budget as [|b]; [reflexivity|].
  change (first_some (map (refusal b) (map f (x :: xs)))
          = first_some (map (refusal b) (x :: xs))).
  rewrite List.map_map. apply OrjsonFacts.first_some_ext.
  eapply List.Forall_impl; [|exact H]. intros y Hy. apply Hy.
Qed.

Lemma refusal_mapped_fields (f : value -> value) (fields : list (string * value))
    (budget : nat) :
  Forall (fun kv => forall b, refusal b (f (snd kv)) = refusal b (snd kv)) fields ->
  refusal budget (PDict (map (fun kv => (fst kv, f (snd kv))) fields))
  = refusal budget (PDict fields).
Proof.
  intros H. destruct budget as [|b]; [reflexivity|].
  cbn [refusal]. rewrite List.map_map. cbn [snd].
  apply (OrjsonFacts.first_some_ext
           (fun kv => refusal b (f (snd kv))) (fun kv => refusal b (snd kv))).
  eapply List.Forall_impl; [|exact H]. intros y Hy. apply Hy.
Qed.

Lemma refusal_drop_microseconds (v : value) :
  forall budget, refusal budget (drop_microseconds v) = refusal budget v.
Proof.
  induction v as [|b|z|s|s|d|items IH|fields IH] using value_nested_ind;
    intros budget; try reflexivity.
  - cbn [drop_microseconds]. now apply refusal_mapped_items.
  - cbn [drop_microseconds]. now apply refusal_mapped_fields.
Qed.

Lemma refusal_stamp_utc (x : value) :
  forall budget, refusal budget (stamp_utc x) = refusal budget x.
Proof. destruct x; reflexivity. Qed.

Lemma refusal_stamp_row (x : value) :
  forall budget, refusal budget (stamp_row x) = refusal budget x.
Proof.
  intros budget. destruct x as [|b|z|s|s|d|items|fields]; try reflexivity.
  cbn [stamp_row]. apply refusal_mapped_fields.
  apply Forall_forall. intros kv _. apply refusal_stamp_utc.
Qed.

Lemma refusal_stamp_entry (x : value) :
  forall budget, refusal budget (stamp_entry x) = refusal budget x.
Proof.
  intros budget. destruct x as [|b|z|s|s|d|items|fields]; try reflexivity.
  cbn [stamp_entry]. apply refusal_mapped_items.
  apply Forall_forall. intros y _. apply refusal_stamp_row.
Qed.

Lemma refusal_stamped (v : value) :
  forall budget, refusal budget (stamped v) = refusal budget v.
Proof.
  intros budget. destruct v as [|b|z|s|s|d|items|fields]; try reflexivity.
  cbn [stamped]. apply refusal_mapped_fields.
  apply Forall_forall. intros kv _. apply refusal_stamp_entry.
Qed.

Lemma stamp_utc_drop (x : value) :
  stamp_utc (drop_microseconds x) = drop_microseconds (stamp_utc x).
Proof. destruct x; reflexivity. Qed.

Lemma stamp_row_drop (x : value) :
  stamp_row (drop_microseconds x) = drop_microseconds (stamp_row x).
Proof.
  destruct x as [|b|z|s|s|d|items|fields]; try reflexivity.
  cbn [drop_microseconds stamp_row]. rewrite !List.map_map. cbn [fst snd]. f_equal.
  apply List.map_ext. intros [k y]. cbn [fst snd]. now rewrite stamp_utc_drop.
Qed.

Lemma stamp_entry_drop (x : value) :
  stamp_entry (drop_microseconds x) = drop_microseconds (stamp_entry x).
Proof.
  destruct x as [|b|z|s|s|d|items|fields]; try reflexivity.
  cbn [drop_microseconds stamp_entry]. rewrite !List.map_map. f_equal.
  apply List.map_ext. intros y. apply stamp_row_drop.
Qed.

Lemma stamped_drop (v : value) :
  stamped (drop_microseconds v) = drop_microseconds (stamped v).
Proof.
  destruct v as [|b|z|s|s|d|items|fields]; try reflexivity.
  cbn [drop_microseconds stamped]. rewrite !List.map_map. cbn [fst snd]. f_equal.
  apply List.map_ext. intros [k y]. cbn [fst snd]. now rewrite stamp_entry_drop.
Qed.

(** [orjson_dumps] in terms of what the dict holds after the loop. *)
Lemma orjson_dumps_stamped (fields : list (string * value)) :
  orjson_dumps (PDict fields) = dumps dump_options (stamped (PDict fields)).
Proof. reflexivity. Qed.

End DumpFacts.

(** X10: the text [orjson_dumps] gives does not depend on the
    microseconds of any datetime in the value, at whatever depth: a value
    and the same value with every datetime cut to the second are written
    alike (and fail alike). *)
Theorem orjson_dumps_ignores_microseconds :
  forall v : value,
    orjson_dumps (Views.drop_microseconds v) = orjson_dumps v.
Proof.
  intros v. destruct v as [|b|z|s|s|d|items|fields]; try reflexivity.
  change (Views.drop_microseconds (PDict fields))
    with (PDict (map (fun kv => (fst kv, Views.drop_microseconds (snd kv))) fields)).
  rewrite !DumpFacts.orjson_dumps_stamped.
  change (PDict (map (fun kv => (fst kv, Views.drop_microseconds (snd kv))) fields))
    with (Views.drop_microseconds (PDict fields)).
  rewrite DumpFacts.stamped_drop. unfold Orjson.dumps.
  now rewrite DumpFacts.refusal_drop_microseconds, DumpFacts.encode_drop_microseconds.
Qed.

(** X11: a datetime that is a top-level value of the dict is written by
    the date and time of day it shows, with the [Z] designator, whatever
    offset it carried: the offset is replaced, not converted.  So two
    datetimes that show the same wall clock are written alike, even when
    they are different instants. *)
Theorem top_level_datetime_is_relabelled_utc :
  forall (pre post : list (string * value)) (k : string) (d d' : datetime),
    Views.same_wall_clock d d' ->
    orjson_dumps (PDict (pre ++ (k, PDatetime d) :: post))
    = orjson_dumps (PDict (pre ++ (k, PDatetime d') :: post)).
Proof.
  intros pre post k d d' (Hy & Hmo & Hd & Hh & Hmi & Hs).
  unfold orjson_dumps, Orjson.dumps.
  rewrite !List.map_app. cbn [map fst snd stamp_entry].
  assert (Orjson.encode dump_options (PDatetime (replace_tzinfo d utc))
          = Orjson.encode dump_options (PDatetime (replace_tzinfo d' utc))) as Henc.
  { cbn [Orjson.encode]. rewrite !BaseFacts.stamped_datetime_rendering.
    now rewrite Hy, Hmo, Hd, Hh, Hmi, Hs. }
  set (before := map (fun kv => (fst kv, stamp_entry (snd kv))) pre).
  set (after := map (fun kv => (fst kv, stamp_entry (snd kv))) post).
  assert (forall budget,
             Orjson.refusal budget
               (PDict (before ++ (k, PDatetime (replace_tzinfo d utc)) :: after))
             = Orjson.refusal budget
                 (PDict (before ++ (k, PDatetime (replace_tzinfo d' utc)) :: after)))
    as Href.
  { intros [|b]; [reflexivity|]. cbn [Orjson.refusal].
    rewrite !List.map_app. reflexivity. }
  rewrite Href.
  destruct (Orjson.refusal _ _); [reflexivity|].
  cbn [Orjson.encode]. rewrite !List.map_app.
  cbn [map fst snd]. now rewrite Henc.
Qed.

Lemma top_level_datetime_is_relabelled_utc_witness :
  orjson_dumps (PDict [("at", PDatetime (mk_datetime 2021 3 4 5 6 7 0 (Some 180)))])
  = orjson_dumps (PDict [("at", PDatetime (mk_datetime 2021 3 4 5 6 7 0 None))]).
Proof.
  exact (top_level_datetime_is_relabelled_utc [] [] "at"
           (mk_datetime 2021 3 4 5 6 7 0 (Some 180))
           (mk_datetime 2021 3 4 5 6 7 0 None)
           (conj eq_refl (conj eq_refl (conj eq_refl
              (conj eq_refl (conj eq_refl eq_refl)))))).
Defined.

Module DocumentFacts.
Import Base Orjson Views.

Lemma escape_app (a b : string) : escape (a ++ b) = escape a ++ escape b.
Proof.
  induction a as [|x a IH]; [reflexivity|].
  cbn [String.append escape]. now rewrite IH, OrjsonFacts.string_app_assoc.
Qed.

(** A decimal digit is written as it is. *)
Lemma digit_plain (n : Z) : escape_char (digit n) = String (digit n) "".
Proof.
  unfold digit.
  assert (0 <= n mod 10 < 10) as Hk by (apply Z.mod_pos_bound; lia).
  assert (n mod 10 = 0 \/ n mod 10 = 1 \/ n mod 10 = 2 \/ n mod 10 = 3
          \/ n mod 10 = 4 \/ n mod 10 = 5 \/ n mod 10 = 6 \/ n mod 10 = 7
          \/ n mod 10 = 8 \/ n mod 10 = 9) as H by lia.
  repeat (destruct H as [H|H]; [rewrite H; reflexivity|]).
  rewrite H. reflexivity.
Qed.

Lemma escape_cons_digit (n : Z) (s : string) :
  escape (String (digit n) s) = String (digit n) (escape s).
Proof. cbn [escape]. now rewrite digit_plain. Qed.

Lemma pad2_plain (n : Z) : escape (pad2 n) = pad2 n.
Proof. unfold pad2. now rewrite !escape_cons_digit. Qed.

Lemma pad4_plain (n : Z) : escape (pad4 n) = pad4 n.
Proof. unfold pad4. now rewrite !escape_cons_digit, pad2_plain. Qed.

Lemma pad6_plain (n : Z) : escape (pad6 n) = pad6 n.
Proof. unfold pad6. now rewrite !escape_cons_digit, pad4_plain. Qed.

Lemma render_fraction_plain opt us :
  escape (render_fraction opt us) = render_fraction opt us.
Proof.
  unfold render_fraction.
  destruct (has_option opt OPT_OMIT_MICROSECONDS || (us =? 0)); [reflexivity|].
  change (escape (String "." (pad6 us))) with (String "."%char (escape (pad6 us))).
  now rewrite pad6_plain.
Qed.

Lemma render_offset_plain opt tz :
  escape (render_offset opt tz) = render_offset opt tz.
Proof.
  unfold render_offset.
  destruct (match tz with
            | Some m => Some m
            | None => if has_option opt OPT_NAIVE_UTC then Some 0 else None
            end) as [m|]; [|reflexivity].
  destruct ((m =? 0) && has_option opt OPT_UTC_Z); [reflexivity|].
  destruct (m <? 0);
    match goal with
    | |- escape (String ?c ?s) = _ =>
        change (escape (String c s)) with (String c (escape s))
    end;
    rewrite escape_app, pad2_plain;
    match goal with
    | |- context [escape (String ":" ?s)] =>
        change (escape (String ":" s)) with (String ":"%char (escape s))
    end;
    now rewrite pad2_plain.
Qed.

(** The text of a datetime needs no escaping. *)
Lemma render_datetime_plain opt (d : datetime) :
  escape (render_datetime opt d) = render_datetime opt d.
Proof.
  unfold render_datetime.
  rewrite !escape_app, !pad2_plain, pad4_plain, render_fraction_plain,
    render_offset_plain.
  reflexivity.
Qed.

(** A value and its JSON document have the same text. *)
Lemma encode_document opt (v : value) : encode opt (document opt v) = encode opt v.
Proof.
  induction v as [|b|z|s|s|d|items IH|fields IH] using value_nested_ind;
    try reflexivity.
  - cbn [document encode]. unfold quote. now rewrite render_datetime_plain.
  - cbn [document encode]. rewrite List.map_map. f_equal. f_equal. f_equal.
    now apply List.map_ext_Forall.
  - cbn [document encode]. rewrite List.map_map. cbn [fst snd].
    f_equal. f_equal. f_equal. apply List.map_ext_Forall.
    eapply List.Forall_impl; [|exact IH]. intros kv H. cbn beta. now rewrite H.
Qed.

(** Turning the leaves of a value into others that are no integers, or
    into themselves, changes neither its integers nor its depth. *)
Lemma fold_max_mapped {A : Type} (m : A -> nat) (f : A -> A) (l : list A) :
  Forall (fun x => m (f x) = m x) l ->
  fold_right (fun x acc => Nat.max (m x) acc) O (map f l)
  = fold_right (fun x acc => Nat.max (m x) acc) O l.
Proof.
  induction 1 as [|x r H _ IH]; [reflexivity|].
  cbn [map fold_right]. now rewrite H, IH.
Qed.

Lemma forallb_mapped {A : Type} (p : A -> bool) (f : A -> A) (l : list A) :
  Forall (fun x => p (f x) = p x) l -> forallb p (map f l) = forallb p l.
Proof.
  induction 1 as [|x r H _ IH]; [reflexivity|].
  cbn [map forallb]. now rewrite H, IH.
Qed.

Lemma ints_document opt (v : value) :
  ints_in_range (document opt v) = ints_in_range v.
Proof.
  induction v as [|b|z|s|s|d|items IH|fields IH] using value_nested_ind;
    try reflexivity.
  - cbn [document ints_in_range]. now apply forallb_mapped.
  - cbn [document ints_in_range].
    apply (forallb_mapped (fun kv => ints_in_range (snd kv))
             (fun kv => (fst kv, document opt (snd kv)))).
    exact IH.
Qed.

Lemma depth_document opt (v : value) : depth (document opt v) = depth v.
Proof.
  induction v as [|b|z|s|s|d|items IH|fields IH] using value_nested_ind;
    try reflexivity.
  - cbn [document depth]. f_equal. now apply fold_max_mapped.
  - cbn [document depth]. f_equal.
    apply (fold_max_mapped (fun kv => depth (snd kv))
             (fun kv => (fst kv, document opt (snd kv)))).
    exact IH.
Qed.

Lemma keys_of_mapped_fields (f : value -> value) (fields : list (string * value)) :
  map fst (map (fun kv => (fst kv, f (snd kv))) fields) = map fst fields.
Proof. rewrite List.map_map. now apply List.map_ext. Qed.

Lemma native_document opt (v : value) :
  json_native (document opt v) = proper_dicts v.
Proof.
  induction v as [|b|z|s|s|d|items IH|fields IH] using value_nested_ind;
    try reflexivity.
  - cbn [document json_native proper_dicts].
    induction IH as [|x r H _ IHr]; [reflexivity|].
    cbn [map forallb]. now rewrite H, IHr.
  - cbn [document json_native proper_dicts]. rewrite keys_of_mapped_fields. f_equal.
    induction IH as [|kv r H _ IHr]; [reflexivity|].
    cbn [map forallb fst snd]. now rewrite H, IHr.
Qed.

(** Stamping changes neither the keys nor what can be written. *)
Lemma stamp_utc_proper (x : value) : proper_dicts (stamp_utc x) = proper_dicts x.
Proof. destruct x; reflexivity. Qed.

Lemma stamp_utc_ints (x : value) : ints_in_range (stamp_utc x) = ints_in_range x.
Proof. destruct x; reflexivity. Qed.

Lemma stamp_utc_depth (x : value) : depth (stamp_utc x) = depth x.
Proof. destruct x; reflexivity. Qed.

Lemma forallb_mapped_fields (p : value -> bool) (f : value -> value)
    (fields : list (string * value)) :
  (forall x, p (f x) = p x) ->
  forallb (fun kv => p (snd kv)) (map (fun kv => (fst kv, f (snd kv))) fields)
  = forallb (fun kv => p (snd kv)) fields.
Proof.
  intros H. induction fields as [|kv r IH]; [reflexivity|].
  cbn [map forallb fst snd]. now rewrite H, IH.
Qed.

Lemma forallb_mapped_items (p : value -> bool) (f : value -> value)
    (items : list value) :
  (forall x, p (f x) = p x) -> forallb p (map f items) = forallb p items.
Proof.
  intros H. induction items as [|x r IH]; [reflexivity|].
  cbn [map forallb]. now rewrite H, IH.
Qed.

Lemma stamp_row_proper (x : value) : proper_dicts (stamp_row x) = proper_dicts x.
Proof.
  destruct x as [|b|z|s|s|d|items|fields]; try reflexivity.
  cbn [stamp_row proper_dicts]. rewrite keys_of_mapped_fields.
  now rewrite (forallb_mapped_fields proper_dicts stamp_utc fields stamp_utc_proper).
Qed.

Lemma stamp_row_ints (x : value) : ints_in_range (stamp_row x) = ints_in_range x.
Proof.
  destruct x as [|b|z|s|s|d|items|fields]; try reflexivity.
  cbn [stamp_row ints_in_range].
  now rewrite (forallb_mapped_fields ints_in_range stamp_utc fields stamp_utc_ints).
Qed.

Lemma stamp_row_depth (x : value) : depth (stamp_row x) = depth x.
Proof.
  destruct x as [|b|z|s|s|d|items|fields]; try reflexivity.
  cbn [stamp_row depth]. f_equal.
  apply (fold_max_mapped (fun kv => depth (snd kv))
           (fun kv => (fst kv, stamp_utc (snd kv)))).
  apply Forall_forall. intros kv _. apply stamp_utc_depth.
Qed.

Lemma stamp_entry_proper (x : value) : proper_dicts (stamp_entry x) = proper_dicts x.
Proof.
  destruct x as [|b|z|s|s|d|items|fields]; try reflexivity.
  cbn [stamp_entry proper_dicts].
  now rewrite (forallb_mapped_items proper_dicts stamp_row items stamp_row_proper).
Qed.

Lemma stamp_entry_ints (x : value) : ints_in_range (stamp_entry x) = ints_in_range x.
Proof.
  destruct x as [|b|z|s|s|d|items|fields]; try reflexivity.
  cbn [stamp_entry ints_in_range].
  now rewrite (forallb_mapped_items ints_in_range stamp_row items stamp_row_ints).
Qed.

Lemma stamp_entry_depth (x : value) : depth (stamp_entry x) = depth x.
Proof.
  destruct x as [|b|z|s|s|d|items|fields]; try reflexivity.
  cbn [stamp_entry depth]. f_equal. apply fold_max_mapped.
  apply Forall_forall. intros y _. apply stamp_row_depth.
Qed.

Lemma stamped_proper (v : value) : proper_dicts (stamped v) = proper_dicts v.
Proof.
  destruct v as [|b|z|s|s|d|items|fields]; try reflexivity.
  cbn [stamped proper_dicts]. rewrite keys_of_mapped_fields.
  now rewrite (forallb_mapped_fields proper_dicts stamp_entry fields stamp_entry_proper).
Qed.

Lemma stamped_ints (v : value) : ints_in_range (stamped v) = ints_in_range v.
Proof.
  destruct v as [|b|z|s|s|d|items|fields]; try reflexivity.
  cbn [stamped ints_in_range].
  now rewrite (forallb_mapped_fields ints_in_range stamp_entry fields stamp_entry_ints).
Qed.

Lemma stamped_depth (v : value) : depth (stamped v) = depth v.
Proof.
  destruct v as [|b|z|s|s|d|items|fields]; try reflexivity.
  cbn [stamped depth]. f_equal.
  apply (fold_max_mapped (fun kv => depth (snd kv))
           (fun kv => (fst kv, stamp_entry (snd kv)))).
  apply Forall_forall. intros kv _. apply stamp_entry_depth.
Qed.

End DocumentFacts.

(** X12: [orjson_dumps] of a dict whose nested dicts have distinct keys
    (as dicts have), whose integers fit in 64 bits and whose lists and
    dicts are nested no more than 254 deep, the dict itself included,
    gives a text, and the text is well-formed JSON: [orjson.loads] reads
    it back as the dict the loop has stamped, with every UUID and
    datetime turned into its string. *)
Theorem orjson_dumps_writes_wellformed_json :
  forall fields : list (string * value),
    Views.proper_dicts (PDict fields) = true ->
    Orjson.ints_in_range (PDict fields) = true ->
    (Orjson.depth (PDict fields) <= 254)%nat ->
    exists t : string,
      orjson_dumps (PDict fields) = inr t
      /\ Orjson.loads t
         = Orjson.Ok (Views.document dump_options (Views.stamped (PDict fields))) "".
Proof.
  intros fields Hp Hi Hd. rewrite DumpFacts.orjson_dumps_stamped.
  rewrite OrjsonFacts.dumps_encodable.
  2:{ apply OrjsonFacts.shallow_encodable.
      - now rewrite DocumentFacts.stamped_ints.
      - now rewrite DocumentFacts.stamped_depth. }
  eexists. split; [reflexivity|].
  rewrite <- DocumentFacts.encode_document.
  apply OrjsonFacts.loads_encode.
  - now rewrite DocumentFacts.native_document, DocumentFacts.stamped_proper.
  - now rewrite DocumentFacts.ints_document, DocumentFacts.stamped_ints.
  - rewrite DocumentFacts.depth_document, DocumentFacts.stamped_depth.
    unfold Orjson.READ_DEPTH. lia.
Qed.

Lemma orjson_dumps_writes_wellformed_json_witness :
  exists t : string,
    json (ProjectClasses.ResponseProjectSeveral [Examples.alpha]) = inr t
    /\ Orjson.loads t
       = Orjson.Ok
           (PDict [("success", PBool true);
                   ("result",
                    PList [PDict [("id", PStr "0b0e7b1c-5d0a-4c0e-9f7e-3c1d2a4b5c6d");
                                  ("name", PStr "Alpha");
                                  ("created", PStr "2021-03-04T05:06:07Z");
                                  ("updated", PNone)]])]) "".
Proof.
  exact (orjson_dumps_writes_wellformed_json
           [("success", PBool true);
            ("result", PList (map ProjectClasses.Project_dict [Examples.alpha]))]
           eq_refl eq_refl ltac:(cbn; lia)).
Defined.

(* ===================================================================== *)
(** ** The rows of a full join *)
(* ===================================================================== *)

Module ConnectorFacts.
Import Connector.

Local Open Scope list_scope.

Lemma place_snoc (done : list dict) (cur : dict) (k : string) (v : value) :
  place (done ++ [cur]) (k, v)
  = if has_key k cur then (done ++ [cur; [(k, v)]])%list
    else (done ++ [Orjson.dict_set k v cur])%list.
Proof.
  unfold place, set_in_last, last_dict. cbn [fst snd].
  rewrite List.last_last. destruct (has_key k cur).
  - replace ((done ++ [cur]) ++ [[]])%list with ((done ++ [cur]) ++ [[]: dict])%list
      by reflexivity.
    rewrite List.last_last, List.removelast_last. cbn [Orjson.dict_set].
    rewrite <- List.app_assoc. reflexivity.
  - rewrite List.removelast_last.
    change (@nil (string * value)) with (@nil (string * value) : dict).
    now rewrite (List.last_last done cur []).
Qed.

Lemma dict_set_fresh (k : string) (v : value) (cur : dict) :
  has_key k cur = false -> Orjson.dict_set k v cur = (cur ++ [(k, v)])%list.
Proof. apply OrjsonFacts.dict_set_absent. Qed.

(** The loop from a temp list [done ++ [cur]] on. *)
Lemma split_concat (items : row) (done : list dict) (cur : dict) :
  List.concat (fold_left place items (done ++ [cur]))
  = (List.concat done ++ cur ++ items)%list.
Proof.
  revert done cur. induction items as [|[k v] items IH]; intros done cur.
  - cbn [fold_left]. rewrite List.concat_app. cbn [List.concat].
    now rewrite !List.app_nil_r.
  - cbn [fold_left]. rewrite place_snoc. destruct (has_key k cur) eqn:Hk.
    + replace (done ++ [cur; [(k, v)]])%list with ((done ++ [cur]) ++ [[(k, v)]])%list
        by (rewrite <- List.app_assoc; reflexivity).
      rewrite IH, List.concat_app. cbn [List.concat app].
      now rewrite List.app_nil_r, <- !List.app_assoc.
    + rewrite dict_set_fresh by assumption. rewrite IH.
      now rewrite <- !List.app_assoc.
Qed.

Lemma split_nonempty_dicts (items : row) (done : list dict) (cur : dict) :
  Forall (fun d => d <> []) done -> (cur <> [] \/ items <> []) ->
  Forall (fun d : dict => d <> []) (fold_left place items (done ++ [cur])).
Proof.
  revert done cur. induction items as [|[k v] items IH]; intros done cur Hd Hc.
  - cbn [fold_left]. apply List.Forall_app. split; [assumption|].
    constructor; [|constructor]. destruct Hc as [Hc|Hc]; [assumption|congruence].
  - cbn [fold_left]. rewrite place_snoc. destruct (has_key k cur) eqn:Hk.
    + replace (done ++ [cur; [(k, v)]])%list with ((done ++ [cur]) ++ [[(k, v)]])%list
        by (rewrite <- List.app_assoc; reflexivity).
      apply IH; [|left; discriminate].
      apply List.Forall_app. split; [assumption|].
      constructor; [|constructor]. intros ->. discriminate Hk.
    + rewrite dict_set_fresh by assumption.
      apply IH; [assumption|]. left. now destruct cur.
Qed.

Lemma linked_snoc (done : list dict) (cur next : dict) (k : string) (v : value)
    (more : dict) :
  linked (done ++ [cur]) -> next = (k, v) :: more -> has_key k cur = true ->
  linked ((done ++ [cur]) ++ [next]).
Proof.
  intros Hl -> Hk. induction done as [|d done IH].
  - cbn. auto.
  - destruct done as [|d' done].
    + cbn in Hl |- *. destruct Hl as [H1 _]. auto.
    + cbn [app linked] in Hl |- *. destruct Hl as [H1 H2]. split; [exact H1|].
      apply IH. exact H2.
Qed.

Lemma linked_grow (done : list dict) (cur : dict) (kv : string * value) :
  cur <> [] -> linked (done ++ [cur]) -> linked (done ++ [(cur ++ [kv])%list]).
Proof.
  intros Hc. induction done as [|d done IH]; [cbn; auto|].
  destruct done as [|d' done].
  - cbn. intros [H _]. split; [|exact I]. destruct cur as [|[k v] cur]; [congruence|].
    exact H.
  - cbn [app linked]. intros [H1 H2]. split; [exact H1|]. apply IH. exact H2.
Qed.

Lemma linked_grow_first (cur : dict) (kv : string * value) :
  linked [(cur ++ [kv])%list].
Proof. exact I. Qed.

Lemma split_linked (items : row) (done : list dict) (cur : dict) :
  linked (done ++ [cur]) -> (done = [] \/ cur <> []) ->
  linked (fold_left place items (done ++ [cur])).
Proof.
  revert done cur. induction items as [|[k v] items IH]; intros done cur Hl Hc.
  - exact Hl.
  - cbn [fold_left]. rewrite place_snoc. destruct (has_key k cur) eqn:Hk.
    + replace (done ++ [cur; [(k, v)]])%list with ((done ++ [cur]) ++ [[(k, v)]])%list
        by (rewrite <- List.app_assoc; reflexivity).
      apply IH; [|right; discriminate].
      now apply (linked_snoc done cur [(k, v)] k v []).
    + rewrite dict_set_fresh by assumption. apply IH.
      * destruct Hc as [->|Hc]; [exact I|]. now apply linked_grow.
      * destruct Hc as [->|Hc]; [now left|]. right. now destruct cur.
Qed.

Lemma split_single (items : row) (done : list dict) (cur : dict) :
  Orjson.unique_keys (map fst (cur ++ items)) = true ->
  fold_left place items (done ++ [cur]) = (done ++ [(cur ++ items)%list])%list.
Proof.
  revert cur. induction items as [|[k v] items IH]; intros cur Hu.
  - cbn [fold_left]. now rewrite List.app_nil_r.
  - cbn [fold_left]. rewrite place_snoc.
    assert (has_key k cur = false) as Hk.
    { clear IH. induction cur as [|[k' v'] cur IHc]; [reflexivity|].
      cbn [app map fst Orjson.unique_keys] in Hu. apply andb_prop in Hu as [Hk' Hu].
      unfold has_key. cbn [map fst existsb]. unfold has_key in IHc.
      rewrite (IHc Hu), orb_false_r.
      apply negb_true_iff in Hk'. rewrite List.map_app, List.existsb_app in Hk'.
      apply orb_false_elim in Hk' as [_ Hk']. cbn [map fst existsb] in Hk'.
      apply orb_false_elim in Hk' as [Hk' _]. now rewrite String.eqb_sym. }
    rewrite Hk, dict_set_fresh by assumption.
    rewrite IH; rewrite <- List.app_assoc; [reflexivity|exact Hu].
Qed.

Lemma split_has_last (items : row) (done : list dict) (cur : dict) :
  exists done' cur', fold_left place items (done ++ [cur]) = done' ++ [cur'].
Proof.
  revert done cur. induction items as [|[k v] items IH]; intros done cur.
  - now exists done, cur.
  - cbn [fold_left]. rewrite place_snoc. destruct (has_key k cur).
    + replace (done ++ [cur; [(k, v)]])%list with ((done ++ [cur]) ++ [[(k, v)]])%list
        by (rewrite <- List.app_assoc; reflexivity).
      apply IH.
    + apply IH.
Qed.

End ConnectorFacts.

(** X13: splitting the row of a full join loses nothing and keeps the
    order: the dicts of the split, one after the other, list the columns
    of the row exactly as the row had them. *)
Theorem split_row_keeps_every_column :
  forall result : Connector.row,
    List.concat (Connector.split_row result) = result.
Proof.
  intros result. unfold Connector.split_row.
  exact (ConnectorFacts.split_concat result [] []).
Qed.

(** X15: the split is never the empty list: a row without columns gives
    one empty dict, and a row with columns gives dicts none of which is
    empty. *)
Theorem split_row_is_never_empty :
  forall result : Connector.row,
    Connector.split_row result <> []
    /\ ((result = [] /\ Connector.split_row result = [[]])
        \/ (result <> []
            /\ Forall (fun d : Connector.dict => d <> []) (Connector.split_row result))).
Proof.
  intros result. split.
  - unfold Connector.split_row.
    destruct (ConnectorFacts.split_has_last result [] []) as (done' & cur' & H).
    intros E. assert (done' ++ [cur'] = [])%list as Hnil by (rewrite <- H; exact E).
    now destruct done'.
  - destruct result as [|kv rest].
    + left. split; reflexivity.
    + right. split; [discriminate|]. unfold Connector.split_row.
      apply (ConnectorFacts.split_nonempty_dicts (kv :: rest) [] []);
        [constructor|now right].
Qed.

(** X16: a new dict is started only when it must be: the first column
    of every dict but the first bears a name that the dict before it
    already holds. *)
Theorem split_row_starts_a_dict_only_on_a_repeated_name :
  forall result : Connector.row,
    Connector.linked (Connector.split_row result).
Proof.
  intros result. unfold Connector.split_row.
  apply (ConnectorFacts.split_linked result [] []); [exact I|now left].
Qed.

(** X17: a row whose column names are all distinct is not split: the one
    dict of the result is the row itself. *)
Theorem split_row_of_distinct_columns :
  forall result : Connector.row,
    Orjson.unique_keys (map fst result) = true ->
    Connector.split_row result = [result].
Proof.
  intros result Hu. unfold Connector.split_row.
  exact (ConnectorFacts.split_single result [] [] Hu).
Qed.

Lemma split_row_of_distinct_columns_witness :
  Connector.split_row [("id", PInt 1); ("name", PStr "Alpha")]
  = [[("id", PInt 1); ("name", PStr "Alpha")]].
Proof.
  exact (split_row_of_distinct_columns [("id", PInt 1); ("name", PStr "Alpha")] eq_refl).
Defined.

Example split_row_of_a_join :
  Connector.split_row
    [("id", PInt 1); ("name", PStr "Alpha"); ("id", PInt 7); ("owner", PStr "Bo");
     ("id", PInt 9)]
  = [[("id", PInt 1); ("name", PStr "Alpha")];
     [("id", PInt 7); ("owner", PStr "Bo")];
     [("id", PInt 9)]].
Proof. reflexivity. Qed.

(* ===================================================================== *)
(** * The handlers of service/routing/v1/project.py *)
(* ===================================================================== *)

Module HandlerFacts.
Import Base ProjectClasses Handlers.

Lemma where_bound_at_offset column op tz b conditions :
  where_bound column op (bound_at_offset tz b) conditions
  = where_bound column op b conditions.
Proof. destruct b; reflexivity. Qed.

Lemma conditions_of_null params :
  created_gt params = Null \/ created_lt params = Null
  \/ updated_gt params = Null \/ updated_lt params = Null ->
  exists e, conditions_of params = inl e
            /\ e = AttributeError "'NoneType' object has no attribute 'replace'".
Proof.
  destruct params as [a b c d]; cbn [created_gt created_lt updated_gt updated_lt].
  unfold conditions_of; cbn [created_gt created_lt updated_gt updated_lt].
  intros H.
  destruct a; cbn [where_bound and_then]; eauto;
    destruct b; cbn [where_bound and_then]; eauto;
    destruct c; cbn [where_bound and_then]; eauto;
    destruct d; cbn [where_bound and_then]; eauto;
    exfalso; repeat destruct H as [H | H]; discriminate.
Qed.

End HandlerFacts.

(** X18: a listing request that gives one of its four bounds as null
    fails inside the handler, on the call of [replace] on [None], before
    any statement is sent to the storage; the error boundary maps this
    error to status 500. *)
Theorem lst_with_a_null_bound_fails_before_the_storage
    (fetch : Handlers.query -> Py.exn + list (list (string * Py.value)))
    (as_uuid as_str : Py.value -> option string)
    (as_datetime : Py.value -> option Py.datetime)
    (report : list Handlers.loc -> string * string)
    (params : Handlers.ProjectList) :
  Handlers.created_gt params = Handlers.Null
  \/ Handlers.created_lt params = Handlers.Null
  \/ Handlers.updated_gt params = Handlers.Null
  \/ Handlers.updated_lt params = Handlers.Null ->
  exists e,
    Handlers.lst fetch as_uuid as_str as_datetime report params = ([], inl e)
    /\ Py.exn_type e = "AttributeError"
    /\ Spec.mapped_status e = 500%Z.
Proof.
  intros H.
  destruct (HandlerFacts.conditions_of_null params H) as (e & Hc & He).
  exists e. unfold Handlers.lst. rewrite Hc. subst e.
  repeat split.
Qed.

Lemma lst_with_a_null_bound_fails_before_the_storage_witness :
  exists e,
    Handlers.lst (fun _ => inr []) (fun _ => None) (fun _ => None) (fun _ => None)
      (fun _ => ("", ""))
      (Handlers.mk_ProjectList Handlers.Unset Handlers.Null
                               Handlers.Unset Handlers.Unset)
    = ([], inl e)
    /\ Py.exn_type e = "AttributeError"
    /\ Spec.mapped_status e = 500%Z.
Proof.
  apply (lst_with_a_null_bound_fails_before_the_storage
           (fun _ => inr []) (fun _ => None) (fun _ => None) (fun _ => None)
           (fun _ => ("", ""))
           (Handlers.mk_ProjectList Handlers.Unset Handlers.Null
                                    Handlers.Unset Handlers.Unset)).
  right; left; reflexivity.
Defined.

(** X19: the listing handler compares with the date and time of day of a
    bound as written and ignores its offset: giving the bounds of a
    request other offsets, or none, changes neither the statement sent
    nor the answer. *)
Theorem lst_ignores_the_offsets_of_the_bounds
    (fetch : Handlers.query -> Py.exn + list (list (string * Py.value)))
    (as_uuid as_str : Py.value -> option string)
    (as_datetime : Py.value -> option Py.datetime)
    (report : list Handlers.loc -> string * string)
    (params : Handlers.ProjectList) (tz1 tz2 tz3 tz4 : option Z) :
  Handlers.lst fetch as_uuid as_str as_datetime report
    (Handlers.mk_ProjectList
       (Handlers.bound_at_offset tz1 (Handlers.created_gt params))
       (Handlers.bound_at_offset tz2 (Handlers.created_lt params))
       (Handlers.bound_at_offset tz3 (Handlers.updated_gt params))
       (Handlers.bound_at_offset tz4 (Handlers.updated_lt params)))
  = Handlers.lst fetch as_uuid as_str as_datetime report params.
Proof.
  unfold Handlers.lst, Handlers.conditions_of.
  cbn [Handlers.created_gt Handlers.created_lt
       Handlers.updated_gt Handlers.updated_lt].
  destruct params as [a b c d];
    cbn [Handlers.created_gt Handlers.created_lt
         Handlers.updated_gt Handlers.updated_lt].
  destruct a, b, c, d; reflexivity.
Qed.

(** X20: when the storage returns no row, so that [fetchrow] gives the
    empty dict, [update] and [create] do not answer with an empty result:
    building the response fails with a ValidationError that names the
    three required fields of a project, which the error boundary maps to
    status 500. *)
Theorem update_and_create_fail_when_no_row_comes_back
    (fetchrow : Handlers.query -> Py.exn + list (string * Py.value))
    (as_uuid as_str : Py.value -> option string)
    (as_datetime : Py.value -> option Py.datetime)
    (report : list Handlers.loc -> string * string)
    (changed : Handlers.ProjectUpdate) (new : Handlers.ProjectCreate) :
  (forall q, fetchrow q = inr []) ->
  let e := Handlers.validation_error report
             [(None, "id"); (None, "name"); (None, "created")] in
  Handlers.update fetchrow as_uuid as_str as_datetime report changed
  = ([Handlers.Update (Handlers.update_id changed)
        [("name", Py.PStr (Handlers.update_name changed))]], inl e)
  /\ Handlers.create fetchrow as_uuid as_str as_datetime report new
     = ([Handlers.Insert [("name", Py.PStr (Handlers.create_name new))]], inl e)
  /\ Py.exn_type e = "ValidationError"
  /\ Spec.mapped_status e = 500%Z.
Proof.
  intros H e.
  unfold Handlers.update, Handlers.create.
  rewrite !H.
  repeat split.
Qed.

Lemma update_and_create_fail_when_no_row_comes_back_witness :
  let e := Handlers.validation_error (fun _ => ("3 validation errors", "[]"))
             [(None, "id"); (None, "name"); (None, "created")] in
  Handlers.update (fun _ => inr []) (fun _ => None) (fun _ => None) (fun _ => None)
    (fun _ => ("3 validation errors", "[]"))
    (Handlers.mk_ProjectUpdate "0b7e6c1a-0000-4000-8000-000000000001" "renamed")
  = ([Handlers.Update "0b7e6c1a-0000-4000-8000-000000000001"
        [("name", Py.PStr "renamed")]], inl e)
  /\ Handlers.create (fun _ => inr []) (fun _ => None) (fun _ => None) (fun _ => None)
       (fun _ => ("3 validation errors", "[]"))
       (Handlers.mk_ProjectCreate "fresh")
     = ([Handlers.Insert [("name", Py.PStr "fresh")]], inl e)
  /\ Py.exn_type e = "ValidationError"
  /\ Spec.mapped_status e = 500%Z.
Proof.
  apply (update_and_create_fail_when_no_row_comes_back
           (fun _ => inr [])
           (fun _ => None) (fun _ => None) (fun _ => None)
           (fun _ => ("3 validation errors", "[]"))
           (Handlers.mk_ProjectUpdate "0b7e6c1a-0000-4000-8000-000000000001" "renamed")
           (Handlers.mk_ProjectCreate "fresh")).
  intros q; reflexivity.
Defined.

(* ===================================================================== *)
(** * The pool of service/database/connector.py *)
(* ===================================================================== *)

Module StorageFacts.
Import Runtime Storage.
Local Open Scope list_scope.

Lemma log_info_open_pools s msg extra w :
  open_pools (log_info s msg extra w) = open_pools w.
Proof.
  unfold log_info. destruct (logger s) as [elk|]; [destruct (elk_logger elk)|];
    reflexivity.
Qed.

Lemma log_info_attempts s msg extra w :
  attempts (log_info s msg extra w) = attempts w.
Proof.
  unfold log_info. destruct (logger s) as [elk|]; [destruct (elk_logger elk)|];
    reflexivity.
Qed.

Lemma remove_pool_single p : remove_pool p [p] = [].
Proof. cbn. now rewrite Nat.eqb_refl. Qed.

Lemma close_keeps_balance s w :
  open_pools w = held s ->
  open_pools (snd (connection_close s w)) = held (snd (fst (connection_close s w))).
Proof.
  unfold connection_close, held. intros H.
  destruct (connection s) as [p|] eqn:E; cbn [fst snd].
  - rewrite log_info_open_pools. cbn [open_pools connection with_connection].
    rewrite H. apply remove_pool_single.
  - now rewrite E.
Qed.

Lemma open_keeps_balance refused s w :
  open_pools w = held s ->
  open_pools (snd (connection_open refused s w))
  = held (snd (fst (connection_open refused s w))).
Proof.
  intros H. unfold connection_open.
  destruct (connection s) as [p|] eqn:E.
  - pose proof (close_keeps_balance s w H) as Hc.
    destruct (connection_close s w) as [[[e|[]] s'] w']; exact Hc.
  - destruct (refused (attempts w)) as [e|]; cbn [fst snd].
    + cbn [open_pools]. rewrite H. unfold held. now rewrite E.
    + rewrite log_info_open_pools. cbn [open_pools].
      rewrite H. unfold held. rewrite E. reflexivity.
Qed.

Lemma step_keeps_balance refused sw c :
  open_pools (snd sw) = held (fst sw) ->
  open_pools (snd (step refused sw c)) = held (fst (step refused sw c)).
Proof.
  intros H. destruct c; unfold step.
  - pose proof (open_keeps_balance refused _ _ H) as Ho.
    destruct (connection_open refused (fst sw) (snd sw)) as [[r s'] w']; exact Ho.
  - pose proof (close_keeps_balance _ _ H) as Hc.
    destruct (connection_close (fst sw) (snd sw)) as [[r s'] w']; exact Hc.
Qed.

End StorageFacts.

(** X21: the storage never loses track of a pool.  Starting from a
    storage that holds every open pool, after any sequence of
    [connection_open] and [connection_close] calls, whichever of them
    raised and whichever pool creations the server refused, the open
    pools are exactly the one kept in [self.connection], or none. *)
Theorem storage_holds_every_open_pool
    (refused : nat -> option Py.exn) (calls : list Storage.call)
    (s : Storage.storage) (w : Storage.world) :
  Storage.open_pools w = Storage.held s ->
  Storage.open_pools (snd (Storage.run refused calls (s, w)))
  = Storage.held (fst (Storage.run refused calls (s, w))).
Proof.
  unfold Storage.run.
  change s with (fst (s, w)) at 1. change w with (snd (s, w)) at 1.
  generalize (s, w) as sw. clear s w.
  induction calls as [|c calls IH]; intros sw H; cbn [fold_left].
  - exact H.
  - apply IH. now apply StorageFacts.step_keeps_balance.
Qed.

Lemma storage_holds_every_open_pool_witness :
  let s := Storage.mk_storage None (Some (Runtime.mk_ELKAsync true))
             (Py.PStr "postgresql://localhost/service") Py.PNone Py.PNone
             Py.PNone Py.PNone (Py.PInt 5) (Py.PInt 75) (Py.PInt 50000)
             (Py.PInt 300) in
  let w := Storage.mk_world 0%nat [] [] in
  let refused := fun n => if Nat.eqb n 1%nat
                          then Some (Py.simple_exn "ConnectionRefusedError"
                                       ["OSError"] "refused")
                          else None in
  let calls := [Storage.Open; Storage.Open; Storage.Open; Storage.Close;
                Storage.Close; Storage.Open] in
  Storage.open_pools (snd (Storage.run refused calls (s, w)))
  = Storage.held (fst (Storage.run refused calls (s, w))).
Proof.
  intros s w refused calls.
  apply (storage_holds_every_open_pool refused calls s w).
  reflexivity.
Defined.

(** X22: opening a storage that is already open does not keep the
    working connection: the pool it held is closed, [self.connection] is
    left empty, no new pool is asked for, and the call raises a
    RuntimeWarning. *)
Theorem second_open_closes_the_connection
    (refused : nat -> option Py.exn)
    (s : Storage.storage) (w : Storage.world) (p : Storage.pool) :
  Storage.connection s = Some p ->
  Storage.open_pools w = [p] ->
  exists s' w',
    Storage.connection_open refused s w
    = (inl (Storage.RuntimeWarning
              "Tried to open a new connection while a previous connection wasn't closed."),
       s', w')
    /\ Storage.connection s' = None
    /\ Storage.open_pools w' = []
    /\ Storage.attempts w' = Storage.attempts w.
Proof.
  intros Hs Hw.
  unfold Storage.connection_open, Storage.connection_close. rewrite Hs.
  eexists _, _. split; [reflexivity|].
  rewrite StorageFacts.log_info_open_pools, StorageFacts.log_info_attempts.
  cbn [Storage.connection Storage.with_connection Storage.open_pools Storage.attempts].
  rewrite Hw, StorageFacts.remove_pool_single. repeat split.
Qed.

Lemma second_open_closes_the_connection_witness :
  let s := Storage.mk_storage (Some 0%nat) None
             (Py.PStr "postgresql://localhost/service") Py.PNone Py.PNone
             Py.PNone Py.PNone (Py.PInt 5) (Py.PInt 75) (Py.PInt 50000)
             (Py.PInt 300) in
  let w := Storage.mk_world 1%nat [0%nat] [] in
  exists s' w',
    Storage.connection_open (fun _ => None) s w
    = (inl (Storage.RuntimeWarning
              "Tried to open a new connection while a previous connection wasn't closed."),
       s', w')
    /\ Storage.connection s' = None
    /\ Storage.open_pools w' = []
    /\ Storage.attempts w' = Storage.attempts w.
Proof.
  intros s w.
  apply (second_open_closes_the_connection (fun _ => None) s w 0%nat); reflexivity.
Defined.

(* ===================================================================== *)
(** * The class walk of service/swagger/swagger.py *)
(* ===================================================================== *)

Module SwaggerFacts.
Import Swagger.

Section Hierarchy.

Variable subclasses : string -> list string.
Variable rank : string -> nat.
Hypothesis rank_decreases :
  forall c d, In d (subclasses c) -> (rank d < rank c)%nat.

Lemma descendant_rank c d :
  descendant subclasses c d -> (rank d < rank c)%nat.
Proof.
  induction 1 as [c d H | c m d H _ IH].
  - now apply rank_decreases.
  - apply rank_decreases in H. lia.
Qed.

Lemma all_subclasses_sound depth cls d :
  elem_of d (all_subclasses subclasses depth cls) -> descendant subclasses cls d.
Proof.
  revert cls. induction depth as [|depth IH]; intros cls; cbn [all_subclasses].
  - intros H. now apply not_elem_of_empty in H.
  - rewrite elem_of_union, !elem_of_list_to_set, !list_elem_of_In, in_flat_map.
    intros [H | (m & Hm & H)].
    + now apply descendant_child.
    + apply list_elem_of_In, elem_of_elements in H.
      eapply descendant_below; eauto.
Qed.

Lemma all_subclasses_complete depth cls d :
  (rank cls < depth)%nat ->
  descendant subclasses cls d -> elem_of d (all_subclasses subclasses depth cls).
Proof.
  intros Hr H. revert depth Hr.
  induction H as [c d H | c m d H _ IH]; intros depth Hr;
    (destruct depth as [|depth]; [lia|]); cbn [all_subclasses];
    rewrite elem_of_union, !elem_of_list_to_set, !list_elem_of_In, in_flat_map.
  - now left.
  - right. exists m. split; [exact H|].
    apply list_elem_of_In, elem_of_elements, IH.
    apply rank_decreases in H. lia.
Qed.

End Hierarchy.

End SwaggerFacts.

(** X23: in a class hierarchy without cycles, [all_subclasses(cls)] is
    the set of the classes strictly below [cls]: every subclass at any
    depth is in it, nothing else is, and [cls] itself is not; so the
    schema definitions cover every descendant of [BaseClass] and not
    [BaseClass]. *)
Theorem all_subclasses_are_the_proper_descendants
    (subclasses : string -> list string) (rank : string -> nat)
    (depth : nat) (cls : string) :
  (forall c d, In d (subclasses c) -> (rank d < rank c)%nat) ->
  (rank cls < depth)%nat ->
  (forall d, elem_of d (Swagger.all_subclasses subclasses depth cls)
             <-> Swagger.descendant subclasses cls d)
  /\ ~ elem_of cls (Swagger.all_subclasses subclasses depth cls).
Proof.
  intros Hrank Hdepth. split.
  - intros d. split.
    + apply SwaggerFacts.all_subclasses_sound.
    + now apply (SwaggerFacts.all_subclasses_complete subclasses rank Hrank).
  - intros H. apply SwaggerFacts.all_subclasses_sound in H.
    apply (SwaggerFacts.descendant_rank subclasses rank Hrank) in H. lia.
Qed.

Lemma all_subclasses_are_the_proper_descendants_witness :
  (forall d, elem_of d (Swagger.all_subclasses DataClasses.subclasses 3 "BaseClass")
             <-> Swagger.descendant DataClasses.subclasses "BaseClass" d)
  /\ ~ elem_of "BaseClass"
         (Swagger.all_subclasses DataClasses.subclasses 3 "BaseClass").
Proof.
  apply (all_subclasses_are_the_proper_descendants
           DataClasses.subclasses DataClasses.rank 3 "BaseClass").
  - intros c d. unfold DataClasses.subclasses.
    destruct (String.eqb_spec c "BaseClass") as [->|_];
      [|destruct (String.eqb_spec c "Request") as [->|_];
        [|destruct (String.eqb_spec c "ResponseSuccess") as [->|_]]];
      cbn [In]; intros H;
      repeat (destruct H as [<-|H]; [vm_compute; lia|]); destruct H.
  - vm_compute; lia.
Defined.
